(** * Operation Backup & Restore Engine of neutrons-optimizer

    A shallow embedding of [src/core/safety/backup.py],
    [src/core/safety/restore.py] and the parts of [src/core/system/registry.py]
    and [src/core/system/services.py] they call; then of their callers
    [src/core/optimizations/base.py], [xbox_gamebar.py] and [power_plan.py],
    with [src/core/system/uac.py], and of [check_running_processes] of
    [src/utils/checks.py].

    - Ledger documents are JSON values as [json.load] returns them; a Python
      dict is an association list in insertion order.
    - Python exceptions are values of [exn]; a call that may raise returns a
      [result].
    - The engine runs in a state-and-exception monad over a world [W]; the
      operating system (file system, registry, service control, PowerShell,
      clock) is an interface [OS W] whose behaviour is arbitrary.
    - Calls to [logger] only write the application log; they are left out. *)

From Stdlib Require Import ZArith String Ascii List Bool Lia.
From Stdlib Require Import Permutation Sorted.
From Stdlib Require OrderedTypeEx.
From stdpp Require Import gmap strings list fin_maps pretty.

Set Warnings "-register-all".
Local Open Scope Z_scope.
Local Open Scope string_scope.

(** ** Python values and exceptions *)

Module Py.

Inductive json : Type :=
| JNull
| JBool (b : bool)
| JNum (z : Z)
| JStr (s : string)
| JList (l : list json)
| JDict (d : list (string * json)).

Inductive exn : Type :=
| OSError
| FileNotFoundError
| PermissionError
| TimeoutExpired
| ValueError
| TypeError
| AttributeError
| KeyError.

Inductive result (A : Type) : Type :=
| Ok (a : A)
| Raise (e : exn).
Arguments Ok {A} a.
Arguments Raise {A} e.

Definition is_ok {A} (r : result A) : bool :=
  match r with Ok _ => true | Raise _ => false end.

(** [bool(x)] *)
Definition truthy (x : json) : bool :=
  match x with
  | JNull => false
  | JBool b => b
  | JNum z => negb (z =? 0)%Z
  | JStr s => negb (String.eqb s "")
  | JList l => match l with [] => false | _ => true end
  | JDict d => match d with [] => false | _ => true end
  end.

Fixpoint assoc_get {A} (k : string) (d : list (string * A)) : option A :=
  match d with
  | [] => None
  | (k', v) :: d' => if String.eqb k k' then Some v else assoc_get k d'
  end.

(** [d[k] = v] on a dict: an existing key keeps its position, a new key
    goes to the end. *)
Fixpoint assoc_set {A} (k : string) (v : A) (d : list (string * A)) : list (string * A) :=
  match d with
  | [] => [(k, v)]
  | (k', v') :: d' =>
      if String.eqb k k' then (k', v) :: d' else (k', v') :: assoc_set k v d'
  end.

(** [x.get(k, default)]: only a dict has [get]. *)
Definition py_get (x : json) (k : string) (default : json) : result json :=
  match x with
  | JDict d => Ok (match assoc_get k d with Some v => v | None => default end)
  | _ => Raise AttributeError
  end.

(** [x[k]] with a string subscript. *)
Definition py_getitem (x : json) (k : string) : result json :=
  match x with
  | JDict d => match assoc_get k d with Some v => Ok v | None => Raise KeyError end
  | _ => Raise TypeError
  end.

Definition chars (s : string) : list json :=
  map (fun c => JStr (String c EmptyString)) (list_ascii_of_string s).

(** [for item in x] *)
Definition py_iter (x : json) : result (list json) :=
  match x with
  | JList l => Ok l
  | JDict d => Ok (map (fun kv => JStr (fst kv)) d)
  | JStr s => Ok (chars s)
  | _ => Raise TypeError
  end.

(** [len(x)] *)
Definition py_len (x : json) : result nat :=
  match x with
  | JList l => Ok (length l)
  | JDict d => Ok (length d)
  | JStr s => Ok (String.length s)
  | _ => Raise TypeError
  end.

(** [x.items()] *)
Definition py_items (x : json) : result (list (string * json)) :=
  match x with
  | JDict d => Ok d
  | _ => Raise AttributeError
  end.

(** [Path(x)]: only a string is path-like among JSON values. *)
Definition py_path (x : json) : result string :=
  match x with
  | JStr s => Ok s
  | _ => Raise TypeError
  end.

Fixpoint is_prefix (p s : string) : bool :=
  match p with
  | EmptyString => true
  | String c p' =>
      match s with
      | EmptyString => false
      | String c' s' => Ascii.eqb c c' && is_prefix p' s'
      end
  end.

(** [p in s] on two strings *)
Fixpoint is_substring (p s : string) : bool :=
  is_prefix p s ||
  match s with
  | EmptyString => false
  | String _ s' => is_substring p s'
  end.

(** ['text' in x]: substring on a string, membership on a list, key
    membership on a dict. *)
Definition py_str_in (p : string) (x : json) : result bool :=
  match x with
  | JStr s => Ok (is_substring p s)
  | JList l =>
      Ok (existsb (fun y => match y with JStr t => String.eqb p t | _ => false end) l)
  | JDict d => Ok (existsb (fun kv => String.eqb p (fst kv)) d)
  | _ => Raise TypeError
  end.

(** [s.replace(old, "_")] for a one-character [old] *)
Fixpoint replace_char (old : ascii) (s : string) : string :=
  match s with
  | EmptyString => EmptyString
  | String c s' =>
      (if Ascii.eqb c old then "_" else String c EmptyString) ++ replace_char old s'
  end.

Definition upper_ascii (c : ascii) : ascii :=
  let n := nat_of_ascii c in
  if (97 <=? n)%nat && (n <=? 122)%nat then ascii_of_nat (n - 32) else c.

(** [s.upper()] on ASCII text *)
Fixpoint upper (s : string) : string :=
  match s with
  | EmptyString => EmptyString
  | String c s' => String (upper_ascii c) (upper s')
  end.

Definition backslash : ascii := ascii_of_nat 92.
Definition BS : string := String backslash EmptyString.

End Py.
Export Py.

(** ** The engine's monad: a world threaded through calls that may raise *)

Definition M (W A : Type) : Type := W -> W * result A.

Definition ret {W A} (a : A) : M W A := fun w => (w, Ok a).

Definition bind {W A B} (m : M W A) (k : A -> M W B) : M W B :=
  fun w =>
    match m w with
    | (w', Ok a) => k a w'
    | (w', Raise e) => (w', Raise e)
    end.

(** A call that only observes the world. *)
Definition read {W A} (r : W -> result A) : M W A := fun w => (w, r w).

(** [try: m  except Exception as e: h e]; what [m] did before raising stays
    done. *)
Definition try_except {W A} (m : M W A) (h : exn -> M W A) : M W A :=
  fun w =>
    match m w with
    | (w', Ok a) => (w', Ok a)
    | (w', Raise e) => h e w'
    end.

Notation "x <- c ;; k" := (bind c (fun x => k))
  (at level 62, c at next level, right associativity).

(** [for x in l: s = body s x], the loop variable [s] being lost when the
    body raises. *)
Fixpoint for_fold {W A S} (l : list A) (s : S) (body : S -> A -> M W S) : M W S :=
  match l with
  | [] => ret s
  | x :: l' => s' <- body s x ;; for_fold l' s' body
  end.

(** Pure code that may raise. *)
Definition rbind {A B} (r : result A) (k : A -> result B) : result B :=
  match r with
  | Ok a => k a
  | Raise e => Raise e
  end.

Notation "'let?' x := r 'in' k" := (rbind r (fun x => k))
  (at level 10, x name, r at level 100, k at level 200).

(** [for x in l: acc = body acc x], pure. *)
Fixpoint rfold {A S} (l : list A) (s : S) (body : S -> A -> result S) : result S :=
  match l with
  | [] => Ok s
  | x :: l' => let? s' := body s x in rfold l' s' body
  end.

(** ** The operating system, as the engine calls it

    Observations ([W -> result A]) leave the world as it is; the other
    primitives return the world they leave behind, whether they succeed or
    raise. Each field stands for the library call named beside it. *)

Record CommandResult : Type := {
  success : bool;      (* returncode == 0 and not timed_out *)
  stdout : string
}.

Class OS (W : Type) : Type := {
  home : string;                                    (* Path.home() *)
  path_str : string -> string;                      (* str(Path(p)) *)
  path_parent : string -> string;                   (* Path(p).parent *)
  now_strftime : W -> string;                       (* datetime.now().strftime("%Y%m%d_%H%M%S") *)
  now_isoformat : W -> string;                      (* datetime.now().isoformat() *)
  now_timestamp : W -> Z;                           (* datetime.now().timestamp(), whole seconds *)
  path_exists : string -> W -> result bool;         (* Path.exists *)
  path_is_file : string -> W -> result bool;        (* Path.is_file *)
  path_st_mtime : string -> W -> result Z;          (* Path.stat().st_mtime, whole seconds *)
  path_rglob : string -> W -> result (list string); (* list(Path.rglob("*")) *)
  path_mkdir : string -> M W unit;                  (* Path.mkdir(parents=True, exist_ok=True) *)
  path_unlink : string -> M W unit;                 (* Path.unlink *)
  json_load : string -> W -> result json;           (* open(p, 'r'); json.load *)
  json_dump : string -> json -> M W unit;           (* open(p, 'w'); json.dump *)
  shutil_copy2 : string -> string -> M W unit;      (* shutil.copy2(src, dst) *)
  shutil_rmtree : string -> M W unit;               (* shutil.rmtree(p, ignore_errors=True) *)
  zip_write_tree : string -> string -> M W unit;    (* ZipFile(dst,'w'); write every file of src *)
  zip_extractall : string -> string -> M W unit;    (* ZipFile(zip,'r').extractall(dir) *)
  reg_export : string -> string -> M W Z;           (* run ["reg","export",key,file,"/y"]: returncode *)
  reg_import : string -> M W Z;                     (* run ["reg","import",file]: returncode *)
  sc_query : string -> W -> result (Z * string);    (* run ["sc","query",name]: returncode, stdout *)
  sc_qc : string -> W -> result (Z * string);       (* run ["sc","qc",name]: returncode, stdout *)
  net_start : string -> M W Z;                      (* run ["net","start",name]: returncode *)
  net_stop : string -> M W Z;                       (* run ["net","stop",name]: returncode *)
  run_powershell : string -> W -> W * CommandResult; (* shell.run_powershell: it catches every exception *)
  (* winreg.OpenKey and the EnumValue loop: the values read until OSError
     ended the loop, and the other exception that ended it, if any *)
  winreg_enum_values : Z -> string -> W -> list (string * json) * option exn;
  (* winreg.CreateKey; winreg.SetValueEx(key, name, 0, reg_type, value) *)
  winreg_set_value : Z -> json -> json -> json -> Z -> M W unit
}.

Definition path_join (a b : string) : string := a ++ BS ++ b.

(** winreg's handle constants *)
Definition HKEY_CLASSES_ROOT : Z := 2147483648.
Definition HKEY_CURRENT_USER : Z := 2147483649.
Definition HKEY_LOCAL_MACHINE : Z := 2147483650.
Definition HKEY_USERS : Z := 2147483651.
Definition HKEY_CURRENT_CONFIG : Z := 2147483653.
Definition REG_SZ : Z := 1.
Definition REG_DWORD : Z := 4.

(** ** Further library calls, used by the rest of the code

    Python's text built-ins work on Unicode; they are taken as given. *)

Class PyText : Type := {
  py_str : json -> string;            (* str(x), as an f-string formats x *)
  exn_str : exn -> string;            (* str(e) *)
  py_lower : string -> string         (* s.lower() *)
}.

Class Winreg (W : Type) : Type := {
  (* winreg.OpenKey(hkey, subkey); winreg.QueryValueEx(key, name): the value *)
  winreg_query_value : Z -> string -> string -> W -> result json
}.

Class Host (W : Type) : Type := {
  is_user_an_admin : W -> result Z;            (* ctypes.windll.shell32.IsUserAnAdmin() *)
  (* Path.glob(pattern): the paths produced, and the exception that ended the
     iteration, if any *)
  path_glob : string -> string -> W -> list string * option exn
}.

Class Psutil (W : Type) : Type := {
  (* psutil.process_iter(['name']): proc.info['name'] of the processes
     iterated, None where the name is not available, and the exception that
     ended the iteration, if any *)
  process_iter : W -> list (option string) * option exn
}.

(** ** core/system/registry.py *)

Module registry.
Section Registry.
Context {W : Type} `{os : OS W}.

Definition backup_dir : string :=
  path_join (path_join (path_join (path_join (path_join home "AppData") "Local")
    "NeutronsOptimizer") "backups") "registry".

Definition _get_hkey_name (hkey : Z) : string :=
  if (hkey =? HKEY_LOCAL_MACHINE)%Z then "HKLM"
  else if (hkey =? HKEY_CURRENT_USER)%Z then "HKCU"
  else if (hkey =? HKEY_CLASSES_ROOT)%Z then "HKCR"
  else if (hkey =? HKEY_USERS)%Z then "HKU"
  else if (hkey =? HKEY_CURRENT_CONFIG)%Z then "HKCC"
  else "UNKNOWN".

(** [subkey] arrives as a string from the capture side and as a JSON value
    from the restore side; [subkey.replace] exists on strings only. *)
Definition backup_key (hkey : Z) (subkey : json) : M W (option string) :=
  try_except
    (let hkey_name := _get_hkey_name hkey in
     timestamp <- read (fun w => Ok (now_strftime w)) ;;
     match subkey with
     | JStr subkey =>
         let safe_subkey := replace_char "/" (replace_char backslash subkey) in
         let backup_filename := hkey_name ++ "_" ++ safe_subkey ++ "_" ++ timestamp ++ ".reg" in
         let backup_path := path_join backup_dir backup_filename in
         let full_key := hkey_name ++ BS ++ subkey in
         returncode <- reg_export full_key backup_path ;;
         if (returncode =? 0)%Z then ret (Some backup_path) else ret None
     | _ => fun w => (w, Raise AttributeError)
     end)
    (fun _ => ret None).

Definition restore_from_backup (backup_path : string) : M W bool :=
  try_except
    (ex <- read (path_exists backup_path) ;;
     if negb ex then ret false
     else
       returncode <- reg_import backup_path ;;
       ret (returncode =? 0)%Z)
    (fun _ => ret false).

(** [backup_key] has its own handler, so [backup_path] is bound whenever the
    handler below runs. *)
Definition write_value (hkey : Z) (subkey value_name value : json) (reg_type : Z) : M W bool :=
  backup_path <- backup_key hkey subkey ;;
  try_except
    (_ <- winreg_set_value hkey subkey value_name value reg_type ;;
     ret true)
    (fun _ =>
       match backup_path with
       | Some p =>
           if negb (String.eqb p "") then (_ <- restore_from_backup p ;; ret false)
           else ret false
       | None => ret false
       end).

(** The values read so far are returned whatever ended the enumeration. *)
Definition enumerate_values (hkey : Z) (subkey : string) : M W (list (string * json)) :=
  fun w =>
    let values := fold_left (fun d nv => assoc_set (fst nv) (snd nv) d)
                    (fst (winreg_enum_values hkey subkey w)) [] in
    (w, Ok values).

End Registry.

Section RegistryMore.
Context {W : Type} `{os : OS W} `{reg : Winreg W}.

(** Both handlers return [None]. *)
Definition read_value (hkey : Z) (subkey value_name : string) : M W (option json) :=
  try_except
    (value <- read (winreg_query_value hkey subkey value_name) ;;
     ret (Some value))
    (fun _ => ret None).

End RegistryMore.
End registry.

(** ** core/system/services.py *)

Inductive ServiceState : Type := STOPPED | RUNNING | PAUSED | UNKNOWN.

Definition ServiceState_value (s : ServiceState) : string :=
  match s with
  | STOPPED => "STOPPED"
  | RUNNING => "RUNNING"
  | PAUSED => "PAUSED"
  | UNKNOWN => "UNKNOWN"
  end.

Definition ServiceState_eqb (a b : ServiceState) : bool :=
  String.eqb (ServiceState_value a) (ServiceState_value b).

Definition is_space (c : ascii) : bool :=
  let n := nat_of_ascii c in
  (n =? 32)%nat || ((9 <=? n)%nat && (n <=? 13)%nat).

Fixpoint lstrip (s : string) : string :=
  match s with
  | EmptyString => EmptyString
  | String c s' => if is_space c then lstrip s' else s
  end.

Fixpoint rev_string (s acc : string) : string :=
  match s with
  | EmptyString => acc
  | String c s' => rev_string s' (String c acc)
  end.

(** [s.strip()] *)
Definition strip (s : string) : string :=
  rev_string (lstrip (rev_string (lstrip s) EmptyString)) EmptyString.

(** [s.split(sep)] for a one-character separator; [cur] is the piece being
    read, reversed. *)
Fixpoint split_acc (sep : ascii) (s cur : string) : list string :=
  match s with
  | EmptyString => [rev_string cur EmptyString]
  | String c s' =>
      if Ascii.eqb c sep then rev_string cur EmptyString :: split_acc sep s' EmptyString
      else split_acc sep s' (String c cur)
  end.

Definition split (sep : ascii) (s : string) : list string := split_acc sep s EmptyString.

(** [s.split(sep, 1)] when [sep in s] *)
Fixpoint split_once (sep : ascii) (s cur : string) : option (string * string) :=
  match s with
  | EmptyString => None
  | String c s' =>
      if Ascii.eqb c sep then Some (rev_string cur EmptyString, s')
      else split_once sep s' (String c cur)
  end.

Definition newline : ascii := ascii_of_nat 10.

Module ServiceManager.
Section Services.
Context {W : Type} `{os : OS W}.

Definition get_service_status (service_name : string) : M W ServiceState :=
  try_except
    (r <- read (sc_query service_name) ;;
     let '(returncode, out) := r in
     if (returncode =? 0)%Z then
       let output := upper out in
       if is_substring "RUNNING" output then ret RUNNING
       else if is_substring "STOPPED" output then ret STOPPED
       else if is_substring "PAUSED" output then ret PAUSED
       else ret UNKNOWN
     else ret UNKNOWN)
    (fun _ => ret UNKNOWN).

Definition start_service (service_name : string) : M W bool :=
  try_except
    (st <- get_service_status service_name ;;
     if ServiceState_eqb st RUNNING then ret true
     else
       returncode <- net_start service_name ;;
       ret (returncode =? 0)%Z)
    (fun _ => ret false).

Definition stop_service (service_name : string) : M W bool :=
  try_except
    (st <- get_service_status service_name ;;
     if ServiceState_eqb st STOPPED then ret true
     else
       returncode <- net_stop service_name ;;
       ret (returncode =? 0)%Z)
    (fun _ => ret false).

Definition parse_line (info : list (string * json)) (line : string) : list (string * json) :=
  let line := strip line in
  match split_once ":" line EmptyString with
  | Some (key, value) => assoc_set (strip key) (JStr (strip value)) info
  | None => info
  end.

Definition get_service_info (service_name : string) : M W (list (string * json)) :=
  try_except
    (r <- read (sc_qc service_name) ;;
     let '(returncode, output) := r in
     if (returncode =? 0)%Z then
       let info := fold_left parse_line (split newline output) [] in
       status <- get_service_status service_name ;;
       ret (assoc_set "STATUS" (JStr (ServiceState_value status)) info)
     else ret [])
    (fun _ => ret []).

End Services.
End ServiceManager.

(** [with ServiceOperation(service_name, operation): body]. [__enter__]
    records the state; [__exit__] returns [False], so what the body raised
    is raised again after the attempt to put the service back. *)
Module ServiceOperation.
Section Operation.
Context {W : Type} `{os : OS W}.

Definition __exit__ (service_name : string) (original_state : ServiceState) : M W unit :=
  if ServiceState_eqb original_state RUNNING then
    _ <- ServiceManager.start_service service_name ;; ret tt
  else if ServiceState_eqb original_state STOPPED then
    _ <- ServiceManager.stop_service service_name ;; ret tt
  else ret tt.

Definition with_ {A} (service_name : string) (body : M W A) : M W A :=
  original_state <- ServiceManager.get_service_status service_name ;;
  try_except body
    (fun e =>
       _ <- __exit__ service_name original_state ;;
       fun w => (w, Raise e)).

End Operation.
End ServiceOperation.

(** ** core/safety/backup.py *)

Module BackupManager.
Section Backup.
Context {W : Type} `{os : OS W}.

Definition backup_root : string :=
  path_join (path_join (path_join (path_join home "AppData") "Local")
    "NeutronsOptimizer") "backups".

Definition file_backups : string := path_join backup_root "files".

(** [self.backup_root / f"{backup_id}_info.json"] *)
Definition info_file (backup_id : string) : string :=
  path_join backup_root (backup_id ++ "_info.json").

(** No handler: what [open] or [json.dump] raises reaches the caller. *)
Definition create_operation_backup (operation_name : string) : M W string :=
  timestamp <- read (fun w => Ok (now_strftime w)) ;;
  let backup_id := operation_name ++ "_" ++ timestamp in
  let backup_info := JDict [
    ("operation", JStr operation_name);
    ("timestamp", JStr timestamp);
    ("backup_id", JStr backup_id);
    ("registry_backups", JList []);
    ("file_backups", JList []);
    ("service_states", JDict []);
    ("power_settings", JDict []);
    ("startup_items", JList [])] in
  _ <- json_dump (info_file backup_id) backup_info ;;
  ret backup_id.

(** [if key:] *)
Definition key_given (key : option string) : option string :=
  match key with
  | Some k => if String.eqb k "" then None else Some k
  | None => None
  end.

(** The "Atualizar secao" step of [_update_backup_info] on the loaded
    document. On a document that is not a dict every path ends in
    [TypeError]: [in] fails on numbers, booleans and [None], and a string
    subscript fails on lists and strings. *)
Definition update_section (backup_info : json) (section : string) (data : json)
    (key : option string) : result json :=
  match backup_info with
  | JDict d =>
      match key_given key with
      | Some k =>
          let d1 := match assoc_get section d with
                    | Some _ => d
                    | None => assoc_set section (JDict []) d
                    end in
          match assoc_get section d1 with
          | Some (JDict s) => Ok (JDict (assoc_set section (JDict (assoc_set k data s)) d1))
          | Some _ => Raise TypeError
          | None => Raise KeyError
          end
      | None =>
          let d1 := match assoc_get section d with
                    | Some _ => d
                    | None => assoc_set section (JList []) d
                    end in
          match assoc_get section d1 with
          | Some (JList l) => Ok (JDict (assoc_set section (JList (l ++ [data])) d1))
          | Some _ => Ok (JDict (assoc_set section data d1))
          | None => Raise KeyError
          end
      end
  | _ => Raise TypeError
  end.

(** Returns [None] whatever happened: a failure is logged and dropped. *)
Definition _update_backup_info (backup_id section : string) (data : json)
    (key : option string) : M W unit :=
  try_except
    (let info_file := info_file backup_id in
     ex <- read (path_exists info_file) ;;
     backup_info <- (if ex then read (json_load info_file) else ret (JDict [])) ;;
     backup_info <- read (fun _ => update_section backup_info section data key) ;;
     json_dump info_file backup_info)
    (fun _ => ret tt).

Definition backup_registry_key (backup_id : string) (hkey : Z) (subkey description : string)
    : M W bool :=
  try_except
    (backup_path <- registry.backup_key hkey (JStr subkey) ;;
     match backup_path with
     | Some p =>
         if negb (String.eqb p "") then
           _ <- _update_backup_info backup_id "registry_backups" (JDict [
                  ("hkey", JStr (registry._get_hkey_name hkey));
                  ("subkey", JStr subkey);
                  ("backup_path", JStr p);
                  ("description", JStr description)]) None ;;
           ret true
         else ret false
     | None => ret false
     end)
    (fun _ => ret false).

(** [str(source).replace(":", "_").replace(BS, "_").replace("/", "_")] *)
Definition safe_name (source : string) : string :=
  replace_char "/" (replace_char backslash (replace_char ":" source)).

Definition backup_file (backup_id file_path description : string) : M W bool :=
  try_except
    (let source := path_str file_path in
     ex <- read (path_exists source) ;;
     if negb ex then ret true
     else
       let backup_name := backup_id ++ "_" ++ safe_name source in
       let backup_path := path_join file_backups backup_name in
       _ <- shutil_copy2 source backup_path ;;
       _ <- _update_backup_info backup_id "file_backups" (JDict [
              ("original_path", JStr source);
              ("backup_path", JStr backup_path);
              ("description", JStr description)]) None ;;
       ret true)
    (fun _ => ret false).

Definition backup_directory (backup_id dir_path description : string) : M W bool :=
  try_except
    (let source := path_str dir_path in
     ex <- read (path_exists source) ;;
     if negb ex then ret true
     else
       let backup_name := backup_id ++ "_" ++ safe_name source ++ ".zip" in
       let backup_path := path_join file_backups backup_name in
       _ <- zip_write_tree source backup_path ;;
       _ <- _update_backup_info backup_id "file_backups" (JDict [
              ("original_path", JStr source);
              ("backup_path", JStr backup_path);
              ("type", JStr "directory_zip");
              ("description", JStr description)]) None ;;
       ret true)
    (fun _ => ret false).

Definition backup_service_state (backup_id service_name : string) : M W bool :=
  try_except
    (state <- ServiceManager.get_service_status service_name ;;
     info <- ServiceManager.get_service_info service_name ;;
     let service_backup := JDict [
       ("name", JStr service_name);
       ("state", JStr (ServiceState_value state));
       ("info", JDict info)] in
     _ <- _update_backup_info backup_id "service_states" service_backup (Some service_name) ;;
     ret true)
    (fun _ => ret false).

Definition get_power_plan_script : string :=
  "Get-WmiObject -Class Win32_PowerPlan -Namespace root" ++ BS ++ "cimv2" ++ BS ++
  "power | Where-Object {$_.IsActive -eq $true} | Select-Object InstanceID, ElementName".

Definition backup_power_plan (backup_id : string) : M W bool :=
  try_except
    (result <- (fun w => let (w', r) := run_powershell get_power_plan_script w in (w', Ok r)) ;;
     if success result then
       now <- read (fun w => Ok (now_isoformat w)) ;;
       let power_info := JDict [("output", JStr (stdout result)); ("timestamp", JStr now)] in
       _ <- _update_backup_info backup_id "power_settings" power_info None ;;
       ret true
     else ret false)
    (fun _ => ret false).

Definition run_key : string :=
  "Software" ++ BS ++ "Microsoft" ++ BS ++ "Windows" ++ BS ++ "CurrentVersion" ++ BS ++ "Run".

Definition startup_locations : list (Z * string) :=
  [ (HKEY_CURRENT_USER, run_key);
    (HKEY_LOCAL_MACHINE, run_key);
    (HKEY_CURRENT_USER, run_key ++ "Once");
    (HKEY_LOCAL_MACHINE, run_key ++ "Once") ].

Definition startup_item (hkey : Z) (subkey : string) (nv : string * json) : json :=
  JDict [
    ("hkey", JStr (registry._get_hkey_name hkey));
    ("subkey", JStr subkey);
    ("name", JStr (fst nv));
    ("value", snd nv);
    ("type", JStr "registry")].

(** The whole list [startup_items] is handed to [_update_backup_info] as one
    [data]. *)
Definition backup_startup_items (backup_id : string) : M W bool :=
  try_except
    (startup_items <-
       for_fold startup_locations ([] : list json) (fun startup_items loc =>
         let '(hkey, subkey) := loc in
         try_except
           (values <- registry.enumerate_values hkey subkey ;;
            ret (startup_items ++ map (startup_item hkey subkey) values)%list)
           (fun _ => ret startup_items)) ;;
     _ <- _update_backup_info backup_id "startup_items" (JList startup_items) None ;;
     ret true)
    (fun _ => ret false).

Definition get_backup_info (backup_id : string) : M W (option json) :=
  try_except
    (let info_file := info_file backup_id in
     ex <- read (path_exists info_file) ;;
     if ex then (j <- read (json_load info_file) ;; ret (Some j))
     else ret None)
    (fun _ => ret None).

Definition old_enough (cutoff_time : Z) (backup_file : string) : M W bool :=
  is_file <- read (path_is_file backup_file) ;;
  if is_file then
    mtime <- read (path_st_mtime backup_file) ;;
    ret (mtime <? cutoff_time)%Z
  else ret false.

(** The [for] loop of [cleanup_old_backups]; [removed_count] is a local of
    the function, so what was counted before an exception is still
    returned. *)
Fixpoint cleanup_loop (cutoff_time : Z) (files : list string) (removed_count : Z)
    : W -> W * (Z * option exn) :=
  fun w =>
    match files with
    | [] => (w, (removed_count, None))
    | backup_file :: rest =>
        match old_enough cutoff_time backup_file w with
        | (w1, Raise e) => (w1, (removed_count, Some e))
        | (w1, Ok false) => cleanup_loop cutoff_time rest removed_count w1
        | (w1, Ok true) =>
            match path_unlink backup_file w1 with
            | (w2, Raise e) => (w2, (removed_count, Some e))
            | (w2, Ok _) => cleanup_loop cutoff_time rest (removed_count + 1)%Z w2
            end
        end
    end.

Definition cleanup_old_backups (days : Z) : M W Z :=
  fun w =>
    let cutoff_time := (now_timestamp w - days * 24 * 3600)%Z in
    match path_rglob backup_root w with
    | Raise _ => (w, Ok 0%Z)
    | Ok files =>
        let '(w', (removed_count, _)) := cleanup_loop cutoff_time files 0%Z w in
        (w', Ok removed_count)
    end.

End Backup.

Section BackupMore.
Context {W : Type} `{os : OS W} `{host : Host W}.

(** [x.get('timestamp', '')] on a listed document, which is a dict. *)
Definition timestamp_key (x : json) : json :=
  match x with
  | JDict d => match assoc_get "timestamp" d with Some v => v | None => JStr "" end
  | _ => JStr ""
  end.

Definition is_str (x : json) : bool := match x with JStr _ => true | _ => false end.
Definition is_num (x : json) : bool :=
  match x with JNum _ | JBool _ => true | _ => false end.
Definition is_list (x : json) : bool := match x with JList _ => true | _ => false end.

Definition num_value (x : json) : Z :=
  match x with
  | JNum z => z
  | JBool true => 1%Z
  | _ => 0%Z
  end.

(** [a < b] on two keys of the same kind, strings by code point. *)
Definition key_lt (a b : json) : bool :=
  match a, b with
  | JStr s, JStr t => String.ltb s t
  | _, _ => (num_value a <? num_value b)%Z
  end.

(** A stable sort in descending order: [x] goes after the documents whose
    key is not smaller than its own. *)
Fixpoint insert_desc (x : json) (sorted : list json) : list json :=
  match sorted with
  | [] => [x]
  | y :: rest =>
      if key_lt (timestamp_key y) (timestamp_key x) then x :: y :: rest
      else y :: insert_desc x rest
  end.

Definition sort_desc (l : list json) : list json :=
  fold_left (fun sorted x => insert_desc x sorted) l [].

(** [backups.sort(key=lambda x: x.get('timestamp', ''), reverse=True)].
    With fewer than two documents nothing is compared. Strings compare with
    strings and numbers with numbers; [None], dicts and keys of different
    kinds do not compare, and every document is compared at least once, so
    the sort raises [TypeError]. When every key is a list, what Python does
    depends on the pairs it happens to compare: that case is
    [sort_list_keys]. *)
Definition sort_newest_first (sort_list_keys : list json -> result (list json))
    (backups : list json) : result (list json) :=
  match backups with
  | [] | [_] => Ok backups
  | _ =>
      let keys := map timestamp_key backups in
      if forallb is_str keys || forallb is_num keys then Ok (sort_desc backups)
      else if forallb is_list keys then sort_list_keys backups
      else Raise TypeError
  end.

(** [backup_info['info_file'] = str(info_file)] needs a dict; a document
    that is not one is skipped like an unreadable file. *)
Definition read_backup (info_file : string) (w : W) : option json :=
  match json_load info_file w with
  | Ok (JDict d) => Some (JDict (assoc_set "info_file" (JStr info_file) d))
  | _ => None
  end.

(** The sort is outside the [try]. *)
Definition list_backups (sort_list_keys : list json -> result (list json))
    : M W (list json) :=
  fun w =>
    let backups :=
      omap (fun info_file => read_backup info_file w)
        (fst (path_glob backup_root "*_info.json" w)) in
    (w, sort_newest_first sort_list_keys backups).

End BackupMore.
End BackupManager.

(** ** core/safety/restore.py *)

Module RestoreManager.
Section Restore.
Context {W : Type} `{os : OS W}.

Definition powershell (script : string) : M W CommandResult :=
  fun w => let (w', r) := run_powershell script w in (w', Ok r).

Definition json_is_str (x : json) (s : string) : bool :=
  match x with
  | JStr t => String.eqb t s
  | _ => false
  end.

(** [not backup_path or not Path(backup_path).exists()] *)
Definition blob_missing (backup_path : json) : M W bool :=
  if negb (truthy backup_path) then ret true
  else
    p <- read (fun _ => py_path backup_path) ;;
    ex <- read (path_exists p) ;;
    ret (negb ex).

Definition _restore_registry_backup (reg_backup : json) : M W bool :=
  try_except
    (backup_path <- read (fun _ => py_get reg_backup "backup_path" JNull) ;;
     missing <- blob_missing backup_path ;;
     if missing then ret false
     else
       p <- read (fun _ => py_path backup_path) ;;
       registry.restore_from_backup p)
    (fun _ => ret false).

Definition _restore_single_file (original_path backup_path : json) : M W bool :=
  try_except
    (original <- read (fun _ => py_path original_path) ;;
     backup <- read (fun _ => py_path backup_path) ;;
     _ <- path_mkdir (path_parent original) ;;
     _ <- shutil_copy2 backup original ;;
     ret true)
    (fun _ => ret false).

Definition _restore_directory_from_zip (original_path backup_zip : json) : M W bool :=
  try_except
    (original_dir <- read (fun _ => py_path original_path) ;;
     backup_zip_path <- read (fun _ => py_path backup_zip) ;;
     ex <- read (path_exists original_dir) ;;
     _ <- (if ex then shutil_rmtree original_dir else ret tt) ;;
     _ <- path_mkdir original_dir ;;
     _ <- zip_extractall backup_zip_path original_dir ;;
     ret true)
    (fun _ => ret false).

Definition _restore_file_backup (file_backup : json) : M W bool :=
  try_except
    (original_path <- read (fun _ => py_get file_backup "original_path" JNull) ;;
     backup_path <- read (fun _ => py_get file_backup "backup_path" JNull) ;;
     backup_type <- read (fun _ => py_get file_backup "type" (JStr "file")) ;;
     missing <- blob_missing backup_path ;;
     if missing then ret false
     else if json_is_str backup_type "directory_zip" then
       _restore_directory_from_zip original_path backup_path
     else
       _restore_single_file original_path backup_path)
    (fun _ => ret false).

Definition _restore_service_state (service_name : string) (service_data : json) : M W bool :=
  try_except
    (target_state <- read (fun _ => py_get service_data "state" (JStr "UNKNOWN")) ;;
     if json_is_str target_state "RUNNING" then ServiceManager.start_service service_name
     else if json_is_str target_state "STOPPED" then ServiceManager.stop_service service_name
     else ret true)
    (fun _ => ret false).

Definition ultimate_performance : string :=
  "powercfg -setactive e9a42b02-d5df-448d-aa00-03f14749eb61".
Definition high_performance : string :=
  "powercfg -setactive 8c5e7fda-e8bf-4a96-9a85-a6e23a8c635c".

Definition high_performance_fallback : M W bool :=
  result <- powershell high_performance ;;
  ret (success result).

Definition _restore_power_plan (power_settings : json) : M W bool :=
  try_except
    (output <- read (fun _ => py_get power_settings "output" (JStr "")) ;;
     ultimate <- read (fun _ => py_str_in "Ultimate Performance" output) ;;
     if ultimate then
       result <- powershell ultimate_performance ;;
       if success result then ret true else high_performance_fallback
     else high_performance_fallback)
    (fun _ => ret false).

(** [hkey_map.get(hkey_name)]: a list or a dict is unhashable. *)
Definition hkey_map_get (hkey_name : json) : result (option Z) :=
  match hkey_name with
  | JStr s =>
      Ok (if String.eqb s "HKLM" then Some HKEY_LOCAL_MACHINE
          else if String.eqb s "HKCU" then Some HKEY_CURRENT_USER
          else if String.eqb s "HKCR" then Some HKEY_CLASSES_ROOT
          else if String.eqb s "HKU" then Some HKEY_USERS
          else if String.eqb s "HKCC" then Some HKEY_CURRENT_CONFIG
          else None)
  | JList _ | JDict _ => Raise TypeError
  | _ => Ok None
  end.

(** The body of the [for item in startup_items] loop with its own
    [try/except]: [true] when [success_count] was incremented. *)
Definition restore_startup_item (item : json) : M W bool :=
  try_except
    (ty <- read (fun _ => py_get item "type" JNull) ;;
     if json_is_str ty "registry" then
       hkey_name <- read (fun _ => py_get item "hkey" JNull) ;;
       subkey <- read (fun _ => py_get item "subkey" JNull) ;;
       name <- read (fun _ => py_get item "name" JNull) ;;
       value <- read (fun _ => py_get item "value" JNull) ;;
       hkey <- read (fun _ => hkey_map_get hkey_name) ;;
       match hkey with
       | Some hkey =>
           if truthy subkey && truthy name && truthy value then
             registry.write_value hkey subkey name value REG_SZ
           else ret false
       | None => ret false
       end
     else ret false)
    (fun _ => ret false).

Definition _restore_startup_items (startup_items : json) : M W bool :=
  try_except
    (total_items <- read (fun _ => py_len startup_items) ;;
     items <- read (fun _ => py_iter startup_items) ;;
     success_count <-
       for_fold items 0%nat (fun success_count item =>
         ok <- restore_startup_item item ;;
         ret (if ok then S success_count else success_count)) ;;
     ret ((0 <? success_count)%nat || (total_items =? 0)%nat))
    (fun _ => ret false).

(** [for e in entries: if not restore(e): success = False] *)
Definition restore_each {A} (restore : A -> M W bool) (entries : list A) (success : bool)
    : M W bool :=
  for_fold entries success (fun success e =>
    ok <- restore e ;;
    ret (if ok then success else false)).

Definition restore_sections (backup_info : json) : M W bool :=
  _ <- read (fun _ => py_get backup_info "operation" (JStr "Unknown")) ;;
  let success := true in
  (* Restaurar registro *)
  registry_backups <- read (fun _ => py_get backup_info "registry_backups" JNull) ;;
  success <-
    (if truthy registry_backups then
       entries <- read (fun _ => py_iter registry_backups) ;;
       restore_each _restore_registry_backup entries success
     else ret success) ;;
  (* Restaurar arquivos *)
  file_backups <- read (fun _ => py_get backup_info "file_backups" JNull) ;;
  success <-
    (if truthy file_backups then
       entries <- read (fun _ => py_iter file_backups) ;;
       restore_each _restore_file_backup entries success
     else ret success) ;;
  (* Restaurar servicos *)
  service_states <- read (fun _ => py_get backup_info "service_states" JNull) ;;
  success <-
    (if truthy service_states then
       entries <- read (fun _ => py_items service_states) ;;
       restore_each (fun e => _restore_service_state (fst e) (snd e)) entries success
     else ret success) ;;
  (* Restaurar plano de energia *)
  power_settings <- read (fun _ => py_get backup_info "power_settings" JNull) ;;
  success <-
    (if truthy power_settings then
       ok <- _restore_power_plan power_settings ;;
       ret (if ok then success else false)
     else ret success) ;;
  (* Restaurar itens de inicializacao *)
  startup_items <- read (fun _ => py_get backup_info "startup_items" JNull) ;;
  success <-
    (if truthy startup_items then
       ok <- _restore_startup_items startup_items ;;
       ret (if ok then success else false)
     else ret success) ;;
  ret success.

(** [if not backup_info]: [None] or a falsy document. *)
Definition restore_operation (backup_id : string) : M W bool :=
  try_except
    (backup_info <- BackupManager.get_backup_info backup_id ;;
     match backup_info with
     | None => ret false
     | Some backup_info =>
         if negb (truthy backup_info) then ret false
         else restore_sections backup_info
     end)
    (fun _ => ret false).

End Restore.

Section RestoreMore.
Context {W : Type} `{os : OS W} `{host : Host W} `{txt : PyText}.

Definition JNat (n : nat) : json := JNum (Z.of_nat n).

(** The dict literal is evaluated in order; [sum(counts.values())] closes it. *)
Definition _count_backup_items (backup_info : json) : result json :=
  let? registry_backups := py_get backup_info "registry_backups" (JList []) in
  let? n_registry := py_len registry_backups in
  let? file_backups := py_get backup_info "file_backups" (JList []) in
  let? n_files := py_len file_backups in
  let? service_states := py_get backup_info "service_states" (JDict []) in
  let? n_services := py_len service_states in
  let? startup_items := py_get backup_info "startup_items" (JList []) in
  let? n_startup := py_len startup_items in
  let? power_settings := py_get backup_info "power_settings" JNull in
  let n_power := if truthy power_settings then 1%nat else 0%nat in
  Ok (JDict [
    ("registry", JNat n_registry);
    ("files", JNat n_files);
    ("services", JNat n_services);
    ("startup_items", JNat n_startup);
    ("power_settings", JNat n_power);
    ("total", JNat (n_registry + n_files + n_services + n_startup + n_power))]).

Definition action (type description : string) (details : json) : json :=
  JDict [("type", JStr type); ("description", JStr description); ("details", details)].

Definition registry_action (reg_backup : json) : result json :=
  let? description := py_get reg_backup "description" (JStr "N/A") in
  let? hkey := py_get reg_backup "hkey" JNull in
  let? subkey := py_get reg_backup "subkey" JNull in
  Ok (action "registry" ("Restaurar registro: " ++ py_str description)
        (JStr (py_str hkey ++ BS ++ py_str subkey))).

Definition file_action (file_backup : json) : result json :=
  let? description := py_get file_backup "description" (JStr "N/A") in
  let? original_path := py_get file_backup "original_path" (JStr "N/A") in
  Ok (action "file" ("Restaurar arquivo: " ++ py_str description) original_path).

Definition service_action (e : string * json) : result json :=
  let? state := py_get (snd e) "state" (JStr "Unknown") in
  Ok (action "service" ("Restaurar serviço: " ++ fst e) (JStr ("Estado: " ++ py_str state))).

(** [for x in entries: actions.append(make(x))] *)
Definition append_actions {A} (make : A -> result json) (entries : list A)
    (actions : list json) : result (list json) :=
  rfold entries actions (fun actions x =>
    let? a := make x in Ok (actions ++ [a])%list).

Definition preview_of (backup_info : json) : result json :=
  let? operation := py_get backup_info "operation" (JStr "Unknown") in
  let? timestamp := py_get backup_info "timestamp" (JStr "Unknown") in
  let actions := [] in
  let? registry_backups := py_get backup_info "registry_backups" (JList []) in
  let? entries := py_iter registry_backups in
  let? actions := append_actions registry_action entries actions in
  let? file_backups := py_get backup_info "file_backups" (JList []) in
  let? entries := py_iter file_backups in
  let? actions := append_actions file_action entries actions in
  let? service_states := py_get backup_info "service_states" (JDict []) in
  let? entries := py_items service_states in
  let? actions := append_actions service_action entries actions in
  let? power_settings := py_get backup_info "power_settings" JNull in
  let actions :=
    if truthy power_settings
    then (actions ++ [action "power" "Restaurar plano de energia" (JStr "Plano anterior")])%list
    else actions in
  let? startup_items := py_get backup_info "startup_items" (JList []) in
  let? startup_count := py_len startup_items in
  let actions :=
    if (0 <? startup_count)%nat
    then (actions ++ [action "startup" "Restaurar itens de inicialização"
                        (JStr (py_str (JNat startup_count) ++ " itens"))])%list
    else actions in
  Ok (JDict [("operation", operation); ("timestamp", timestamp); ("actions", JList actions)]).

Definition get_restore_preview (backup_id : string) : M W (option json) :=
  try_except
    (backup_info <- BackupManager.get_backup_info backup_id ;;
     match backup_info with
     | None => ret None
     | Some backup_info =>
         if negb (truthy backup_info) then ret None
         else
           preview <- read (fun _ => preview_of backup_info) ;;
           ret (Some preview)
     end)
    (fun _ => ret None).

End RestoreMore.
End RestoreManager.

(** ** core/system/uac.py *)

Module UACElevation.
Section UAC.
Context {W : Type} `{host : Host W}.

Definition is_admin : M W bool :=
  try_except
    (r <- read is_user_an_admin ;;
     ret (negb (r =? 0)%Z))
    (fun _ => ret false).

End UAC.
End UACElevation.

(** ** core/optimizations/base.py

    An optimization object holds [backup_id], [status] and [last_result];
    its methods run on the object and on the world. What a subclass defines
    is a [Subclass] record. The properties [display_name] and
    [requires_admin] return a literal in every subclass of the repository;
    the abstract methods are annotated with the types given here. *)

Module base.

Inductive OptimizationStatus : Type :=
| NOT_APPLIED
| APPLIED
| SIMULATED
| ERROR
| PARTIAL.

Record OptimizationResult : Type := {
  success : bool;
  message : string;
  details : json;
  timestamp : string
}.

Record Self : Type := {
  backup_id : option string;
  status : OptimizationStatus;
  last_result : option OptimizationResult
}.

(** [__init__] *)
Definition new : Self :=
  {| backup_id := None; status := NOT_APPLIED; last_result := None |}.

Definition is_applied (self : Self) : bool :=
  match status self with APPLIED => true | _ => false end.

Definition can_revert (self : Self) : bool :=
  match backup_id self with Some _ => is_applied self | None => false end.

Section Base.
Context {W : Type} `{os : OS W} `{host : Host W} `{txt : PyText}.

Record Subclass : Type := {
  name : string;                                   (* self.__class__.__name__ *)
  display_name : string;
  requires_admin : bool;
  check_compatibility : M (Self * W) bool;
  simulate : M (Self * W) OptimizationResult;
  apply : M (Self * W) OptimizationResult;
  revert : M (Self * W) OptimizationResult
}.

(** A call of the engine, which does not see the object. *)
Definition lift {A} (m : M W A) : M (Self * W) A :=
  fun sw => let (w', r) := m (snd sw) in ((fst sw, w'), r).

Definition get_self : M (Self * W) Self := fun sw => (sw, Ok (fst sw)).

Definition set_backup_id (b : option string) : M (Self * W) unit :=
  fun sw =>
    (({| backup_id := b; status := status (fst sw); last_result := last_result (fst sw) |},
      snd sw), Ok tt).

Definition set_status (st : OptimizationStatus) : M (Self * W) unit :=
  fun sw =>
    (({| backup_id := backup_id (fst sw); status := st; last_result := last_result (fst sw) |},
      snd sw), Ok tt).

Definition set_last_result (r : OptimizationResult) : M (Self * W) unit :=
  fun sw =>
    (({| backup_id := backup_id (fst sw); status := status (fst sw); last_result := Some r |},
      snd sw), Ok tt).

(** [OptimizationResult(success, message, details)]: [details or {}], and
    the time of construction. *)
Definition OptimizationResult_new (success : bool) (message : string) (details : option json)
    : M (Self * W) OptimizationResult :=
  fun sw =>
    (sw, Ok {| success := success;
               message := message;
               details := match details with
                          | Some d => if truthy d then d else JDict []
                          | None => JDict []
                          end;
               timestamp := now_isoformat (snd sw) |}).

Definition create_backup (o : Subclass) : M (Self * W) bool :=
  try_except
    (id <- lift (BackupManager.create_operation_backup (name o)) ;;
     _ <- set_backup_id (Some id) ;;
     ret true)
    (fun _ => ret false).

(** No handler here: what [check_compatibility] raises reaches the caller. *)
Definition _validate_environment (o : Subclass) : M (Self * W) bool :=
  compatible <- check_compatibility o ;;
  if negb compatible then ret false
  else if requires_admin o then
    admin <- lift UACElevation.is_admin ;;
    if negb admin then ret false else ret true
  else ret true.

Definition not_compatible : string :=
  "Ambiente não compatível ou privilégios insuficientes".

Definition _safe_apply (o : Subclass) : M (Self * W) OptimizationResult :=
  try_except
    (valid <- _validate_environment o ;;
     if negb valid then OptimizationResult_new false not_compatible None
     else
       created <- create_backup o ;;
       if negb created then OptimizationResult_new false "Falha ao criar backup" None
       else
         result <- apply o ;;
         _ <- set_status (if success result then APPLIED else ERROR) ;;
         _ <- set_last_result result ;;
         ret result)
    (fun e =>
       let error_msg :=
         "Erro inesperado na otimização " ++ display_name o ++ ": " ++ exn_str e in
       _ <- set_status ERROR ;;
       result <- OptimizationResult_new false error_msg None ;;
       _ <- set_last_result result ;;
       ret result).

Definition cannot_revert : string := "Otimização não pode ser revertida".

Definition _safe_revert (o : Subclass) : M (Self * W) OptimizationResult :=
  try_except
    (self <- get_self ;;
     if negb (can_revert self) then OptimizationResult_new false cannot_revert None
     else
       result <- revert o ;;
       _ <- set_status (if success result then NOT_APPLIED else ERROR) ;;
       _ <- set_last_result result ;;
       ret result)
    (fun e =>
       let error_msg := "Erro inesperado ao reverter " ++ display_name o ++ ": " ++ exn_str e in
       _ <- set_status ERROR ;;
       result <- OptimizationResult_new false error_msg None ;;
       _ <- set_last_result result ;;
       ret result).

(** A simulation that reports problems leaves [status] as it is, and so
    does one that raises. *)
Definition _safe_simulate (o : Subclass) : M (Self * W) OptimizationResult :=
  try_except
    (valid <- _validate_environment o ;;
     if negb valid then OptimizationResult_new false not_compatible None
     else
       result <- simulate o ;;
       _ <- (if success result then set_status SIMULATED else ret tt) ;;
       _ <- set_last_result result ;;
       ret result)
    (fun e =>
       let error_msg := "Erro na simulação de " ++ display_name o ++ ": " ++ exn_str e in
       result <- OptimizationResult_new false error_msg None ;;
       _ <- set_last_result result ;;
       ret result).

End Base.
End base.

(** ** core/optimizations/xbox_gamebar.py *)

Module XboxGameBarOptimization.
Section XboxGameBar.
Context {W : Type} `{os : OS W} `{reg : Winreg W} `{host : Host W} `{txt : PyText}.

Definition gamebar_key : string := "Software" ++ BS ++ "Microsoft" ++ BS ++ "GameBar".
Definition gamedvr_key : string := "System" ++ BS ++ "GameConfigStore".

(** [value != 0 if value is not None else True] *)
Definition enabled (value : option json) : bool :=
  match value with
  | None | Some JNull => true
  | Some (JNum z) => negb (z =? 0)%Z
  | Some (JBool b) => b
  | Some _ => true
  end.

(** [registry.read_value] has its own handlers, so the bare [except] of
    this method never runs. *)
Definition _get_current_status : M W (bool * bool) :=
  value <- registry.read_value HKEY_CURRENT_USER gamebar_key "UseNexusForGameBarEnabled" ;;
  let gamebar_enabled := enabled value in
  value <- registry.read_value HKEY_CURRENT_USER gamedvr_key "GameDVR_Enabled" ;;
  let gamedvr_enabled := enabled value in
  ret (gamebar_enabled, gamedvr_enabled).

(** [sep.join(l)] *)
Fixpoint str_join (sep : string) (l : list string) : string :=
  match l with
  | [] => ""
  | [x] => x
  | x :: l' => x ++ sep ++ str_join sep l'
  end.

Definition simulate : M (base.Self * W) base.OptimizationResult :=
  try_except
    (st <- base.lift _get_current_status ;;
     let changes : list string := [] in
     let changes := if fst st then (changes ++ ["Desabilitar Game Bar"])%list else changes in
     let changes := if snd st then (changes ++ ["Desabilitar Game DVR"])%list else changes in
     base.OptimizationResult_new true
       ("Mudanças: " ++ match changes with [] => "Nenhuma" | _ => str_join ", " changes end)
       (Some (JDict [
          ("current_status",
           JDict [("gamebar_enabled", JBool (fst st)); ("gamedvr_enabled", JBool (snd st))]);
          ("planned_changes", JList (map JStr changes))])))
    (fun e => base.OptimizationResult_new false ("Erro: " ++ exn_str e) None).

Definition mark (ok : bool) : string := if ok then "✓" else "✗".

(** [success=True] whatever the two writes returned. *)
Definition apply : M (base.Self * W) base.OptimizationResult :=
  try_except
    (self <- base.get_self ;;
     _ <- match BackupManager.key_given (base.backup_id self) with
          | Some id =>
              _ <- base.lift (BackupManager.backup_registry_key id HKEY_CURRENT_USER
                                gamebar_key "Game Bar settings") ;;
              _ <- base.lift (BackupManager.backup_registry_key id HKEY_CURRENT_USER
                                gamedvr_key "Game DVR settings") ;;
              ret tt
          | None => ret tt
          end ;;
     let results : list string := [] in
     ok <- base.lift (registry.write_value HKEY_CURRENT_USER (JStr gamebar_key)
                        (JStr "UseNexusForGameBarEnabled") (JNum 0) REG_DWORD) ;;
     let results := (results ++ [("Game Bar: " ++ mark ok)%string])%list in
     ok <- base.lift (registry.write_value HKEY_CURRENT_USER (JStr gamedvr_key)
                        (JStr "GameDVR_Enabled") (JNum 0) REG_DWORD) ;;
     let results := (results ++ [("Game DVR: " ++ mark ok)%string])%list in
     base.OptimizationResult_new true
       ("Xbox Game Bar desabilitado: " ++ str_join ", " results)
       (Some (JDict [("results", JList (map JStr results))])))
    (fun e => base.OptimizationResult_new false ("Erro: " ++ exn_str e) None).

Definition revert : M (base.Self * W) base.OptimizationResult :=
  try_except
    (self <- base.get_self ;;
     match BackupManager.key_given (base.backup_id self) with
     | None => base.OptimizationResult_new false "Backup não disponível" None
     | Some id =>
         ok <- base.lift (RestoreManager.restore_operation id) ;;
         base.OptimizationResult_new ok
           (if ok then "Xbox Game Bar restaurado" else "Falha na restauração") None
     end)
    (fun e => base.OptimizationResult_new false ("Erro: " ++ exn_str e) None).

Definition subclass : base.Subclass := {|
  base.name := "XboxGameBarOptimization";
  base.display_name := "Desabilitar Xbox Game Bar";
  base.requires_admin := true;
  base.check_compatibility := ret true;
  base.simulate := simulate;
  base.apply := apply;
  base.revert := revert
|}.

End XboxGameBar.
End XboxGameBarOptimization.

(** ** core/optimizations/power_plan.py

    [windows_info] is built once, when [utils/os_detect.py] is imported;
    [supports_ultimate_performance] is the flag it holds. *)

Module PowerPlanOptimization.
Section PowerPlan.
Context {W : Type} `{os : OS W} `{host : Host W} `{txt : PyText}.
Variable supports_ultimate_performance : bool.

Definition balanced : string :=
  "powercfg -setactive 381b4222-f694-41f0-9685-ff5bb260df2e".

Definition simulate : M (base.Self * W) base.OptimizationResult :=
  try_except
    (result <- base.lift (RestoreManager.powershell "powercfg /getactivescheme") ;;
     let current_plan := if success result then stdout result else "Desconhecido" in
     let ultimate_available := supports_ultimate_performance in
     let target_plan :=
       if ultimate_available then "Ultimate Performance" else "High Performance" in
     base.OptimizationResult_new true ("Será aplicado plano: " ++ target_plan)
       (Some (JDict [("current_plan", JStr current_plan);
                     ("ultimate_available", JBool ultimate_available);
                     ("target_plan", JStr target_plan)])))
    (fun e => base.OptimizationResult_new false ("Erro na simulação: " ++ exn_str e) None).

Definition apply : M (base.Self * W) base.OptimizationResult :=
  try_except
    (self <- base.get_self ;;
     _ <- match BackupManager.key_given (base.backup_id self) with
          | Some id => _ <- base.lift (BackupManager.backup_power_plan id) ;; ret tt
          | None => ret tt
          end ;;
     activated <-
       (if supports_ultimate_performance then
          result <- base.lift (RestoreManager.powershell RestoreManager.ultimate_performance) ;;
          ret (success result)
        else ret false) ;;
     if activated then
       base.OptimizationResult_new true "Plano Ultimate Performance ativado" None
     else
       result <- base.lift (RestoreManager.powershell RestoreManager.high_performance) ;;
       if success result then
         base.OptimizationResult_new true "Plano High Performance ativado" None
       else base.OptimizationResult_new false "Falha ao ativar plano de energia" None)
    (fun e => base.OptimizationResult_new false ("Erro: " ++ exn_str e) None).

Definition revert : M (base.Self * W) base.OptimizationResult :=
  try_except
    (self <- base.get_self ;;
     match BackupManager.key_given (base.backup_id self) with
     | None =>
         result <- base.lift (RestoreManager.powershell balanced) ;;
         base.OptimizationResult_new (success result) "Plano Balanced restaurado" None
     | Some id =>
         ok <- base.lift (RestoreManager.restore_operation id) ;;
         base.OptimizationResult_new ok
           (if ok then "Plano anterior restaurado" else "Falha na restauração") None
     end)
    (fun e => base.OptimizationResult_new false ("Erro: " ++ exn_str e) None).

Definition subclass : base.Subclass := {|
  base.name := "PowerPlanOptimization";
  base.display_name := "Plano de Energia High Performance";
  base.requires_admin := true;
  base.check_compatibility := ret true;
  base.simulate := simulate;
  base.apply := apply;
  base.revert := revert
|}.

End PowerPlan.
End PowerPlanOptimization.

(** ** utils/checks.py *)

Module SystemChecks.
Section Checks.
Context {W : Type} `{ps : Psutil W} `{txt : PyText}.

(** [for target in process_names: if target.lower() in proc_name:
    running[target] = True] *)
Definition mark_targets (process_names : list string) (proc_name : string)
    (running : list (string * bool)) : list (string * bool) :=
  fold_left (fun running target =>
               if is_substring (py_lower target) proc_name
               then assoc_set target true running else running)
    process_names running.

(** The outer loop; a process without a name has [None] there, and
    [None.lower()] raises. *)
Definition scan (process_names : list string) (procs : list (option string))
    : result (list (string * bool)) :=
  rfold procs [] (fun running proc =>
    match proc with
    | Some n => Ok (mark_targets process_names (py_lower n) running)
    | None => Raise AttributeError
    end).

(** [for name in process_names: if name not in running: running[name] = False] *)
Definition fill_missing (process_names : list string) (running : list (string * bool))
    : list (string * bool) :=
  fold_left (fun running name =>
               match assoc_get name running with
               | Some _ => running
               | None => assoc_set name false running
               end)
    process_names running.

(** [{name: False for name in process_names}] *)
Definition all_false (process_names : list string) : list (string * bool) :=
  fold_left (fun running name => assoc_set name false running) process_names [].

Definition check_running_processes (process_names : list string)
    : M W (list (string * bool)) :=
  fun w =>
    let (procs, stopped) := process_iter w in
    match scan process_names procs, stopped with
    | Ok running, None => (w, Ok (fill_missing process_names running))
    | _, _ => (w, Ok (all_false process_names))
    end.

End Checks.
End SystemChecks.

(** ** A reference operating system

    A small concrete [OS]: a file system of timestamped files, a registry,
    a service table and a power plan. It is the machine on which the
    examples below are run. *)

Module Sim.

Inductive blob : Type :=
| Text (s : string)
| Doc (j : json)                                        (* a ledger document *)
| RegExport (key : string) (values : list (string * json))  (* a .reg export *)
| Archive (entries : list (string * blob)).             (* a zip: relative name, content *)

Inductive node : Type :=
| File (mtime : Z) (data : blob)
| Dir.

Record world : Type := {
  files : gmap string node;
  hives : gmap string (list (string * json));
  services : gmap string ServiceState;
  plans : list (string * string);      (* installed power plans: GUID, name *)
  active_plan : string;
  clock : Z;
  read_only : list string;             (* paths that cannot be opened for writing *)
  elevated : bool                      (* writes under HKLM need elevation *)
}.

Definition set_files (f : gmap string node) (w : world) : world :=
  {| files := f; hives := hives w; services := services w; plans := plans w;
     active_plan := active_plan w; clock := clock w; read_only := read_only w;
     elevated := elevated w |}.

Definition set_hives (h : gmap string (list (string * json))) (w : world) : world :=
  {| files := files w; hives := h; services := services w; plans := plans w;
     active_plan := active_plan w; clock := clock w; read_only := read_only w;
     elevated := elevated w |}.

Definition set_services (s : gmap string ServiceState) (w : world) : world :=
  {| files := files w; hives := hives w; services := s; plans := plans w;
     active_plan := active_plan w; clock := clock w; read_only := read_only w;
     elevated := elevated w |}.

Definition set_active_plan (p : string) (w : world) : world :=
  {| files := files w; hives := hives w; services := services w; plans := plans w;
     active_plan := p; clock := clock w; read_only := read_only w;
     elevated := elevated w |}.

Definition set_read_only (l : list string) (w : world) : world :=
  {| files := files w; hives := hives w; services := services w; plans := plans w;
     active_plan := active_plan w; clock := clock w; read_only := l;
     elevated := elevated w |}.

Definition set_clock (t : Z) (w : world) : world :=
  {| files := files w; hives := hives w; services := services w; plans := plans w;
     active_plan := active_plan w; clock := t; read_only := read_only w;
     elevated := elevated w |}.

Definition can_write (p : string) (w : world) : bool :=
  negb (existsb (String.eqb p) (read_only w)).

Definition under (root p : string) : bool := is_prefix (root ++ BS) p.

Fixpoint drop (n : nat) (s : string) : string :=
  match n, s with
  | O, _ => s
  | S n', String _ s' => drop n' s'
  | S _, EmptyString => EmptyString
  end.

Fixpoint join (sep : string) (l : list string) : string :=
  match l with
  | [] => ""
  | [x] => x
  | x :: l' => x ++ sep ++ join sep l'
  end.

Definition parent (p : string) : string := join BS (removelast (split backslash p)).

Definition exists_ (p : string) (w : world) : result bool :=
  Ok (match files w !! p with Some _ => true | None => false end).

Definition is_file (p : string) (w : world) : result bool :=
  Ok (match files w !! p with Some (File _ _) => true | _ => false end).

Definition st_mtime (p : string) (w : world) : result Z :=
  match files w !! p with
  | Some (File m _) => Ok m
  | Some Dir => Ok 0%Z
  | None => Raise FileNotFoundError
  end.

Definition rglob (root : string) (w : world) : result (list string) :=
  Ok (List.filter (under root) (map fst (map_to_list (files w)))).

Definition mkdir (p : string) : M world unit :=
  fun w =>
    match files w !! p with
    | Some (File _ _) => (w, Raise OSError)
    | Some Dir => (w, Ok tt)
    | None => (set_files (<[p := Dir]> (files w)) w, Ok tt)
    end.

Definition unlink (p : string) : M world unit :=
  fun w =>
    match files w !! p with
    | Some (File _ _) =>
        if can_write p w then (set_files (delete p (files w)) w, Ok tt)
        else (w, Raise PermissionError)
    | Some Dir => (w, Raise PermissionError)
    | None => (w, Raise FileNotFoundError)
    end.

Definition load (p : string) (w : world) : result json :=
  match files w !! p with
  | Some (File _ (Doc j)) => Ok j
  | Some (File _ _) => Raise ValueError
  | Some Dir => Raise PermissionError
  | None => Raise FileNotFoundError
  end.

(** A refused [open(p, 'w')] leaves the file as it was. *)
Definition dump (p : string) (j : json) : M world unit :=
  fun w =>
    if can_write p w then (set_files (<[p := File (clock w) (Doc j)]> (files w)) w, Ok tt)
    else (w, Raise PermissionError).

(** [shutil.copy2] copies the content and the modification time. *)
Definition copy2 (src dst : string) : M world unit :=
  fun w =>
    match files w !! src with
    | Some (File m d) =>
        if can_write dst w then (set_files (<[dst := File m d]> (files w)) w, Ok tt)
        else (w, Raise PermissionError)
    | Some Dir => (w, Raise PermissionError)
    | None => (w, Raise FileNotFoundError)
    end.

Definition rmtree (p : string) : M world unit :=
  fun w =>
    (set_files (filter (fun kv => negb (String.eqb (fst kv) p || under p (fst kv)) = true)
                  (files w)) w, Ok tt).

Definition tree_entries (src : string) (w : world) : list (string * blob) :=
  omap (fun kv =>
          match snd kv with
          | File _ d =>
              if under src (fst kv)
              then Some (drop (String.length (src ++ BS)) (fst kv), d)
              else None
          | Dir => None
          end) (map_to_list (files w)).

Definition zip_write (src dst : string) : M world unit :=
  fun w =>
    if can_write dst w then
      (set_files (<[dst := File (clock w) (Archive (tree_entries src w))]> (files w)) w, Ok tt)
    else (w, Raise PermissionError).

Definition extractall (zip dir : string) : M world unit :=
  fun w =>
    match files w !! zip with
    | Some (File _ (Archive es)) =>
        (set_files (fold_left (fun f e => <[path_join dir (fst e) := File (clock w) (snd e)]> f)
                      es (files w)) w, Ok tt)
    | Some _ => (w, Raise ValueError)
    | None => (w, Raise FileNotFoundError)
    end.

Definition needs_elevation (key : string) : bool := is_prefix "HKLM" key.

Definition merge_values (new old : list (string * json)) : list (string * json) :=
  fold_left (fun d nv => assoc_set (fst nv) (snd nv) d) new old.

(** [reg export] fails on a key that does not exist. *)
Definition export (key file : string) : M world Z :=
  fun w =>
    match hives w !! key with
    | Some values =>
        if can_write file w then
          (set_files (<[file := File (clock w) (RegExport key values)]> (files w)) w, Ok 0%Z)
        else (w, Ok 1%Z)
    | None => (w, Ok 1%Z)
    end.

Definition import (file : string) : M world Z :=
  fun w =>
    match files w !! file with
    | Some (File _ (RegExport key values)) =>
        if needs_elevation key && negb (elevated w) then (w, Ok 1%Z)
        else
          let old := match hives w !! key with Some v => v | None => [] end in
          (set_hives (<[key := merge_values values old]> (hives w)) w, Ok 0%Z)
    | _ => (w, Ok 1%Z)
    end.

Definition query (name : string) (w : world) : result (Z * string) :=
  match services w !! name with
  | Some st => Ok (0%Z, "STATE : " ++ ServiceState_value st)
  | None => Ok (1060%Z, "")
  end.

Definition qc (name : string) (w : world) : result (Z * string) :=
  match services w !! name with
  | Some _ => Ok (0%Z, "SERVICE_NAME: " ++ name)
  | None => Ok (1060%Z, "")
  end.

Definition net (target : ServiceState) (name : string) : M world Z :=
  fun w =>
    match services w !! name with
    | Some _ => (set_services (<[name := target]> (services w)) w, Ok 0%Z)
    | None => (w, Ok 2%Z)
    end.

Definition setactive : string := "powercfg -setactive ".

Definition shell (script : string) (w : world) : world * CommandResult :=
  if is_prefix setactive script then
    let guid := drop (String.length setactive) script in
    match assoc_get guid (plans w) with
    | Some _ => (set_active_plan guid w, {| success := true; stdout := "" |})
    | None => (w, {| success := false; stdout := "" |})
    end
  else if is_prefix "Get-WmiObject" script then
    match assoc_get (active_plan w) (plans w) with
    | Some name => (w, {| success := true; stdout := name |})
    | None => (w, {| success := false; stdout := "" |})
    end
  else (w, {| success := false; stdout := "" |}).

Definition enum_values (hkey : Z) (subkey : string) (w : world)
    : list (string * json) * option exn :=
  match hives w !! (registry._get_hkey_name hkey ++ BS ++ subkey) with
  | Some values => (values, None)
  | None => ([], Some FileNotFoundError)
  end.

Definition value_fits (reg_type : Z) (value : json) : bool :=
  match value with
  | JStr _ => (reg_type =? REG_SZ)%Z
  | JNum _ => (reg_type =? REG_DWORD)%Z
  | _ => false
  end.

(** [CreateKey] makes the key when it is missing. *)
Definition set_value (hkey : Z) (subkey name value : json) (reg_type : Z) : M world unit :=
  fun w =>
    match subkey, name with
    | JStr subkey, JStr name =>
        let key := registry._get_hkey_name hkey ++ BS ++ subkey in
        if needs_elevation key && negb (elevated w) then (w, Raise PermissionError)
        else if value_fits reg_type value then
          let old := match hives w !! key with Some v => v | None => [] end in
          (set_hives (<[key := assoc_set name value old]> (hives w)) w, Ok tt)
        else (w, Raise TypeError)
    | _, _ => (w, Raise TypeError)
    end.

#[export] Instance os : OS world := {|
  home := "C:";
  path_str := id;
  path_parent := parent;
  now_strftime := fun w => pretty (clock w);
  now_isoformat := fun w => pretty (clock w);
  now_timestamp := clock;
  path_exists := exists_;
  path_is_file := is_file;
  path_st_mtime := st_mtime;
  path_rglob := rglob;
  path_mkdir := mkdir;
  path_unlink := unlink;
  json_load := load;
  json_dump := dump;
  shutil_copy2 := copy2;
  shutil_rmtree := rmtree;
  zip_write_tree := zip_write;
  zip_extractall := extractall;
  reg_export := export;
  reg_import := import;
  sc_query := query;
  sc_qc := qc;
  net_start := net RUNNING;
  net_stop := net STOPPED;
  run_powershell := shell;
  winreg_enum_values := enum_values;
  winreg_set_value := set_value
|}.

(** A file whose modification time is before [cutoff]. *)
Definition expired (cutoff : Z) (n : option node) : bool :=
  match n with
  | Some (File m _) => (m <? cutoff)%Z
  | _ => false
  end.

Definition inb (p : string) (ps : list string) : bool := existsb (String.eqb p) ps.

(** The section [section] of the ledger document of [backup_id], as stored. *)
Definition stored (backup_id section : string) (w : world) : option json :=
  match load (BackupManager.info_file backup_id) w with
  | Ok (JDict d) => assoc_get section d
  | _ => None
  end.

Definition empty_world : world := {|
  files := ∅; hives := ∅; services := ∅;
  plans := [("8c5e7fda-e8bf-4a96-9a85-a6e23a8c635c", "High performance");
            ("381b4222-f694-41f0-9685-ff5bb260df2e", "Balanced")];
  active_plan := "381b4222-f694-41f0-9685-ff5bb260df2e";
  clock := 1000; read_only := []; elevated := false
|}.

End Sim.

(** ** The rest of the reference machine

    Registry reads, the administrator check and directory listings of the
    machine above, and Python's text built-ins on ASCII text. *)

Module SimMore.
Import Sim.

Definition query_value (hkey : Z) (subkey name : string) (w : world) : result json :=
  match hives w !! (registry._get_hkey_name hkey ++ BS ++ subkey) with
  | Some values =>
      match assoc_get name values with
      | Some v => Ok v
      | None => Raise FileNotFoundError
      end
  | None => Raise FileNotFoundError
  end.

#[export] Instance winreg : Winreg world := {| winreg_query_value := query_value |}.

(** A pattern in which [*] stands for any run of characters. *)
Fixpoint glob_match (pattern : string) : string -> bool :=
  match pattern with
  | EmptyString => fun name => String.eqb name ""
  | String c pattern' =>
      if Ascii.eqb c "*" then
        fix star (name : string) : bool :=
          glob_match pattern' name ||
          match name with
          | EmptyString => false
          | String _ name' => star name'
          end
      else
        fun name =>
          match name with
          | EmptyString => false
          | String c' name' => Ascii.eqb c c' && glob_match pattern' name'
          end
  end.

(** The entries of [dir] itself whose name matches. *)
Definition glob (dir pattern : string) (w : world) : list string * option exn :=
  (List.filter
     (fun p =>
        under dir p &&
        let name := drop (String.length (dir ++ BS)) p in
        negb (is_substring BS name) && glob_match pattern name)
     (map fst (map_to_list (files w))),
   None).

#[export] Instance host : Host world := {|
  is_user_an_admin := fun w => Ok (if elevated w then 1%Z else 0%Z);
  path_glob := glob
|}.

Definition lower_ascii (c : ascii) : ascii :=
  let n := nat_of_ascii c in
  if (65 <=? n)%nat && (n <=? 90)%nat then ascii_of_nat (n + 32) else c.

Fixpoint lower (s : string) : string :=
  match s with
  | EmptyString => EmptyString
  | String c s' => String (lower_ascii c) (lower s')
  end.

(** [repr(x)]; a string is put between single quotes as it is, which is
    what Python prints when the string has no quote, backslash or control
    character. *)
Fixpoint repr (x : json) : string :=
  match x with
  | JNull => "None"
  | JBool true => "True"
  | JBool false => "False"
  | JNum z => pretty z
  | JStr s => "'" ++ s ++ "'"
  | JList l => "[" ++ join ", " (map repr l) ++ "]"
  | JDict d =>
      "{" ++ join ", " (map (fun kv => let '(k, v) := kv in "'" ++ k ++ "': " ++ repr v) d) ++ "}"
  end.

Definition str (x : json) : string :=
  match x with
  | JStr s => s
  | _ => repr x
  end.

(** An exception raised without a message prints as the empty string. *)
#[export] Instance text : PyText := {|
  py_str := str;
  exn_str := fun _ => "";
  py_lower := lower
|}.

End SimMore.

(** ** What the restore traversal is compared with

    [run_all] runs a restore on every entry of a list, in order, each on the
    world the previous one left, whatever the outcomes were. *)

Section Traversal.
Context {W : Type} `{os : OS W}.

Fixpoint run_all {A} (restore : A -> M W bool) (entries : list A) (w : W)
    : W * list (result bool) :=
  match entries with
  | [] => (w, [])
  | e :: rest =>
      let (w1, o) := restore e w in
      let (w2, outcomes) := run_all restore rest w1 in
      (w2, o :: outcomes)
  end.

Definition succeeded (o : result bool) : bool :=
  match o with Ok true => true | _ => false end.

Definition all_ok (outcomes : list (result bool)) : bool := forallb succeeded outcomes.
Definition any_ok (outcomes : list (result bool)) : bool := existsb succeeded outcomes.

Definition count_ok (outcomes : list (result bool)) : nat :=
  length (List.filter succeeded outcomes).

(** A ledger document laid out as [create_operation_backup] writes it. *)
Record ledger : Type := {
  operation : string;
  timestamp : string;
  registry_backups : list json;
  file_backups : list json;
  service_states : list (string * json);
  power_settings : json;
  startup_items : list json
}.

Definition doc_of (L : ledger) : json :=
  JDict [
    ("operation", JStr (operation L));
    ("timestamp", JStr (timestamp L));
    ("backup_id", JStr (operation L ++ "_" ++ timestamp L));
    ("registry_backups", JList (registry_backups L));
    ("file_backups", JList (file_backups L));
    ("service_states", JDict (service_states L));
    ("power_settings", power_settings L);
    ("startup_items", JList (startup_items L))].

Definition restore_service (e : string * json) : M W bool :=
  RestoreManager._restore_service_state (fst e) (snd e).

(** Every section in the fixed order, every entry of it; the registry, file,
    service and power outcomes must all be successes, the startup section
    needs one success unless it is empty. *)
Definition restore_all (L : ledger) (w : W) : W * bool :=
  let (w1, o1) := run_all RestoreManager._restore_registry_backup (registry_backups L) w in
  let (w2, o2) := run_all RestoreManager._restore_file_backup (file_backups L) w1 in
  let (w3, o3) := run_all restore_service (service_states L) w2 in
  let (w4, o4) :=
    run_all RestoreManager._restore_power_plan
      (if truthy (power_settings L) then [power_settings L] else []) w3 in
  let (w5, o5) := run_all RestoreManager.restore_startup_item (startup_items L) w4 in
  (w5, all_ok o1 && all_ok o2 && all_ok o3 && all_ok o4 &&
       (any_ok o5 || match startup_items L with [] => true | _ => false end)).

(** The restore steps of a ledger as world transformers, in traversal
    order. *)
Definition steps (L : ledger) : list (W -> W) :=
  (map (fun e w => fst (RestoreManager._restore_registry_backup e w)) (registry_backups L) ++
   map (fun e w => fst (RestoreManager._restore_file_backup e w)) (file_backups L) ++
   map (fun e w => fst (restore_service e w)) (service_states L) ++
   map (fun e w => fst (RestoreManager._restore_power_plan e w))
     (if truthy (power_settings L) then [power_settings L] else []) ++
   map (fun e w => fst (RestoreManager.restore_startup_item e w)) (startup_items L))%list.

Definition run (fs : list (W -> W)) (w : W) : W := fold_left (fun w f => f w) fs w.

(** A call that never raises. *)
Definition total {A} (m : M W A) : Prop := forall w, exists a, snd (m w) = Ok a.

(** The ledger file of [backup_id] behaves as a cell in every world: a
    successful dump is read back, a refused one changes nothing that a read
    of the file sees. *)
Definition ledger_cell (p : string) : Prop :=
  forall (j : json) (w : W),
    match json_dump p j w with
    | (w', Ok _) => path_exists p w' = Ok true /\ json_load p w' = Ok j
    | (w', Raise _) => path_exists p w' = path_exists p w /\ json_load p w' = json_load p w
    end.

(** One [_update_backup_info] call. *)
Record update : Type := {
  section : string;
  data : json;
  key : option string
}.

Definition apply_update (backup_id : string) (u : update) (w : W) : W :=
  fst (BackupManager._update_backup_info backup_id (section u) (data u) (key u) w).

End Traversal.

(** ** Example machines *)

Module Examples.
Import Sim.

(** A file last modified long ago, on a machine whose clock reads 10000000. *)
Definition old_txt : string := "C:" ++ BS ++ "old.txt".
Definition fresh : world :=
  set_clock 10000000 (set_files (<[old_txt := File 5 (Text "x")]> ∅) empty_world).
Definition opened : world := fst (BackupManager.create_operation_backup "op" fresh).
Definition captured : world :=
  fst (BackupManager.backup_file "op_10000000" old_txt "" opened).
Definition old_blob : string :=
  path_join BackupManager.file_backups "op_10000000_C__old.txt".

(** The ledger document of the open operation cannot be written. *)
Definition locked : world :=
  set_read_only [BackupManager.info_file "op_10000000"] opened.

Definition absent_key : string := "Software" ++ BS ++ "Absent".

(** A ledger with two startup items on a machine that is not elevated. *)
Definition user_item : json :=
  BackupManager.startup_item HKEY_CURRENT_USER BackupManager.run_key ("app", JStr "a.exe").
Definition machine_item : json :=
  BackupManager.startup_item HKEY_LOCAL_MACHINE BackupManager.run_key ("svc", JStr "s.exe").
Definition two_items : ledger := {|
  operation := "op"; timestamp := "1000";
  registry_backups := []; file_backups := []; service_states := [];
  power_settings := JDict [];
  startup_items := [user_item; machine_item] |}.
Definition with_two_items : world :=
  set_files (<[BackupManager.info_file "op_1000" := File 1000 (Doc (doc_of two_items))]> ∅)
    empty_world.

(** One run entry in the registry, captured by [backup_startup_items]. *)
Definition user_run : string := "HKCU" ++ BS ++ BackupManager.run_key.
Definition one_startup : world :=
  set_hives (<[user_run := [("app", JStr "a.exe")]]> ∅) empty_world.
Definition startup_opened : world :=
  fst (BackupManager.create_operation_backup "op" one_startup).
Definition startup_captured : world :=
  fst (BackupManager.backup_startup_items "op_1000" startup_opened).
(** The optimization then removed the entry. *)
Definition startup_disabled : world := set_hives (<[user_run := []]> ∅) startup_captured.

(** A service captured while running and again after it was stopped. *)
Definition snapshot (state : string) : json :=
  JDict [("name", JStr "svcA"); ("state", JStr state); ("info", JDict [])].
Definition capture (state : string) : update :=
  {| section := "service_states"; data := snapshot state; key := Some "svcA" |}.
Definition append_registry (description : string) : update :=
  {| section := "registry_backups"; data := JDict [("description", JStr description)];
     key := None |}.
Definition service_opened : world :=
  fst (BackupManager.create_operation_backup "op" empty_world).
Definition captured_running : world := apply_update "op_1000" (capture "RUNNING") service_opened.
Definition captured_stopped : world := apply_update "op_1000" (capture "STOPPED") captured_running.

(** Two files whose backup names collide, and the first blob captured too. *)
Definition file_a_b : string := "C:" ++ BS ++ "a" ++ BS ++ "b".
Definition file_a__b : string := "C:" ++ BS ++ "a_b".
Definition shared_blob : string := path_join BackupManager.file_backups "op_1000_C__a_b".
Definition two_files : world :=
  set_files (<[file_a_b := File 1 (Text "x")]> (<[file_a__b := File 2 (Text "y")]> ∅))
    empty_world.
Definition three_captures : world :=
  let w := fst (BackupManager.create_operation_backup "op" two_files) in
  let w := fst (BackupManager.backup_file "op_1000" file_a_b "" w) in
  let w := fst (BackupManager.backup_file "op_1000" shared_blob "" w) in
  fst (BackupManager.backup_file "op_1000" file_a__b "" w).
Definition restored_once : world :=
  fst (RestoreManager.restore_operation "op_1000" three_captures).
Definition restored_twice : world :=
  fst (RestoreManager.restore_operation "op_1000" restored_once).

(** The ledger document of a new operation cannot be written. *)
Definition unwritable : world :=
  set_read_only [BackupManager.info_file "op_1000"] empty_world.

Definition missing_txt : string := "C:" ++ BS ++ "missing.txt".

(** The document [create_operation_backup] wrote on [fresh]. *)
Definition new_ledger : ledger := {|
  operation := "op"; timestamp := "10000000";
  registry_backups := []; file_backups := []; service_states := [];
  power_settings := JDict []; startup_items := [] |}.
Definition old_txt_entry : json :=
  JDict [("original_path", JStr old_txt); ("backup_path", JStr old_blob);
         ("description", JStr "")].

Definition first_appended : world :=
  apply_update "op_1000" (append_registry "first") service_opened.

(** A ledger that holds a file and a power plan, and its blob. *)
Definition p_txt : string := "C:" ++ BS ++ "p.txt".
Definition p_blob : string := path_join BackupManager.file_backups "op_1000_C__p.txt".
Definition p_entry : json :=
  JDict [("original_path", JStr p_txt); ("backup_path", JStr p_blob);
         ("description", JStr "")].
Definition balanced : json :=
  JDict [("output", JStr "Balanced"); ("timestamp", JStr "1000")].
Definition file_and_plan : ledger := {|
  operation := "op"; timestamp := "1000";
  registry_backups := []; file_backups := [p_entry]; service_states := [];
  power_settings := balanced;
  startup_items := [] |}.
Definition with_file_and_plan : world :=
  set_files (<[BackupManager.info_file "op_1000" := File 1000 (Doc (doc_of file_and_plan))]>
               (<[p_blob := File 7 (Text "saved")]> ∅)) empty_world.

(** What restoring [p_entry] does to a machine. *)
Definition copy_back (w : world) : world :=
  match files w !! p_blob with
  | None => w
  | Some _ =>
      match mkdir "C:" w with
      | (w1, Ok _) => fst (copy2 p_blob p_txt w1)
      | (w1, Raise _) => w1
      end
  end.

Definition high_performance_guid : string := "8c5e7fda-e8bf-4a96-9a85-a6e23a8c635c".
(** What restoring [balanced] does to a machine. *)
Definition activate_high_performance (w : world) : world :=
  match assoc_get high_performance_guid (plans w) with
  | Some _ => set_active_plan high_performance_guid w
  | None => w
  end.

End Examples.

(** ** What the further properties are stated with *)

Definition is_separator (c : ascii) : bool :=
  Ascii.eqb c ":" || Ascii.eqb c backslash || Ascii.eqb c "/".

Definition is_dict (x : json) : bool := match x with JDict _ => true | _ => false end.

(** The kinds of action of a preview, in the order of the ledger sections. *)
Definition action_kinds (L : ledger) : list string :=
  (map (fun _ => "registry") (registry_backups L) ++
   map (fun _ => "file") (file_backups L) ++
   map (fun _ => "service") (service_states L) ++
   (if truthy (power_settings L) then ["power"] else []) ++
   (match startup_items L with [] => [] | _ => ["startup"] end))%list.

(** [a] is at least as recent as [b]. *)
Definition not_older (a b : json) : Prop :=
  BackupManager.key_lt (BackupManager.timestamp_key a) (BackupManager.timestamp_key b) = false.

Definition str_key (x : json) : bool := BackupManager.is_str (BackupManager.timestamp_key x).

(** The ledger of an operation that has captured nothing yet. *)
Definition fresh_ledger (operation_name timestamp : string) : ledger :=
  {| operation := operation_name; timestamp := timestamp;
     registry_backups := []; file_backups := []; service_states := [];
     power_settings := JDict []; startup_items := [] |}.

(** The entries and snapshots the capture methods record. *)
Definition file_entry (source backup_path description : string) : json :=
  JDict [("original_path", JStr source); ("backup_path", JStr backup_path);
         ("description", JStr description)].

Definition directory_entry (source backup_path description : string) : json :=
  JDict [("original_path", JStr source); ("backup_path", JStr backup_path);
         ("type", JStr "directory_zip"); ("description", JStr description)].

Definition registry_entry (hkey : Z) (subkey backup_path description : string) : json :=
  JDict [("hkey", JStr (registry._get_hkey_name hkey)); ("subkey", JStr subkey);
         ("backup_path", JStr backup_path); ("description", JStr description)].

Definition service_snapshot (service_name : string) (state : ServiceState)
    (info : list (string * json)) : json :=
  JDict [("name", JStr service_name); ("state", JStr (ServiceState_value state));
         ("info", JDict info)].

Definition power_snapshot (output timestamp : string) : json :=
  JDict [("output", JStr output); ("timestamp", JStr timestamp)].

Section Statements.
Context {W : Type} `{os : OS W} `{ps : Psutil W} `{txt : PyText}.

(** Where [backup_file] puts the copy of [source]. *)
Definition blob_of (backup_id source : string) : string :=
  path_join BackupManager.file_backups (backup_id ++ "_" ++ BackupManager.safe_name source).

(** Where [backup_directory] puts the archive of [source]. *)
Definition zip_of (backup_id source : string) : string :=
  path_join BackupManager.file_backups
    (backup_id ++ "_" ++ BackupManager.safe_name source ++ ".zip").

(** The file [registry.backup_key] exports to at time [timestamp]. *)
Definition export_of (hkey : Z) (subkey timestamp : string) : string :=
  path_join registry.backup_dir
    (registry._get_hkey_name hkey ++ "_" ++
     replace_char "/" (replace_char backslash subkey) ++ "_" ++ timestamp ++ ".reg").

(** What [_safe_revert] answers when it refuses. *)
Definition refusal (sw : base.Self * W) : base.OptimizationResult :=
  {| base.success := false;
     base.message := base.cannot_revert;
     base.details := JDict [];
     base.timestamp := now_isoformat (snd sw) |}.

(** Some process of the list has a name, lowered, in which [name], lowered,
    occurs. *)
Definition occurs (name : string) (procs : list (option string)) : bool :=
  existsb (fun proc => match proc with
                       | Some n => is_substring (py_lower name) (py_lower n)
                       | None => false
                       end) procs.

Definition named (proc : option string) : bool :=
  match proc with Some _ => true | None => false end.

(** The iteration ended by itself, every process had a name, and [name]
    occurs in one. *)
Definition found (name : string) (w : W) : bool :=
  match snd (process_iter w) with
  | None => forallb named (fst (process_iter w)) && occurs name (fst (process_iter w))
  | Some _ => false
  end.

End Statements.

(** ** Further example machines *)

Module MoreExamples.
Import Sim SimMore Examples.

Definition elevated_world : world :=
  {| files := ∅; hives := ∅; services := ∅; plans := plans empty_world;
     active_plan := active_plan empty_world; clock := 1000; read_only := [];
     elevated := true |}.

(** An elevated machine on which no power plan is installed. *)
Definition no_plans : world :=
  {| files := ∅; hives := ∅; services := ∅; plans := []; active_plan := "";
     clock := 1000; read_only := []; elevated := true |}.

Definition ultimate_performance_guid : string := "e9a42b02-d5df-448d-aa00-03f14749eb61".

Definition xbox : base.Subclass (W := world) := XboxGameBarOptimization.subclass.
Definition power : base.Subclass (W := world) := PowerPlanOptimization.subclass false.

(** The result a call returned. *)
Definition result_of {S} (x : S * result base.OptimizationResult) : base.OptimizationResult :=
  match snd x with
  | Ok r => r
  | Raise _ => {| base.success := false; base.message := ""; base.details := JNull;
                  base.timestamp := "" |}
  end.

Definition xbox_applied := base._safe_apply xbox (base.new, elevated_world).
Definition xbox_simulated := base._safe_simulate xbox (fst xbox_applied).
Definition xbox_reverted := base._safe_revert xbox (fst xbox_applied).
Definition power_validated := base._validate_environment power (base.new, no_plans).
Definition power_backed_up := base.create_backup power (fst power_validated).

(** Two operations opened one after the other. *)
Definition two_operations : world :=
  fst (BackupManager.create_operation_backup "b"
         (set_clock 2000 (fst (BackupManager.create_operation_backup "a" empty_world)))).

(** A second document whose timestamp is a number. *)
Definition foreign_info : string := path_join BackupManager.backup_root "x_info.json".
Definition mixed_timestamps : world :=
  set_files (<[foreign_info := File 1 (Doc (JDict [("timestamp", JNum 5)]))]>
               (files service_opened)) service_opened.

(** The file of [fresh] after its capture, changed by the optimization. *)
Definition old_txt_changed : world :=
  set_files (<[old_txt := File 9 (Text "changed")]> (files captured)) captured.

(** The run key of [one_startup], captured, then emptied. *)
Definition run_key_captured : world :=
  fst (BackupManager.backup_registry_key "op_1000" HKEY_CURRENT_USER BackupManager.run_key ""
         startup_opened).
Definition run_key_emptied : world :=
  set_hives (<[user_run := [("other", JStr "o.exe")]]> ∅) run_key_captured.

(** A running service, captured, then stopped. *)
Definition with_service : world := set_services (<["svcA" := RUNNING]> ∅) empty_world.
Definition service_captured : world :=
  fst (BackupManager.backup_service_state "op_1000" "svcA"
         (fst (BackupManager.create_operation_backup "op" with_service))).
Definition service_stopped : world :=
  set_services (<["svcA" := STOPPED]> ∅) service_captured.

(** A directory with one file, captured; then the file is deleted and
    another one added. *)
Definition dir_d : string := "C:" ++ BS ++ "d".
Definition dir_d_a : string := dir_d ++ BS ++ "a.txt".
Definition dir_d_new : string := dir_d ++ BS ++ "new.txt".
Definition with_directory : world :=
  set_files (<[dir_d := Dir]> (<[dir_d_a := File 1 (Text "a")]> ∅)) empty_world.
Definition directory_captured : world :=
  fst (BackupManager.backup_directory "op_1000" dir_d ""
         (fst (BackupManager.create_operation_backup "op" with_directory))).
Definition directory_changed : world :=
  set_files (<[dir_d_new := File 2 (Text "n")]> (delete dir_d_a (files directory_captured)))
    directory_captured.

(** The same directory, and a blob that is not an archive. *)
Definition junk_zip : string := path_join BackupManager.file_backups "junk.zip".
Definition with_junk : world :=
  set_files (<[junk_zip := File 1 (Text "junk")]> (files with_directory)) with_directory.

End MoreExamples.

(** * Properties *)

(** ** Association lists *)

Lemma assoc_get_set_eq {A} (k : string) (v : A) (d : list (string * A)) :
  assoc_get k (assoc_set k v d) = Some v.
Proof.
  induction d as [|[k' v'] d IH]; simpl.
  - now rewrite String.eqb_refl.
  - destruct (String.eqb k k') eqn:E; simpl; rewrite E; auto.
Qed.

Lemma assoc_get_set_ne {A} (k k' : string) (v : A) (d : list (string * A)) :
  k <> k' -> assoc_get k' (assoc_set k v d) = assoc_get k' d.
Proof.
  intros Hne. induction d as [|[k0 v0] d IH]; simpl.
  - destruct (String.eqb k' k) eqn:E; auto.
    apply String.eqb_eq in E. congruence.
  - destruct (String.eqb k k0) eqn:E; simpl.
    + apply String.eqb_eq in E. subst k0.
      destruct (String.eqb k' k) eqn:E'; auto.
      apply String.eqb_eq in E'. congruence.
    + now rewrite IH.
Qed.

(** ** The monad *)

Section MonadFacts.
Context {W : Type} `{os : OS W}.

Lemma ret_total {A} (a : A) : total (ret a : M W A).
Proof. intros w. now exists a. Qed.

Lemma bind_total {A B} (m : M W A) (k : A -> M W B) :
  total m -> (forall a, total (k a)) -> total (bind m k).
Proof.
  intros Hm Hk w. unfold bind.
  destruct (Hm w) as [a Ha]. destruct (m w) as [w1 r]. simpl in Ha. subst r.
  apply Hk.
Qed.

Lemma try_except_total {A} (m : M W A) (h : exn -> M W A) :
  (forall e, total (h e)) -> total (try_except m h).
Proof.
  intros Hh w. unfold try_except.
  destruct (m w) as [w1 [a|e]]; [now exists a | apply Hh].
Qed.

Lemma caught_total {A} (m : M W A) (a : A) : total (try_except m (fun _ => ret a)).
Proof. apply try_except_total. intros _. apply ret_total. Qed.

Lemma read_bind {A B} (a : A) (k : A -> M W B) (w : W) :
  bind (read (fun _ => Ok a)) k w = k a w.
Proof. reflexivity. Qed.

Lemma bind_run {A B} (m : M W A) (k : A -> M W B) (w w1 : W) (a : A) :
  m w = (w1, Ok a) -> bind m k w = k a w1.
Proof. intros H. unfold bind. now rewrite H. Qed.

(** ** Calls that convert every exception into an outcome *)

Lemma backup_key_total hkey subkey : total (registry.backup_key hkey subkey).
Proof. apply caught_total. Qed.

Lemma restore_from_backup_total p : total (registry.restore_from_backup p).
Proof. apply caught_total. Qed.

Lemma write_value_total hkey subkey name value ty :
  total (registry.write_value hkey subkey name value ty).
Proof.
  apply bind_total; [apply backup_key_total|].
  intros p. apply try_except_total. intros _.
  destruct p as [p|]; [|apply ret_total].
  destruct (negb (String.eqb p "")); [|apply ret_total].
  apply bind_total; [apply restore_from_backup_total | intros; apply ret_total].
Qed.

Lemma update_backup_info_total backup_id section data key :
  total (BackupManager._update_backup_info backup_id section data key).
Proof. apply caught_total. Qed.

Lemma get_backup_info_total backup_id : total (BackupManager.get_backup_info backup_id).
Proof. apply caught_total. Qed.

Lemma backup_registry_key_total backup_id hkey subkey description :
  total (BackupManager.backup_registry_key backup_id hkey subkey description).
Proof. apply caught_total. Qed.

Lemma backup_file_total backup_id file_path description :
  total (BackupManager.backup_file backup_id file_path description).
Proof. apply caught_total. Qed.

Lemma backup_directory_total backup_id dir_path description :
  total (BackupManager.backup_directory backup_id dir_path description).
Proof. apply caught_total. Qed.

Lemma backup_service_state_total backup_id service_name :
  total (BackupManager.backup_service_state backup_id service_name).
Proof. apply caught_total. Qed.

Lemma backup_power_plan_total backup_id : total (BackupManager.backup_power_plan backup_id).
Proof. apply caught_total. Qed.

Lemma backup_startup_items_total backup_id :
  total (BackupManager.backup_startup_items backup_id).
Proof. apply caught_total. Qed.

Lemma cleanup_old_backups_total days : total (BackupManager.cleanup_old_backups days).
Proof.
  intros w. unfold BackupManager.cleanup_old_backups.
  destruct (path_rglob BackupManager.backup_root w) as [fs|e]; [|now exists 0%Z].
  destruct (BackupManager.cleanup_loop _ fs 0%Z w) as [w1 [n o]]. now exists n.
Qed.

Lemma restore_registry_backup_total e : total (RestoreManager._restore_registry_backup e).
Proof. apply caught_total. Qed.

Lemma restore_file_backup_total e : total (RestoreManager._restore_file_backup e).
Proof. apply caught_total. Qed.

Lemma restore_service_total e : total (restore_service e).
Proof. apply caught_total. Qed.

Lemma restore_power_plan_total e : total (RestoreManager._restore_power_plan e).
Proof. apply caught_total. Qed.

Lemma restore_startup_item_total e : total (RestoreManager.restore_startup_item e).
Proof. apply caught_total. Qed.

Lemma restore_startup_items_total e : total (RestoreManager._restore_startup_items e).
Proof. apply caught_total. Qed.

Lemma restore_operation_total backup_id : total (RestoreManager.restore_operation backup_id).
Proof. apply caught_total. Qed.

(** Reading the ledger observes the world only. *)
Lemma get_backup_info_world backup_id w :
  fst (BackupManager.get_backup_info backup_id w) = w.
Proof.
  unfold BackupManager.get_backup_info, try_except, bind, read, ret.
  destruct (path_exists _ w) as [[|]|e]; simpl; auto.
  destruct (json_load _ w); simpl; auto.
Qed.

End MonadFacts.

(** ** The restore traversal *)

Section TraversalFacts.
Context {W : Type} `{os : OS W}.

Lemma restore_each_run_all {A} (restore : A -> M W bool) (entries : list A) :
  (forall e, total (restore e)) ->
  forall (success : bool) (w : W),
    RestoreManager.restore_each restore entries success w =
    (fst (run_all restore entries w), Ok (success && all_ok (snd (run_all restore entries w)))).
Proof.
  intros Ht. induction entries as [|e entries IH]; intros s w.
  - simpl. unfold ret. now rewrite andb_true_r.
  - unfold RestoreManager.restore_each in *. simpl.
    destruct (Ht e w) as [b Hb].
    destruct (restore e w) as [w1 r] eqn:E. simpl in Hb. subst r.
    unfold bind at 1. unfold bind at 1. rewrite E. unfold ret at 1.
    rewrite IH. destruct (run_all restore entries w1) as [w2 outcomes]. simpl.
    destruct b; simpl; [reflexivity | now rewrite andb_false_r].
Qed.

Lemma count_ok_any (outcomes : list (result bool)) (n : nat) :
  (0 <? n + count_ok outcomes)%nat = ((0 <? n)%nat || any_ok outcomes).
Proof.
  revert n. induction outcomes as [|o outcomes IH]; intros n; unfold count_ok in *; simpl.
  - now rewrite Nat.add_0_r, orb_false_r.
  - destruct (succeeded o); simpl.
    + rewrite Nat.add_succ_r, orb_true_r. reflexivity.
    + apply IH.
Qed.

Lemma startup_loop_run_all (items : list json) :
  forall (n : nat) (w : W),
    for_fold items n (fun success_count item =>
      ok <- RestoreManager.restore_startup_item item ;;
      ret (if ok then S success_count else success_count)) w =
    (fst (run_all RestoreManager.restore_startup_item items w),
     Ok (n + count_ok (snd (run_all RestoreManager.restore_startup_item items w)))%nat).
Proof.
  induction items as [|e items IH]; intros n w.
  - simpl. unfold ret, count_ok. simpl. now rewrite Nat.add_0_r.
  - simpl.
    destruct (restore_startup_item_total e w) as [b Hb].
    destruct (RestoreManager.restore_startup_item e w) as [w1 r] eqn:E. simpl in Hb. subst r.
    unfold bind at 1. unfold bind at 1. rewrite E. unfold ret at 1.
    rewrite IH. destruct (run_all RestoreManager.restore_startup_item items w1) as [w2 outcomes].
    simpl. unfold count_ok. destruct b; simpl; f_equal; f_equal; lia.
Qed.

Lemma restore_startup_items_run_all (items : list json) (w : W) :
  RestoreManager._restore_startup_items (JList items) w =
  (fst (run_all RestoreManager.restore_startup_item items w),
   Ok (any_ok (snd (run_all RestoreManager.restore_startup_item items w)) ||
       match items with [] => true | _ => false end)).
Proof.
  unfold RestoreManager._restore_startup_items, try_except.
  unfold bind at 1. unfold read at 1. simpl.
  unfold bind at 1. unfold read at 1. simpl.
  unfold bind at 1. rewrite startup_loop_run_all.
  unfold ret. f_equal. f_equal. rewrite count_ok_any. simpl.
  destruct items; reflexivity.
Qed.

End TraversalFacts.

Section RestoreFacts.
Context {W : Type} `{os : OS W}.

Lemma list_section (f : json -> M W bool) (l : list json) (s : bool) (w : W) :
  (if truthy (JList l)
   then (entries <- read (fun _ => py_iter (JList l)) ;; RestoreManager.restore_each f entries s)
   else ret s) w = RestoreManager.restore_each f l s w.
Proof. destruct l; reflexivity. Qed.

Lemma dict_section (f : string * json -> M W bool) (d : list (string * json)) (s : bool) (w : W) :
  (if truthy (JDict d)
   then (entries <- read (fun _ => py_items (JDict d)) ;; RestoreManager.restore_each f entries s)
   else ret s) w = RestoreManager.restore_each f d s w.
Proof. destruct d; reflexivity. Qed.

(** With the ledger document in hand, [restore_operation] is the traversal
    of its sections. *)
Lemma restore_operation_found backup_id (doc : json) (w : W) :
  BackupManager.get_backup_info backup_id w = (w, Ok (Some doc)) ->
  truthy doc = true ->
  RestoreManager.restore_operation backup_id w =
  try_except (RestoreManager.restore_sections doc) (fun _ => ret false) w.
Proof.
  intros Hget Htruthy.
  unfold RestoreManager.restore_operation, try_except.
  rewrite (bind_run _ _ _ _ _ Hget). now rewrite Htruthy.
Qed.

Lemma restore_sections_traversal (L : ledger) (w : W) :
  RestoreManager.restore_sections (doc_of L) w =
  (fst (restore_all L w), Ok (snd (restore_all L w))).
Proof.
  unfold RestoreManager.restore_sections.
  change (py_get (doc_of L) "operation" (JStr "Unknown")) with (Ok (JStr (operation L))).
  rewrite read_bind.
  change (py_get (doc_of L) "registry_backups" JNull) with (Ok (JList (registry_backups L))).
  rewrite read_bind.
  erewrite bind_run;
    [| rewrite list_section; apply restore_each_run_all; apply restore_registry_backup_total].
  change (py_get (doc_of L) "file_backups" JNull) with (Ok (JList (file_backups L))).
  rewrite read_bind.
  erewrite bind_run;
    [| rewrite list_section; apply restore_each_run_all; apply restore_file_backup_total].
  change (py_get (doc_of L) "service_states" JNull) with (Ok (JDict (service_states L))).
  rewrite read_bind.
  erewrite bind_run;
    [| rewrite dict_section; apply (restore_each_run_all restore_service);
       apply restore_service_total].
  change (py_get (doc_of L) "power_settings" JNull) with (Ok (power_settings L)).
  rewrite read_bind.
  change (py_get (doc_of L) "startup_items" JNull) with (Ok (JList (startup_items L))).
  unfold restore_all.
  destruct (run_all RestoreManager._restore_registry_backup (registry_backups L) w) as [w1 o1].
  cbn [fst snd].
  destruct (run_all RestoreManager._restore_file_backup (file_backups L) w1) as [w2 o2].
  cbn [fst snd].
  destruct (run_all restore_service (service_states L) w2) as [w3 o3].
  cbn [fst snd andb].
  set (s3 := all_ok o1 && all_ok o2 && all_ok o3).
  assert (Hpow : exists w4 o4,
    run_all RestoreManager._restore_power_plan
      (if truthy (power_settings L) then [power_settings L] else []) w3 = (w4, o4) /\
    (if truthy (power_settings L)
     then (ok <- RestoreManager._restore_power_plan (power_settings L) ;;
           ret (if ok then s3 else false))
     else ret s3) w3 = (w4, Ok (s3 && all_ok o4))).
  { destruct (truthy (power_settings L)).
    - destruct (restore_power_plan_total (power_settings L) w3) as [b Hb].
      destruct (RestoreManager._restore_power_plan (power_settings L) w3) as [w4 r] eqn:E.
      simpl in Hb. subst r. exists w4, [Ok b]. split.
      + simpl. now rewrite E.
      + rewrite (bind_run _ _ _ _ _ E). unfold ret. f_equal. f_equal.
        destruct b; simpl; [now rewrite andb_true_r | now rewrite andb_false_r].
    - exists w3, []. split; [reflexivity|]. unfold ret. simpl. now rewrite andb_true_r. }
  destruct Hpow as (w4 & o4 & Hrun & Hpow). rewrite Hrun.
  rewrite (bind_run _ _ _ _ _ Hpow). rewrite read_bind.
  destruct (startup_items L) as [|item items] eqn:Hitems.
  - simpl. unfold bind, ret. simpl. now rewrite andb_true_r.
  - change (truthy (JList (item :: items))) with true. cbv iota.
    erewrite bind_run; [| erewrite bind_run; [|apply restore_startup_items_run_all]; reflexivity].
    destruct (run_all RestoreManager.restore_startup_item (item :: items) w4) as [w5 o5].
    unfold bind, ret. simpl. rewrite orb_false_r.
    destruct (any_ok o5); simpl; [now rewrite andb_true_r | now rewrite andb_false_r].
Qed.

(** C1 (as amended). When the ledger record of [backup_id] exists,
    [restore_operation] runs the restore of every recorded entry of every
    section, in the fixed section order and without stopping at a failure,
    and returns success exactly when every registry, file and service entry
    and the power plan were restored and, for a non-empty startup section,
    at least one startup item was written. *)
Theorem restore_operation_traversal backup_id (L : ledger) (w : W) :
  BackupManager.get_backup_info backup_id w = (w, Ok (Some (doc_of L))) ->
  RestoreManager.restore_operation backup_id w =
  (fst (restore_all L w), Ok (snd (restore_all L w))).
Proof.
  intros Hget.
  rewrite (restore_operation_found backup_id (doc_of L) w Hget eq_refl).
  unfold try_except. now rewrite restore_sections_traversal.
Qed.

(** ** Calling restore on an unknown backup *)

Lemma get_backup_info_absent backup_id w :
  path_exists (BackupManager.info_file backup_id) w = Ok false ->
  BackupManager.get_backup_info backup_id w = (w, Ok None).
Proof.
  intros H. unfold BackupManager.get_backup_info, try_except, bind, read, ret.
  now rewrite H.
Qed.

(** C2. When [backup_id] resolves to no ledger document,
    [restore_operation] returns [False]; the world it leaves is the world
    it found, so no restore action was performed, and nothing is raised. *)
Theorem restore_operation_not_found backup_id (w : W) :
  snd (BackupManager.get_backup_info backup_id w) = Ok None ->
  RestoreManager.restore_operation backup_id w = (w, Ok false).
Proof.
  intros H. unfold RestoreManager.restore_operation, try_except, bind.
  pose proof (get_backup_info_world backup_id w) as Hw.
  destruct (BackupManager.get_backup_info backup_id w) as [w1 r].
  simpl in *. subst. reflexivity.
Qed.

(** ** Restoring a service that was neither running nor stopped *)

(** C10. A service snapshot whose recorded state is neither ["RUNNING"] nor
    ["STOPPED"] (so ["PAUSED"] as much as ["UNKNOWN"]) is restored by doing
    nothing: no start, no stop, the world is unchanged, and the outcome is
    success. *)
Theorem restore_service_state_other_is_noop service_name (d : list (string * json))
    (target_state : json) (w : W) :
  py_get (JDict d) "state" (JStr "UNKNOWN") = Ok target_state ->
  RestoreManager.json_is_str target_state "RUNNING" = false ->
  RestoreManager.json_is_str target_state "STOPPED" = false ->
  RestoreManager._restore_service_state service_name (JDict d) w = (w, Ok true).
Proof.
  intros Hget Hrun Hstop.
  unfold RestoreManager._restore_service_state, try_except, bind, read.
  rewrite Hget, Hrun, Hstop. reflexivity.
Qed.

End RestoreFacts.

(** ** Capturing *)

Section CaptureFacts.
Context {W : Type} `{os : OS W}.

Lemma update_backup_info_run backup_id section data key (w : W) :
  BackupManager._update_backup_info backup_id section data key w =
  (fst (BackupManager._update_backup_info backup_id section data key w), Ok tt).
Proof.
  destruct (update_backup_info_total backup_id section data key w) as [[] H].
  destruct (BackupManager._update_backup_info backup_id section data key w) as [w1 r].
  simpl in *. now subst.
Qed.

(** [reg export] failing, as it does on a key that does not exist, makes
    [backup_key] return [None]. *)
Lemma backup_key_export_failed hkey subkey (w w' : W) (returncode : Z) :
  reg_export (registry._get_hkey_name hkey ++ BS ++ subkey)
    (path_join registry.backup_dir
       (registry._get_hkey_name hkey ++ "_" ++
        replace_char "/" (replace_char backslash subkey) ++ "_" ++ now_strftime w ++ ".reg"))
    w = (w', Ok returncode) ->
  (returncode =? 0)%Z = false ->
  registry.backup_key hkey (JStr subkey) w = (w', Ok None).
Proof.
  intros Hexp Hrc. unfold registry.backup_key, try_except.
  unfold bind at 1. unfold read at 1. cbv beta iota.
  rewrite (bind_run _ _ _ _ _ Hexp). now rewrite Hrc.
Qed.

(** C3 (as amended). Capturing a resource that does not exist: [backup_file]
    and [backup_directory] return success and leave the world, hence the
    ledger, as it was; [backup_registry_key], whose archiver returns [None]
    for a key it could not export, returns failure, and records no entry
    either. *)
Theorem capture_of_absent_resource backup_id path description hkey subkey (w w' : W) :
  path_exists (path_str path) w = Ok false ->
  registry.backup_key hkey (JStr subkey) w = (w', Ok None) ->
  BackupManager.backup_file backup_id path description w = (w, Ok true) /\
  BackupManager.backup_directory backup_id path description w = (w, Ok true) /\
  BackupManager.backup_registry_key backup_id hkey subkey description w = (w', Ok false).
Proof.
  intros Hex Hkey. repeat split.
  - unfold BackupManager.backup_file, try_except, bind, read. now rewrite Hex.
  - unfold BackupManager.backup_directory, try_except, bind, read. now rewrite Hex.
  - unfold BackupManager.backup_registry_key, try_except.
    now rewrite (bind_run _ _ _ _ _ Hkey).
Qed.

(** Whatever the ledger update does, a file whose copy was taken is
    reported as backed up. *)
Lemma backup_file_copied backup_id file_path description (w w1 : W) :
  let source := path_str file_path in
  let backup_path :=
    path_join BackupManager.file_backups (backup_id ++ "_" ++ BackupManager.safe_name source) in
  path_exists source w = Ok true ->
  shutil_copy2 source backup_path w = (w1, Ok tt) ->
  BackupManager.backup_file backup_id file_path description w =
  (fst (BackupManager._update_backup_info backup_id "file_backups"
          (JDict [("original_path", JStr source); ("backup_path", JStr backup_path);
                  ("description", JStr description)]) None w1), Ok true).
Proof.
  intros source backup_path Hex Hcopy.
  unfold BackupManager.backup_file, try_except.
  fold source.
  unfold bind at 1. unfold read at 1. rewrite Hex.
  change (negb true) with false. cbv iota beta.
  fold backup_path. rewrite (bind_run _ _ _ _ _ Hcopy).
  unfold bind at 1. rewrite update_backup_info_run. reflexivity.
Qed.


(** [create_operation_backup] passes on what the ledger write raises. *)
Lemma create_operation_backup_raises operation_name (w w' : W) (e : exn) :
  let timestamp := now_strftime w in
  let backup_id := operation_name ++ "_" ++ timestamp in
  json_dump (BackupManager.info_file backup_id)
    (JDict [("operation", JStr operation_name); ("timestamp", JStr timestamp);
            ("backup_id", JStr backup_id); ("registry_backups", JList []);
            ("file_backups", JList []); ("service_states", JDict []);
            ("power_settings", JDict []); ("startup_items", JList [])]) w = (w', Raise e) ->
  BackupManager.create_operation_backup operation_name w = (w', Raise e).
Proof.
  intros timestamp backup_id Hdump.
  unfold BackupManager.create_operation_backup.
  unfold bind at 1. unfold read at 1. cbv beta iota.
  fold timestamp. fold backup_id. unfold bind. now rewrite Hdump.
Qed.

(** A captured startup list arrives at restore as one entry that is itself
    a list: nothing is written and the section fails. *)
Lemma restore_nested_startup_items (items : list json) (w : W) :
  RestoreManager._restore_startup_items (JList [JList items]) w = (w, Ok false).
Proof. reflexivity. Qed.

End CaptureFacts.

(** ** The ledger document under appends *)

Lemma update_section_dict (d : list (string * json)) section data key (j : json) :
  BackupManager.update_section (JDict d) section data key = Ok j ->
  exists d1, j = JDict d1.
Proof.
  unfold BackupManager.update_section.
  destruct (BackupManager.key_given key) as [k|].
  - destruct (assoc_get section _) as [[| | | | |s]|]; intros H; inversion H; eauto.
  - destruct (assoc_get section _) as [[| | | | |s]|]; intros H; inversion H; eauto.
Qed.

(** An update leaves every section but its own as it was. *)
Lemma update_section_other (d d1 : list (string * json)) section data key (sec : string) :
  BackupManager.update_section (JDict d) section data key = Ok (JDict d1) ->
  section <> sec ->
  assoc_get sec d1 = assoc_get sec d.
Proof.
  intros H Hne. unfold BackupManager.update_section in H.
  assert (Hd0 : forall v, assoc_get sec
            (match assoc_get section d with Some _ => d | None => assoc_set section v d end)
            = assoc_get sec d).
  { intros v. destruct (assoc_get section d); [reflexivity | now apply assoc_get_set_ne]. }
  destruct (BackupManager.key_given key) as [k|].
  - destruct (assoc_get section _) as [[| | | | |s]|]; inversion H; subst.
    rewrite assoc_get_set_ne by assumption. apply Hd0.
  - destruct (assoc_get section _) as [[| | | |l|s]|]; inversion H; subst;
      (rewrite assoc_get_set_ne by assumption; apply Hd0).
Qed.

(** An update keeps every entry of every list-valued section, in place. *)
Lemma update_section_lists (d d1 : list (string * json)) section data key
    (sec : string) (l : list json) :
  BackupManager.update_section (JDict d) section data key = Ok (JDict d1) ->
  assoc_get sec d = Some (JList l) ->
  exists l', assoc_get sec d1 = Some (JList (l ++ l')%list).
Proof.
  intros H Hsec. destruct (String.eqb section sec) eqn:E.
  - apply String.eqb_eq in E. subst sec.
    unfold BackupManager.update_section in H. rewrite Hsec in H.
    destruct (BackupManager.key_given key) as [k|]; rewrite Hsec in H; inversion H; subst.
    exists [data]. apply assoc_get_set_eq.
  - apply String.eqb_neq in E. exists [].
    rewrite (update_section_other _ _ _ _ _ _ H E), app_nil_r. assumption.
Qed.

Section LedgerFacts.
Context {W : Type} `{os : OS W}.


End LedgerFacts.

(** ** Restoring twice *)

Section TwiceFacts.
Context {W : Type} `{os : OS W}.

Lemma run_app (fs gs : list (W -> W)) (w : W) : run (fs ++ gs) w = run gs (run fs w).
Proof. unfold run. apply fold_left_app. Qed.

Lemma run_all_world {A} (restore : A -> M W bool) (entries : list A) (w : W) :
  fst (run_all restore entries w) = run (map (fun e w => fst (restore e w)) entries) w.
Proof.
  revert w. induction entries as [|e entries IH]; intros w; simpl; [reflexivity|].
  destruct (restore e w) as [w1 o]. simpl. rewrite <- IH.
  now destruct (run_all restore entries w1).
Qed.

(** The world a restore leaves is the one its steps lead to. *)
Lemma restore_all_world (L : ledger) (w : W) : fst (restore_all L w) = run (steps L) w.
Proof.
  unfold restore_all, steps. rewrite !run_app, <- !run_all_world.
  destruct (run_all RestoreManager._restore_registry_backup _ w) as [w1 o1]. simpl.
  destruct (run_all RestoreManager._restore_file_backup _ w1) as [w2 o2]. simpl.
  destruct (run_all restore_service _ w2) as [w3 o3]. simpl.
  destruct (run_all RestoreManager._restore_power_plan _ w3) as [w4 o4]. simpl.
  now destruct (run_all RestoreManager.restore_startup_item _ w4) as [w5 o5].
Qed.

(** Steps that overwrite: a step run again after other steps makes its
    earlier run irrelevant. *)
Lemma absorbed_prefix (S : list (W -> W)) :
  (forall x, In x S -> forall ys, (forall y, In y ys -> In y S) ->
     forall w, x (run ys (x w)) = x (run ys w)) ->
  forall (p q : list (W -> W)),
    (forall x, In x p -> In x q) -> (forall x, In x p -> In x S) ->
    (forall x, In x q -> In x S) ->
    forall w, run (p ++ q) w = run q w.
Proof.
  intros Habs p. induction p as [|x p IH]; intros q Hpq HpS HqS w; [reflexivity|].
  assert (Hx : In x q) by (apply Hpq; now left).
  destruct (in_split _ _ Hx) as (q1 & q2 & ->).
  transitivity (run (p ++ q1 ++ x :: q2) w).
  - change ((x :: p) ++ q1 ++ x :: q2)%list with (x :: (p ++ q1 ++ x :: q2))%list.
    change (run (x :: p ++ q1 ++ x :: q2) w) with (run (p ++ q1 ++ x :: q2) (x w)).
    rewrite !app_assoc. rewrite !(run_app (p ++ q1)).
    change (run (x :: q2) ?v) with (run q2 (x v)).
    f_equal. apply Habs; [apply HqS; apply in_or_app; right; now left|].
    intros y Hy. apply in_app_or in Hy as [Hy|Hy].
    + apply HpS. now right.
    + apply HqS. apply in_or_app. now left.
  - apply IH; auto.
    + intros y Hy. apply Hpq. now right.
    + intros y Hy. apply HpS. now right.
Qed.

Lemma run_twice (S : list (W -> W)) :
  (forall x, In x S -> forall ys, (forall y, In y ys -> In y S) ->
     forall w, x (run ys (x w)) = x (run ys w)) ->
  forall w, run S (run S w) = run S w.
Proof.
  intros Habs w. rewrite <- run_app. apply (absorbed_prefix S Habs); auto.
Qed.

(** Steps that are idempotent and commute with one another overwrite. *)
Lemma commuting_idempotent_absorb (S : list (W -> W)) :
  (forall x, In x S -> forall w, x (x w) = x w) ->
  (forall x y, In x S -> In y S -> forall w, x (y w) = y (x w)) ->
  forall x, In x S -> forall ys, (forall y, In y ys -> In y S) ->
  forall w, x (run ys (x w)) = x (run ys w).
Proof.
  intros Hidem Hcomm x Hx ys Hys w.
  assert (Hrun : forall v, run ys (x v) = x (run ys v)).
  { clear w. induction ys as [|y ys IH]; intros v; [reflexivity|].
    change (run (y :: ys) ?u) with (run ys (y u)).
    rewrite <- IH by (intros z Hz; apply Hys; now right).
    f_equal. apply Hcomm; [apply Hys; now left | assumption]. }
  rewrite Hrun. apply Hidem. assumption.
Qed.


End TwiceFacts.

(** ** Startup items from capture to restore *)

Section StartupFacts.
Context {W : Type} `{os : OS W}.

(** What [backup_startup_items] stores: the captured list becomes one more
    entry of the [startup_items] section. *)
Lemma update_section_startup_items (L : ledger) (items : list json) :
  BackupManager.update_section (doc_of L) "startup_items" (JList items) None =
  Ok (doc_of {| operation := operation L; timestamp := timestamp L;
                registry_backups := registry_backups L; file_backups := file_backups L;
                service_states := service_states L; power_settings := power_settings L;
                startup_items := (startup_items L ++ [JList items])%list |}).
Proof. reflexivity. Qed.

(** Restoring a ledger whose startup section is what a capture stored
    reports failure, however many items were captured and whatever the
    registry would accept. *)
Lemma restore_of_captured_startup_items_fails backup_id (L : ledger) (items : list json)
    (w : W) :
  BackupManager.get_backup_info backup_id w = (w, Ok (Some (doc_of L))) ->
  startup_items L = [JList items] ->
  snd (RestoreManager.restore_operation backup_id w) = Ok false.
Proof.
  intros Hget Hitems.
  rewrite (restore_operation_found backup_id (doc_of L) w Hget eq_refl).
  unfold try_except. rewrite restore_sections_traversal. cbn [snd]. f_equal.
  unfold restore_all.
  destruct (run_all RestoreManager._restore_registry_backup _ w) as [w1 o1].
  destruct (run_all RestoreManager._restore_file_backup _ w1) as [w2 o2].
  destruct (run_all restore_service _ w2) as [w3 o3].
  destruct (run_all RestoreManager._restore_power_plan _ w3) as [w4 o4].
  rewrite Hitems. cbn [run_all].
  change (RestoreManager.restore_startup_item (JList items) w4) with (w4, @Ok bool false).
  cbn [snd any_ok existsb succeeded orb]. apply andb_false_r.
Qed.

End StartupFacts.

(** ** The engine on the reference machine *)

Section SimFacts.
Import Sim.

Lemma sim_ledger_cell (p : string) : ledger_cell (W := world) p.
Proof.
  intros j w.
  change (json_dump p j w) with (dump p j w).
  unfold dump. destruct (can_write p w); [|auto].
  change (path_exists p ?v) with (exists_ p v).
  change (json_load p ?v) with (load p v).
  unfold exists_, load. cbn [files set_files]. rewrite lookup_insert_eq. auto.
Qed.

Lemma sim_old_enough (cutoff : Z) (p : string) (w : world) :
  BackupManager.old_enough cutoff p w = (w, Ok (expired cutoff (files w !! p))).
Proof.
  unfold BackupManager.old_enough, bind, read, ret.
  change (@path_is_file world os) with is_file.
  change (@path_st_mtime world os) with st_mtime.
  unfold is_file, st_mtime, expired.
  destruct (files w !! p) as [[m d|]|] eqn:E; cbv beta iota; rewrite ?E; reflexivity.
Qed.

(** The loop deletes the listed files that have expired and nothing else. *)
Lemma sim_cleanup_loop (cutoff : Z) (ps : list string) :
  forall (n : Z) (w : world),
    read_only w = [] ->
    exists f' r,
      BackupManager.cleanup_loop cutoff ps n w = (set_files f' w, r) /\
      forall p, f' !! p =
        if inb p ps && expired cutoff (files w !! p) then None else files w !! p.
Proof.
  induction ps as [|q ps IH]; intros n w Hro.
  - exists (files w), (n, None). split; [now destruct w|]. intros p. reflexivity.
  - cbn [BackupManager.cleanup_loop]. rewrite sim_old_enough.
    destruct (expired cutoff (files w !! q)) eqn:Hq.
    + change (path_unlink q w) with (unlink q w). unfold unlink. unfold expired in Hq.
      destruct (files w !! q) as [[m d|]|] eqn:Hfq; try discriminate.
      unfold can_write. rewrite Hro. simpl.
      destruct (IH (n + 1)%Z (set_files (delete q (files w)) w) Hro) as (f' & r & Hloop & Hf').
      rewrite Hloop. exists f', r. split; [reflexivity|].
      intros p. rewrite Hf'. simpl. unfold inb. simpl.
      destruct (String.eqb p q) eqn:Epq.
      * apply String.eqb_eq in Epq. subst p. rewrite lookup_delete_eq, Hfq. simpl.
        rewrite Hq. now rewrite andb_false_r.
      * apply String.eqb_neq in Epq. rewrite lookup_delete_ne by congruence. reflexivity.
    + destruct (IH n w Hro) as (f' & r & Hloop & Hf').
      rewrite Hloop. exists f', r. split; [reflexivity|].
      intros p. rewrite Hf'. unfold inb. simpl.
      destruct (String.eqb p q) eqn:Epq; [|reflexivity].
      apply String.eqb_eq in Epq. subst p. rewrite Hq. now rewrite !andb_false_r.
Qed.

Lemma inb_rglob_under (root p : string) (m : gmap string node) :
  inb p (List.filter (under root) (map fst (map_to_list m))) = true -> under root p = true.
Proof.
  unfold inb. rewrite existsb_exists. intros (x & Hin & Heq).
  apply String.eqb_eq in Heq. subst x. apply filter_In in Hin. tauto.
Qed.

Lemma inb_rglob_listed (root p : string) (m : gmap string node) (n : node) :
  m !! p = Some n -> under root p = true ->
  inb p (List.filter (under root) (map fst (map_to_list m))) = true.
Proof.
  intros Hm Hu. unfold inb. rewrite existsb_exists. exists p. split.
  - apply filter_In. split; [|assumption].
    apply in_map_iff. exists (p, n). split; [reflexivity|].
    apply list_elem_of_In. now apply elem_of_map_to_list.
  - apply String.eqb_refl.
Qed.


End SimFacts.

(** ** The properties on example machines *)

Section SimExamples.
Import Sim Examples.

(** C1, as stated, fails: the ledger holds two startup items, the second
    cannot be written (the machine is not elevated), and the restore still
    reports success. *)
Lemma partial_startup_failure_reported_as_success :
  BackupManager.get_backup_info "op_1000" with_two_items
    = (with_two_items, Ok (Some (doc_of two_items))) /\
  snd (run_all RestoreManager.restore_startup_item (startup_items two_items) with_two_items)
    = [Ok true; Ok false] /\
  hives (fst (RestoreManager.restore_operation "op_1000" with_two_items))
    !! ("HKLM" ++ BS ++ BackupManager.run_key) = None /\
  snd (RestoreManager.restore_operation "op_1000" with_two_items) = Ok true.
Proof. vm_compute. repeat split; reflexivity. Qed.

(** Witness of C1 on the same machine. *)
Lemma restore_operation_traversal_witness :
  BackupManager.get_backup_info "op_1000" with_two_items
    = (with_two_items, Ok (Some (doc_of two_items))) /\
  RestoreManager.restore_operation "op_1000" with_two_items =
  (fst (restore_all two_items with_two_items), Ok (snd (restore_all two_items with_two_items))).
Proof.
  split; [vm_compute; reflexivity|].
  apply (restore_operation_traversal "op_1000" two_items with_two_items).
  vm_compute. reflexivity.
Defined.

(** Witness of C2: no ledger document at all. *)
Lemma restore_operation_not_found_witness :
  snd (BackupManager.get_backup_info "nope" empty_world) = Ok None /\
  RestoreManager.restore_operation "nope" empty_world = (empty_world, Ok false).
Proof.
  split; [vm_compute; reflexivity|].
  apply (restore_operation_not_found "nope" empty_world).
  vm_compute. reflexivity.
Defined.

(** C3, as stated, fails for a registry key: the key does not exist and
    [backup_registry_key] returns failure. *)
Lemma absent_registry_key_capture_fails :
  hives opened !! ("HKCU" ++ BS ++ absent_key) = None /\
  BackupManager.backup_registry_key "op_10000000" HKEY_CURRENT_USER absent_key "" opened
    = (opened, Ok false).
Proof. vm_compute. repeat split; reflexivity. Qed.

(** Witness of C3: a missing file and a missing key. *)
Lemma capture_of_absent_resource_witness :
  path_exists (path_str missing_txt) opened = Ok false /\
  registry.backup_key HKEY_CURRENT_USER (JStr absent_key) opened = (opened, Ok None) /\
  BackupManager.backup_file "op_10000000" missing_txt "" opened = (opened, Ok true) /\
  BackupManager.backup_directory "op_10000000" missing_txt "" opened = (opened, Ok true) /\
  BackupManager.backup_registry_key "op_10000000" HKEY_CURRENT_USER absent_key "" opened
    = (opened, Ok false).
Proof.
  split; [vm_compute; reflexivity|]. split; [vm_compute; reflexivity|].
  apply (capture_of_absent_resource "op_10000000" missing_txt "" HKEY_CURRENT_USER
           absent_key opened opened); vm_compute; reflexivity.
Defined.

(** C4 fails on the code. One startup entry is captured; the ledger stores
    the captured list as a single entry of [startup_items]; after the entry
    was removed from the registry, the restore writes nothing back and
    reports failure. *)
Theorem captured_startup_items_are_not_restored :
  snd (BackupManager.backup_startup_items "op_1000" startup_opened) = Ok true /\
  stored "op_1000" "startup_items" startup_disabled = Some (JList [JList [user_item]]) /\
  RestoreManager.restore_operation "op_1000" startup_disabled = (startup_disabled, Ok false).
Proof. vm_compute. repeat split; reflexivity. Qed.








Lemma plan_step (w : world) :
  fst (RestoreManager._restore_power_plan balanced w) = activate_high_performance w.
Proof.
  unfold RestoreManager._restore_power_plan, try_except, bind, read, ret.
  change (py_get balanced "output" (JStr "")) with (Ok (JStr "Balanced")).
  cbv beta iota.
  change (py_str_in "Ultimate Performance" (JStr "Balanced")) with (@Ok bool false).
  cbv beta iota.
  unfold RestoreManager.high_performance_fallback, RestoreManager.powershell, bind, ret.
  change (run_powershell RestoreManager.high_performance w)
    with (shell RestoreManager.high_performance w).
  unfold shell.
  change (is_prefix setactive RestoreManager.high_performance) with true. cbv iota.
  change (drop (String.length setactive) RestoreManager.high_performance)
    with high_performance_guid.
  unfold activate_high_performance.
  destruct (assoc_get high_performance_guid (plans w)); reflexivity.
Qed.

Lemma activate_twice (w : world) :
  activate_high_performance (activate_high_performance w) = activate_high_performance w.
Proof.
  unfold activate_high_performance.
  destruct (assoc_get high_performance_guid (plans w)) eqn:E; cbn [plans set_active_plan];
    rewrite E; reflexivity.
Qed.

Lemma file_step (w : world) :
  fst (RestoreManager._restore_file_backup p_entry w) = copy_back w.
Proof.
  unfold RestoreManager._restore_file_backup, try_except.
  unfold bind at 1. unfold read at 1.
  change (py_get p_entry "original_path" JNull) with (Ok (JStr p_txt)). cbv beta iota.
  unfold bind at 1. unfold read at 1.
  change (py_get p_entry "backup_path" JNull) with (Ok (JStr p_blob)). cbv beta iota.
  unfold bind at 1. unfold read at 1.
  change (py_get p_entry "type" (JStr "file")) with (Ok (JStr "file")). cbv beta iota.
  unfold bind at 1. unfold RestoreManager.blob_missing.
  change (truthy (JStr p_blob)) with true. cbv beta iota. change (negb true) with false. cbv iota.
  unfold bind at 1. unfold read at 1. change (py_path (JStr p_blob)) with (Ok p_blob). cbv beta iota.
  unfold bind at 1. unfold read at 1.
  change (path_exists p_blob w) with (exists_ p_blob w). unfold exists_, ret. cbv beta iota.
  unfold copy_back.
  destruct (files w !! p_blob) as [nb|] eqn:Hb; cbv beta iota; [|reflexivity].
  change (negb true) with false. cbv iota.
  change (RestoreManager.json_is_str (JStr "file") "directory_zip") with false. cbv iota.
  unfold RestoreManager._restore_single_file, try_except, bind, read, ret.
  change (py_path (JStr p_txt)) with (Ok p_txt).
  change (py_path (JStr p_blob)) with (Ok p_blob). cbv beta iota.
  change (path_mkdir (path_parent p_txt) w) with (mkdir "C:" w).
  destruct (mkdir "C:" w) as [w1 [[]|e]]; [|reflexivity].
  change (shutil_copy2 p_blob p_txt w1) with (copy2 p_blob p_txt w1).
  destruct (copy2 p_blob p_txt w1) as [w2 [[]|e]]; reflexivity.
Qed.

Lemma blob_is_not_target : p_blob <> p_txt.
Proof. discriminate. Qed.
Lemma blob_is_not_parent : p_blob <> "C:".
Proof. discriminate. Qed.
Lemma target_is_not_parent : p_txt <> "C:".
Proof. discriminate. Qed.

Lemma copy_back_twice (w : world) : copy_back (copy_back w) = copy_back w.
Proof.
  unfold copy_back.
  destruct (files w !! p_blob) as [nb|] eqn:Hb; [|now rewrite Hb].
  unfold mkdir.
  destruct (files w !! "C:") as [[m d|]|] eqn:Hc.
  - rewrite Hb, Hc. reflexivity.
  - unfold copy2. rewrite Hb. destruct nb as [m d|].
    + destruct (can_write p_txt w) eqn:Hw; cbn [fst files set_files].
      * rewrite lookup_insert_ne by (apply not_eq_sym, blob_is_not_target).
        rewrite Hb. rewrite lookup_insert_ne by apply target_is_not_parent.
        rewrite Hc. cbn [files set_files].
        rewrite lookup_insert_ne by (apply not_eq_sym, blob_is_not_target).
        rewrite Hb. unfold can_write in *. cbn [read_only set_files]. rewrite Hw.
        cbn [fst set_files files]. now rewrite insert_insert_eq.
      * rewrite Hb, Hc, Hb, Hw. reflexivity.
    + cbn [fst]. rewrite Hb, Hc, Hb. reflexivity.
  - unfold copy2. cbn [files set_files].
    rewrite lookup_insert_ne by (apply not_eq_sym, blob_is_not_parent). rewrite Hb.
    destruct nb as [m d|].
    + unfold can_write. cbn [read_only set_files].
      destruct (negb (existsb (String.eqb p_txt) (read_only w))) eqn:Hw; cbn [fst files set_files].
      * rewrite lookup_insert_ne by (apply not_eq_sym, blob_is_not_target).
        rewrite lookup_insert_ne by (apply not_eq_sym, blob_is_not_parent).
        rewrite Hb. rewrite lookup_insert_ne by apply target_is_not_parent.
        rewrite lookup_insert_eq. cbn [files set_files].
        rewrite lookup_insert_ne by (apply not_eq_sym, blob_is_not_target).
        rewrite lookup_insert_ne by (apply not_eq_sym, blob_is_not_parent).
        rewrite Hb. cbn [read_only set_files]. rewrite Hw.
        cbn [fst set_files files]. now rewrite insert_insert_eq.
      * rewrite lookup_insert_ne by (apply not_eq_sym, blob_is_not_parent).
        rewrite Hb, lookup_insert_eq. cbn [files set_files].
        rewrite lookup_insert_ne by (apply not_eq_sym, blob_is_not_parent).
        rewrite Hb. cbn [read_only set_files]. rewrite Hw. reflexivity.
    + cbn [fst files set_files].
      rewrite lookup_insert_ne by (apply not_eq_sym, blob_is_not_parent).
      rewrite Hb, lookup_insert_eq. cbn [files set_files].
      rewrite lookup_insert_ne by (apply not_eq_sym, blob_is_not_parent).
      rewrite Hb. reflexivity.
Qed.

Lemma copy_back_plans (w : world) : plans (copy_back w) = plans w.
Proof.
  unfold copy_back, mkdir, copy2.
  destruct (files w !! p_blob) as [nb|]; [|reflexivity].
  destruct (files w !! "C:") as [[m d|]|]; cbn [files set_files]; try reflexivity.
  - destruct (files w !! p_blob) as [[m d|]|]; try reflexivity.
    destruct (can_write p_txt w); reflexivity.
  - destruct (<["C:":=Dir]> (files w) !! p_blob) as [[m d|]|]; try reflexivity.
    destruct (can_write p_txt _); reflexivity.
Qed.

Lemma copy_back_set_active_plan (g : string) (w : world) :
  copy_back (set_active_plan g w) = set_active_plan g (copy_back w).
Proof.
  unfold copy_back, mkdir, copy2, can_write. cbn [files read_only set_active_plan].
  destruct (files w !! p_blob) as [nb|] eqn:Hb; [|reflexivity].
  destruct (files w !! "C:") as [[m d|]|] eqn:Hc;
    cbn [files read_only set_files set_active_plan]; try reflexivity.
  - rewrite Hb. destruct nb as [m d|]; try reflexivity.
    destruct (negb (existsb (String.eqb p_txt) (read_only w))); reflexivity.
  - destruct (<["C:":=Dir]> (files w) !! p_blob) as [[m d|]|]; try reflexivity.
    destruct (negb (existsb (String.eqb p_txt) (read_only w))); reflexivity.
Qed.

Lemma copy_back_activate (w : world) :
  copy_back (activate_high_performance w) = activate_high_performance (copy_back w).
Proof.
  unfold activate_high_performance. rewrite copy_back_plans.
  destruct (assoc_get high_performance_guid (plans w)); [|reflexivity].
  apply copy_back_set_active_plan.
Qed.

Lemma file_and_plan_steps :
  steps file_and_plan =
  [fun w => fst (RestoreManager._restore_file_backup p_entry w);
   fun w => fst (RestoreManager._restore_power_plan balanced w)].
Proof. reflexivity. Qed.


(** C9 fails on the code. The ledger document of the new operation cannot
    be written; [create_operation_backup] has no handler and the
    [PermissionError] of the write reaches its caller. *)
Theorem create_operation_backup_propagates_the_error :
  BackupManager.create_operation_backup "op" unwritable = (unwritable, Raise PermissionError).
Proof. vm_compute. reflexivity. Qed.

(** Witness of C10: a service captured while paused. *)
Lemma restore_service_state_other_is_noop_witness :
  py_get (snapshot "PAUSED") "state" (JStr "UNKNOWN") = Ok (JStr "PAUSED") /\
  RestoreManager._restore_service_state "svcA" (snapshot "PAUSED") empty_world
    = (empty_world, Ok true).
Proof.
  split; [reflexivity|].
  apply (restore_service_state_other_is_noop "svcA"
           [("name", JStr "svcA"); ("state", JStr "PAUSED"); ("info", JDict [])]
           (JStr "PAUSED") empty_world); reflexivity.
Defined.

End SimExamples.

(** * Further properties of the code *)

(** ** Names and paths *)

Lemma replace_char_chars (old : ascii) (s : string) :
  list_ascii_of_string (replace_char old s) =
  map (fun c => if Ascii.eqb c old then "_"%char else c) (list_ascii_of_string s).
Proof.
  induction s as [|c s IH]; [reflexivity|].
  cbn [replace_char list_ascii_of_string map].
  destruct (Ascii.eqb c old);
    [change ("_" ++ replace_char old s) with (String "_" (replace_char old s))
    |change (String c "" ++ replace_char old s) with (String c (replace_char old s))];
    cbn [list_ascii_of_string]; now f_equal.
Qed.

Lemma replace_char_length (old : ascii) (s : string) :
  String.length (replace_char old s) = String.length s.
Proof.
  induction s as [|c s IH]; [reflexivity|].
  cbn [replace_char].
  destruct (Ascii.eqb c old);
    [change ("_" ++ replace_char old s) with (String "_" (replace_char old s))
    |change (String c "" ++ replace_char old s) with (String c (replace_char old s))];
    cbn [String.length]; now f_equal.
Qed.

Lemma assoc_get_set {A} (k k' : string) (v : A) (d : list (string * A)) :
  assoc_get k (assoc_set k' v d) = if String.eqb k k' then Some v else assoc_get k d.
Proof.
  destruct (String.eqb k k') eqn:E.
  - apply String.eqb_eq in E. subst. apply assoc_get_set_eq.
  - apply String.eqb_neq in E. apply assoc_get_set_ne. congruence.
Qed.

Section NameFacts.
Context {W : Type} `{os : OS W}.


(** X2. The hive name that [registry._get_hkey_name] writes into a ledger
    entry is read back by the restore side's [hkey_map] to the same handle,
    for the five hives the registry manager knows; the name ["UNKNOWN"] it
    gives to any other handle is read back to nothing. *)
Theorem hive_names_are_read_back (hkey : Z) :
  RestoreManager.hkey_map_get (JStr (registry._get_hkey_name hkey)) =
  Ok (if existsb (Z.eqb hkey)
           [HKEY_LOCAL_MACHINE; HKEY_CURRENT_USER; HKEY_CLASSES_ROOT; HKEY_USERS;
            HKEY_CURRENT_CONFIG]
      then Some hkey else None).
Proof.
  unfold registry._get_hkey_name. simpl existsb.
  destruct (hkey =? HKEY_LOCAL_MACHINE)%Z eqn:E1;
    [apply Z.eqb_eq in E1; now subst|].
  destruct (hkey =? HKEY_CURRENT_USER)%Z eqn:E2;
    [apply Z.eqb_eq in E2; now subst|].
  destruct (hkey =? HKEY_CLASSES_ROOT)%Z eqn:E3;
    [apply Z.eqb_eq in E3; now subst|].
  destruct (hkey =? HKEY_USERS)%Z eqn:E4;
    [apply Z.eqb_eq in E4; now subst|].
  destruct (hkey =? HKEY_CURRENT_CONFIG)%Z eqn:E5;
    [apply Z.eqb_eq in E5; now subst|].
  reflexivity.
Qed.

End NameFacts.

Section EngineFacts.
Context {W : Type} `{os : OS W}.

Lemma hive_name_known (hkey : Z) :
  existsb (Z.eqb hkey)
    [HKEY_LOCAL_MACHINE; HKEY_CURRENT_USER; HKEY_CLASSES_ROOT; HKEY_USERS;
     HKEY_CURRENT_CONFIG] = true ->
  RestoreManager.hkey_map_get (JStr (registry._get_hkey_name hkey)) = Ok (Some hkey).
Proof.
  simpl existsb. intros H.
  repeat (apply orb_prop in H as [H|H]; [apply Z.eqb_eq in H; subst; reflexivity|]).
  discriminate.
Qed.

(** ** Startup items, one at a time *)

(** X3. One startup item as [backup_startup_items] builds it from a
    registry value, handed to the body of the restore loop, is written back
    with [registry.write_value] to the hive, key and name it was read from,
    as a string value; the outcome of the item is the outcome of that
    write. (The hive must be one of the five known ones, and key, name and
    value must not be empty.) *)
Theorem restore_startup_item_writes_the_captured_value (hkey : Z) (subkey name : string)
    (value : json) (w : W) :
  existsb (Z.eqb hkey)
    [HKEY_LOCAL_MACHINE; HKEY_CURRENT_USER; HKEY_CLASSES_ROOT; HKEY_USERS;
     HKEY_CURRENT_CONFIG] = true ->
  truthy (JStr subkey) && truthy (JStr name) && truthy value = true ->
  RestoreManager.restore_startup_item (BackupManager.startup_item hkey subkey (name, value)) w =
  registry.write_value hkey (JStr subkey) (JStr name) value REG_SZ w.
Proof.
  intros Hin Ht.
  pose proof (hive_name_known hkey Hin) as Hmap.
  set (item := BackupManager.startup_item hkey subkey (name, value)).
  unfold RestoreManager.restore_startup_item, try_except.
  replace (py_get item "type" JNull) with (Ok (JStr "registry")) by reflexivity.
  rewrite read_bind. change (RestoreManager.json_is_str (JStr "registry") "registry") with true.
  cbv iota.
  replace (py_get item "hkey" JNull) with (Ok (JStr (registry._get_hkey_name hkey)))
    by reflexivity.
  rewrite read_bind.
  replace (py_get item "subkey" JNull) with (Ok (JStr subkey)) by reflexivity.
  rewrite read_bind.
  replace (py_get item "name" JNull) with (Ok (JStr name)) by reflexivity. rewrite read_bind.
  replace (py_get item "value" JNull) with (Ok value) by reflexivity.
  rewrite read_bind. rewrite Hmap, read_bind. rewrite Ht.
  destruct (write_value_total hkey (JStr subkey) (JStr name) value REG_SZ w) as [b Hb].
  destruct (registry.write_value hkey (JStr subkey) (JStr name) value REG_SZ w) as [w1 r].
  simpl in Hb. now subst r.
Qed.

(** ** The power plan *)

(** Without ["Ultimate Performance"] in the recorded output, the restore is
    the fallback alone. *)
Lemma restore_power_plan_fallback (d : list (string * json)) (output : string) (w : W) :
  assoc_get "output" d = Some (JStr output) ->
  is_substring "Ultimate Performance" output = false ->
  RestoreManager._restore_power_plan (JDict d) w = RestoreManager.high_performance_fallback w.
Proof.
  intros Hout Hno.
  unfold RestoreManager._restore_power_plan, try_except.
  unfold py_get. rewrite Hout, read_bind.
  unfold py_str_in. rewrite Hno, read_bind.
  unfold RestoreManager.high_performance_fallback, RestoreManager.powershell, bind, ret.
  now destruct (run_powershell RestoreManager.high_performance w).
Qed.

(** X4. [_restore_power_plan] does not activate the plan that was captured.
    For any snapshot whose recorded output does not contain
    ["Ultimate Performance"], whatever plan it names, the restore runs
    the one command that activates the High performance plan, and its
    outcome is the outcome of that command. *)
Theorem restore_power_plan_ignores_the_captured_plan (d : list (string * json))
    (output : string) (w : W) :
  assoc_get "output" d = Some (JStr output) ->
  is_substring "Ultimate Performance" output = false ->
  RestoreManager._restore_power_plan (JDict d) w =
  (fst (run_powershell RestoreManager.high_performance w),
   Ok (success (snd (run_powershell RestoreManager.high_performance w)))).
Proof.
  intros Hout Hno. rewrite (restore_power_plan_fallback d output w Hout Hno).
  unfold RestoreManager.high_performance_fallback, RestoreManager.powershell, bind, ret.
  now destruct (run_powershell RestoreManager.high_performance w).
Qed.

(** ** Services *)

Lemma get_service_status_run (service_name : string) (w : W) :
  ServiceManager.get_service_status service_name w =
  (w, Ok (match snd (ServiceManager.get_service_status service_name w) with
          | Ok st => st
          | Raise _ => UNKNOWN
          end)).
Proof.
  unfold ServiceManager.get_service_status, try_except, bind, read, ret.
  destruct (sc_query service_name w) as [[returncode out]|e]; [|reflexivity].
  destruct (returncode =? 0)%Z; [|reflexivity].
  destruct (is_substring "RUNNING" (upper out)); [reflexivity|].
  destruct (is_substring "STOPPED" (upper out)); [reflexivity|].
  destruct (is_substring "PAUSED" (upper out)); reflexivity.
Qed.

Lemma start_service_total n : total (ServiceManager.start_service n).
Proof. apply caught_total. Qed.

Lemma stop_service_total n : total (ServiceManager.stop_service n).
Proof. apply caught_total. Qed.

Lemma get_service_info_run (service_name : string) (w : W) :
  exists info, ServiceManager.get_service_info service_name w = (w, Ok info).
Proof.
  unfold ServiceManager.get_service_info, try_except. unfold bind at 1. unfold read at 1.
  destruct (sc_qc service_name w) as [[returncode output]|e]; [|unfold ret; eauto].
  destruct (returncode =? 0)%Z; [|unfold ret; eauto].
  rewrite (bind_run _ _ _ _ _ (get_service_status_run service_name w)).
  unfold ret. eauto.
Qed.

(** X5. Restoring the snapshot of a service while the service is in the
    state the snapshot records changes nothing and succeeds: for a running
    or a stopped service the state is queried and no [net start] or
    [net stop] is issued. The snapshot is the one [backup_service_state]
    builds from the state it reads in this world. *)
Theorem restore_of_the_current_service_state_is_noop (service_name : string)
    (info : list (string * json)) (w : W) :
  RestoreManager._restore_service_state service_name
    (service_snapshot service_name
       (match snd (ServiceManager.get_service_status service_name w) with
        | Ok st => st
        | Raise _ => UNKNOWN
        end) info) w = (w, Ok true).
Proof.
  pose proof (get_service_status_run service_name w) as Hst.
  unfold service_snapshot.
  destruct (snd (ServiceManager.get_service_status service_name w)) as [[| | |]|e];
    unfold RestoreManager._restore_service_state, try_except;
    cbn [py_get assoc_get String.eqb Ascii.eqb Bool.eqb]; rewrite read_bind;
    cbn [RestoreManager.json_is_str ServiceState_value String.eqb Ascii.eqb Bool.eqb];
    try reflexivity.
  - unfold ServiceManager.stop_service, try_except. rewrite (bind_run _ _ _ _ _ Hst).
    reflexivity.
  - unfold ServiceManager.start_service, try_except. rewrite (bind_run _ _ _ _ _ Hst).
    reflexivity.
Qed.

(** X6. [with ServiceOperation(name, op): body] never changes the outcome of
    its body: the value the body returns is returned, the exception the
    body raises is raised again, the same one and no other. When the body
    returns, the world is the one the body left; when it raises, the only
    thing done afterwards is the attempt of [__exit__] to put the service
    back into the state read at entry. *)
Theorem service_operation_keeps_the_outcome {A} (service_name : string) (body : M W A)
    (w : W) :
  snd (ServiceOperation.with_ service_name body w) = snd (body w) /\
  fst (ServiceOperation.with_ service_name body w) =
  match snd (body w) with
  | Ok _ => fst (body w)
  | Raise _ =>
      fst (ServiceOperation.__exit__ service_name
             (match snd (ServiceManager.get_service_status service_name w) with
              | Ok st => st
              | Raise _ => UNKNOWN
              end) (fst (body w)))
  end.
Proof.
  unfold ServiceOperation.with_.
  rewrite (bind_run _ _ _ _ _ (get_service_status_run service_name w)).
  unfold try_except. destruct (body w) as [w1 [a|e]]; cbn [fst snd].
  - split; reflexivity.
  - set (st := match snd (ServiceManager.get_service_status service_name w) with
               | Ok st => st
               | Raise _ => UNKNOWN
               end).
    assert (Hexit : exists w2, ServiceOperation.__exit__ service_name st w1 = (w2, Ok tt)).
    { unfold ServiceOperation.__exit__.
      destruct (ServiceState_eqb st RUNNING).
      - destruct (start_service_total service_name w1) as [b Hb].
        unfold bind, ret.
        destruct (ServiceManager.start_service service_name w1) as [w2 r].
        simpl in Hb. subst r. eauto.
      - destruct (ServiceState_eqb st STOPPED); [|unfold ret; eauto].
        destruct (stop_service_total service_name w1) as [b Hb].
        unfold bind, ret.
        destruct (ServiceManager.stop_service service_name w1) as [w2 r].
        simpl in Hb. subst r. eauto. }
    destruct Hexit as [w2 Hexit]. rewrite (bind_run _ _ _ _ _ Hexit), Hexit. auto.
Qed.

End EngineFacts.

(** ** The ledger of a new operation, previews and counts *)

Section LedgerMore.
Context {W : Type} `{os : OS W}.

Lemma get_backup_info_found backup_id (doc : json) (w : W) :
  path_exists (BackupManager.info_file backup_id) w = Ok true ->
  json_load (BackupManager.info_file backup_id) w = Ok doc ->
  BackupManager.get_backup_info backup_id w = (w, Ok (Some doc)).
Proof.
  intros Hex Hload. unfold BackupManager.get_backup_info, try_except, bind, read, ret.
  now rewrite Hex, Hload.
Qed.

Lemma create_operation_backup_written operation_name (w w1 : W) (backup_id : string) :
  BackupManager.create_operation_backup operation_name w = (w1, Ok backup_id) ->
  backup_id = operation_name ++ "_" ++ now_strftime w /\
  json_dump (BackupManager.info_file backup_id)
    (doc_of (fresh_ledger operation_name (now_strftime w))) w = (w1, Ok tt).
Proof.
  unfold BackupManager.create_operation_backup.
  unfold bind at 1. unfold read at 1. cbv beta iota.
  unfold bind, ret, doc_of, fresh_ledger. cbn [operation timestamp registry_backups
    file_backups service_states power_settings startup_items].
  destruct (json_dump _ _ w) as [w' [[]|e]] eqn:E; intros H; inversion H; subst. auto.
Qed.

(** X7. An operation that was opened and captured nothing can be restored:
    when the ledger file keeps what is written to it,
    [create_operation_backup] followed by [get_backup_info] gives back the
    document of the new operation, and [restore_operation] on its id
    returns success and leaves the world as it is. *)
Theorem restore_of_a_fresh_operation_is_noop operation_name (w w1 : W) (backup_id : string) :
  ledger_cell (BackupManager.info_file (operation_name ++ "_" ++ now_strftime w)) ->
  BackupManager.create_operation_backup operation_name w = (w1, Ok backup_id) ->
  BackupManager.get_backup_info backup_id w1 =
    (w1, Ok (Some (doc_of (fresh_ledger operation_name (now_strftime w))))) /\
  RestoreManager.restore_operation backup_id w1 = (w1, Ok true).
Proof.
  intros Hcell Hcreate.
  destruct (create_operation_backup_written _ _ _ _ Hcreate) as [-> Hdump].
  pose proof (Hcell (doc_of (fresh_ledger operation_name (now_strftime w))) w) as Hw.
  rewrite Hdump in Hw. destruct Hw as [Hex Hload].
  pose proof (get_backup_info_found _ _ _ Hex Hload) as Hget.
  split; [exact Hget|].
  rewrite (restore_operation_found _ _ _ Hget eq_refl).
  unfold try_except. now rewrite restore_sections_traversal.
Qed.

End LedgerMore.

Section PreviewFacts.
Context {W : Type} `{os : OS W} `{txt : PyText}.

(** X8. [get_restore_preview] only reads: for every backup id and every
    world it returns (a preview or [None]) without raising, and the world
    it leaves is the world it found. *)
Theorem get_restore_preview_changes_nothing backup_id (w : W) :
  exists preview, RestoreManager.get_restore_preview backup_id w = (w, Ok preview).
Proof.
  unfold RestoreManager.get_restore_preview, try_except, bind.
  pose proof (get_backup_info_world backup_id w) as Hw.
  destruct (BackupManager.get_backup_info backup_id w) as [w1 [[doc|]|e]];
    simpl in Hw; subst w1; unfold ret; eauto.
  destruct (negb (truthy doc)); eauto.
  unfold read. destruct (RestoreManager.preview_of doc); eauto.
Qed.

(** X9. On a ledger document laid out as the engine writes it,
    [_count_backup_items] counts the entries of each section, and the
    ['total'] it reports is the number of restore steps that
    [restore_operation] runs for that document. *)
Theorem items_count_is_the_number_of_restore_steps (L : ledger) :
  RestoreManager._count_backup_items (doc_of L) =
  Ok (JDict [
    ("registry", RestoreManager.JNat (length (registry_backups L)));
    ("files", RestoreManager.JNat (length (file_backups L)));
    ("services", RestoreManager.JNat (length (service_states L)));
    ("startup_items", RestoreManager.JNat (length (startup_items L)));
    ("power_settings", RestoreManager.JNat (if truthy (power_settings L) then 1 else 0));
    ("total", RestoreManager.JNat (length (steps (W := W) L)))]).
Proof.
  unfold RestoreManager._count_backup_items, steps.
  cbn [doc_of py_get assoc_get String.eqb Ascii.eqb Bool.eqb rbind py_len].
  do 6 f_equal. f_equal. f_equal.
  rewrite !length_app, !length_map. do 2 f_equal.
  destruct (truthy (power_settings L)); simpl; lia.
Qed.

Lemma append_actions_kinds {A} (make : A -> result json) (kind : string) (entries : list A) :
  Forall (fun e => exists a, make e = Ok a /\ py_get a "type" JNull = Ok (JStr kind)) entries ->
  forall actions, exists added,
    RestoreManager.append_actions make entries actions = Ok (actions ++ added)%list /\
    map (fun a => py_get a "type" JNull) added = map (fun _ => Ok (JStr kind)) entries.
Proof.
  unfold RestoreManager.append_actions.
  induction 1 as [|e entries (a & Ha & Hk) _ IH]; intros actions.
  - exists []. simpl. now rewrite app_nil_r.
  - destruct (IH (actions ++ [a])%list) as (added & Hrun & Hkinds).
    exists (a :: added). simpl. rewrite Ha. simpl. rewrite Hrun, <- app_assoc. simpl.
    now rewrite Hk, Hkinds.
Qed.

(** X10. For a ledger document whose registry, file and service entries are
    dicts, [get_restore_preview] returns a preview with the operation and
    timestamp of the document and a list of actions in the order in which
    [restore_operation] goes through the sections: one ["registry"] action
    per registry entry, one ["file"] action per file entry, one ["service"]
    action per service, one ["power"] action when a power snapshot is
    present, and a single ["startup"] action for all startup items. *)
Theorem preview_lists_the_actions_in_restore_order backup_id (L : ledger) (w : W) :
  BackupManager.get_backup_info backup_id w = (w, Ok (Some (doc_of L))) ->
  forallb is_dict (registry_backups L) = true ->
  forallb is_dict (file_backups L) = true ->
  forallb (fun e => is_dict (snd e)) (service_states L) = true ->
  exists actions,
    RestoreManager.get_restore_preview backup_id w =
      (w, Ok (Some (JDict [("operation", JStr (operation L));
                           ("timestamp", JStr (timestamp L));
                           ("actions", JList actions)]))) /\
    map (fun a => py_get a "type" JNull) actions =
    map (fun k => Ok (JStr k)) (action_kinds L).
Proof.
  intros Hget Hreg Hfile Hsvc.
  destruct (append_actions_kinds RestoreManager.registry_action "registry"
              (registry_backups L)) with (actions := @nil json) as (a1 & H1 & K1).
  { apply List.Forall_forall. intros e He.
    rewrite forallb_forall in Hreg. specialize (Hreg e He).
    destruct e; try discriminate. eexists. split; reflexivity. }
  destruct (append_actions_kinds RestoreManager.file_action "file"
              (file_backups L)) with (actions := a1) as (a2 & H2 & K2).
  { apply List.Forall_forall. intros e He.
    rewrite forallb_forall in Hfile. specialize (Hfile e He).
    destruct e; try discriminate. eexists. split; reflexivity. }
  destruct (append_actions_kinds RestoreManager.service_action "service"
              (service_states L)) with (actions := (a1 ++ a2)%list) as (a3 & H3 & K3).
  { apply List.Forall_forall. intros e He.
    rewrite forallb_forall in Hsvc. specialize (Hsvc e He).
    destruct e as [n [| | | | |d]]; try discriminate. eexists. split; reflexivity. }
  simpl in H1.
  set (a4 := if truthy (power_settings L)
             then [RestoreManager.action "power" "Restaurar plano de energia"
                     (JStr "Plano anterior")]
             else []).
  set (a5 := match startup_items L with
             | [] => []
             | _ => [RestoreManager.action "startup" "Restaurar itens de inicialização"
                       (JStr (py_str (RestoreManager.JNat (length (startup_items L))) ++
                              " itens"))]
             end).
  exists (a1 ++ a2 ++ a3 ++ a4 ++ a5)%list. split.
  - unfold RestoreManager.get_restore_preview, try_except.
    rewrite (bind_run _ _ _ _ _ Hget).
    change (negb (truthy (doc_of L))) with false. cbv iota.
    unfold bind, read, ret. f_equal. f_equal.
    unfold RestoreManager.preview_of.
    cbn [doc_of py_get assoc_get String.eqb Ascii.eqb Bool.eqb rbind py_iter py_items py_len].
    rewrite H1. cbn [rbind]. rewrite H2. cbn [rbind]. rewrite H3. cbn [rbind].
    do 6 f_equal. subst a4 a5. rewrite <- !app_assoc.
    destruct (truthy (power_settings L)); destruct (startup_items L); simpl;
      rewrite ?app_nil_r, <- ?app_assoc; reflexivity.
  - unfold action_kinds. rewrite !map_app, K1, K2, K3, !map_map. do 3 f_equal.
    subst a4 a5. destruct (truthy (power_settings L)); destruct (startup_items L); reflexivity.
Qed.

End PreviewFacts.

(** ** The list of backups *)

Lemma string_ltb_lt (s t : string) :
  String.ltb s t = true <-> OrderedTypeEx.String_as_OT.lt s t.
Proof.
  unfold String.ltb. rewrite <- OrderedTypeEx.String_as_OT.cmp_lt.
  unfold OrderedTypeEx.String_as_OT.cmp.
  destruct (String.compare s t); split; intros H; congruence.
Qed.

Lemma string_ltb_irrefl (s : string) : String.ltb s s = false.
Proof.
  unfold String.ltb.
  assert (H : String.compare s s = Eq)
    by (apply OrderedTypeEx.String_as_OT.cmp_eq; reflexivity).
  now rewrite H.
Qed.

Lemma string_ltb_trans (s t u : string) :
  String.ltb s t = true -> String.ltb t u = true -> String.ltb s u = true.
Proof.
  rewrite !string_ltb_lt. apply OrderedTypeEx.String_as_OT.lt_trans.
Qed.

Lemma string_ltb_asym (s t : string) : String.ltb s t = true -> String.ltb t s = false.
Proof.
  intros H. destruct (String.ltb t s) eqn:E; [|reflexivity].
  pose proof (string_ltb_trans _ _ _ H E) as F. now rewrite string_ltb_irrefl in F.
Qed.

(** If [s] is not below [t] and [t] is not below [u], [s] is not below [u]. *)
Lemma string_geb_trans (s t u : string) :
  String.ltb s t = false -> String.ltb t u = false -> String.ltb s u = false.
Proof.
  intros Hst Htu. destruct (String.ltb s u) eqn:Hsu; [|reflexivity].
  unfold String.ltb in *.
  destruct (String.compare s t) eqn:C1; try discriminate.
  - apply OrderedTypeEx.String_as_OT.cmp_eq in C1. subst t. rewrite Htu in Hsu. discriminate.
  - assert (Hts : String.ltb t s = true).
    { unfold String.ltb. rewrite String.compare_antisym, C1. reflexivity. }
    assert (Hsu' : String.ltb s u = true) by (unfold String.ltb; exact Hsu).
    pose proof (string_ltb_trans _ _ _ Hts Hsu') as F. unfold String.ltb in F.
    rewrite F in Htu. discriminate.
Qed.

Lemma not_older_trans (a b c : json) :
  str_key a = true -> str_key b = true -> str_key c = true ->
  not_older a b -> not_older b c -> not_older a c.
Proof.
  unfold str_key, not_older.
  destruct (BackupManager.timestamp_key a); try discriminate.
  destruct (BackupManager.timestamp_key b); try discriminate.
  destruct (BackupManager.timestamp_key c); try discriminate.
  intros _ _ _. apply string_geb_trans.
Qed.

Lemma insert_desc_perm (x : json) (l : list json) :
  Permutation (x :: l) (BackupManager.insert_desc x l).
Proof.
  induction l as [|y l IH]; simpl; [reflexivity|].
  destruct (BackupManager.key_lt _ _); [reflexivity|].
  rewrite perm_swap. now apply perm_skip.
Qed.

Lemma sort_desc_perm_acc (l acc : list json) :
  Permutation (l ++ acc) (fold_left (fun sorted x => BackupManager.insert_desc x sorted) l acc).
Proof.
  revert acc. induction l as [|x l IH]; intros acc; simpl; [reflexivity|].
  rewrite <- IH. rewrite <- insert_desc_perm. now rewrite Permutation_middle.
Qed.

Lemma insert_desc_sorted (x : json) (l : list json) :
  str_key x = true -> forallb str_key l = true ->
  StronglySorted not_older l -> StronglySorted not_older (BackupManager.insert_desc x l).
Proof.
  intros Hx Hl Hs. induction Hs as [|y l Hs IH Hy]; simpl.
  - repeat constructor.
  - simpl in Hl. apply andb_prop in Hl as [Hky Hl].
    destruct (BackupManager.key_lt (BackupManager.timestamp_key y)
                (BackupManager.timestamp_key x)) eqn:E.
    + constructor; [now constructor|].
      assert (Hxy : not_older x y).
      { unfold not_older. unfold str_key in Hx, Hky.
        destruct (BackupManager.timestamp_key x); try discriminate.
        destruct (BackupManager.timestamp_key y); try discriminate.
        simpl in *. now apply string_ltb_asym. }
      constructor; [exact Hxy|].
      rewrite List.Forall_forall in Hy |- *. intros z Hz.
      apply (not_older_trans x y z); auto.
      rewrite forallb_forall in Hl. now apply Hl.
    + constructor; [now apply IH|].
      rewrite List.Forall_forall. intros z Hz.
      apply (Permutation_in _ (Permutation_sym (insert_desc_perm x l))) in Hz.
      destruct Hz as [<-|Hz]; [exact E|].
      rewrite List.Forall_forall in Hy. now apply Hy.
Qed.

Lemma sort_desc_sorted_acc (l acc : list json) :
  forallb str_key l = true -> forallb str_key acc = true ->
  StronglySorted not_older acc ->
  StronglySorted not_older
    (fold_left (fun sorted x => BackupManager.insert_desc x sorted) l acc).
Proof.
  revert acc. induction l as [|x l IH]; intros acc Hl Hacc Hs; simpl; [exact Hs|].
  simpl in Hl. apply andb_prop in Hl as [Hx Hl].
  apply IH; [exact Hl | | now apply insert_desc_sorted].
  rewrite forallb_forall. intros z Hz.
  apply (Permutation_in _ (Permutation_sym (insert_desc_perm x acc))) in Hz.
  destruct Hz as [<-|Hz]; [exact Hx|].
  rewrite forallb_forall in Hacc. now apply Hacc.
Qed.

Section ListingFacts.
Context {W : Type} `{os : OS W} `{host : Host W}.

(** X11. When the timestamps of the ledger documents that can be read are
    strings (a document without one counts as the empty string), which is
    what the engine writes, [list_backups] returns these documents, all of
    them and no other, ordered so that no document comes before a more
    recent one; the world is not changed. *)
Theorem list_backups_newest_first (sort_list_keys : list json -> result (list json)) (w : W) :
  forallb str_key
    (omap (fun info_file => BackupManager.read_backup info_file w)
       (fst (path_glob BackupManager.backup_root "*_info.json" w))) = true ->
  exists backups,
    BackupManager.list_backups sort_list_keys w = (w, Ok backups) /\
    Permutation
      (omap (fun info_file => BackupManager.read_backup info_file w)
         (fst (path_glob BackupManager.backup_root "*_info.json" w))) backups /\
    StronglySorted not_older backups.
Proof.
  unfold BackupManager.list_backups.
  set (docs := omap _ _). intros Hstr.
  assert (Hsort : Permutation docs (BackupManager.sort_desc docs) /\
                  StronglySorted not_older (BackupManager.sort_desc docs)).
  { unfold BackupManager.sort_desc. split.
    - rewrite <- sort_desc_perm_acc. now rewrite app_nil_r.
    - apply sort_desc_sorted_acc; [exact Hstr | reflexivity | constructor]. }
  unfold BackupManager.sort_newest_first.
  destruct docs as [|a [|b docs']] eqn:Hdocs.
  - exists []. repeat split; constructor.
  - exists [a]. repeat split; [reflexivity | repeat constructor].
  - exists (BackupManager.sort_desc (a :: b :: docs')).
    assert (Hkeys : forallb BackupManager.is_str
              (map BackupManager.timestamp_key (a :: b :: docs')) = true).
    { rewrite forallb_forall in Hstr. rewrite forallb_forall. intros k Hk.
      apply in_map_iff in Hk as (x & <- & Hx). now apply Hstr. }
    rewrite Hkeys. simpl. destruct Hsort. auto.
Qed.

(** X12. The sort of [list_backups] is outside its [try]: when some, but
    not all, of the readable ledger documents have a string as timestamp,
    the comparison of the sort keys fails and [list_backups] raises
    [TypeError] instead of returning a list. *)
Theorem list_backups_raises_on_mixed_timestamps
    (sort_list_keys : list json -> result (list json)) (w : W) :
  existsb str_key
    (omap (fun info_file => BackupManager.read_backup info_file w)
       (fst (path_glob BackupManager.backup_root "*_info.json" w))) = true ->
  forallb str_key
    (omap (fun info_file => BackupManager.read_backup info_file w)
       (fst (path_glob BackupManager.backup_root "*_info.json" w))) = false ->
  BackupManager.list_backups sort_list_keys w = (w, Raise TypeError).
Proof.
  unfold BackupManager.list_backups.
  set (docs := omap _ _). intros Hsome Hnot.
  assert (Hstr : forallb BackupManager.is_str (map BackupManager.timestamp_key docs) = false).
  { rewrite <- Hnot. clear. induction docs; simpl; [reflexivity|]. now rewrite IHdocs. }
  assert (Hex : exists x, In x docs /\ str_key x = true) by (now apply existsb_exists).
  destruct Hex as (x & Hx & Hkx).
  assert (Hnum : forallb BackupManager.is_num (map BackupManager.timestamp_key docs) = false).
  { apply not_true_is_false. intros H. rewrite forallb_forall in H.
    specialize (H _ (in_map _ _ _ Hx)). unfold str_key in Hkx.
    destruct (BackupManager.timestamp_key x); discriminate. }
  assert (Hlist : forallb BackupManager.is_list (map BackupManager.timestamp_key docs) = false).
  { apply not_true_is_false. intros H. rewrite forallb_forall in H.
    specialize (H _ (in_map _ _ _ Hx)). unfold str_key in Hkx.
    destruct (BackupManager.timestamp_key x); discriminate. }
  unfold BackupManager.sort_newest_first.
  destruct docs as [|a [|b docs']].
  - discriminate.
  - simpl in Hsome, Hnot. rewrite orb_false_r in Hsome. rewrite andb_true_r in Hnot.
    congruence.
  - now rewrite Hstr, Hnum, Hlist.
Qed.

End ListingFacts.

(** ** The optimization life cycle *)

Section BaseFacts.
Context {W : Type} `{os : OS W} `{host : Host W} `{txt : PyText}.

Lemma lift_total {A} (m : M W A) : total m -> total (base.lift m).
Proof.
  intros Hm [s w]. unfold base.lift. cbn [fst snd].
  destruct (Hm w) as [a Ha]. destruct (m w) as [w1 r]. simpl in *. eauto.
Qed.

Lemma result_new_total b msg d : total (base.OptimizationResult_new b msg d).
Proof. intros sw. eexists. reflexivity. Qed.

Lemma handler_total (st : option base.OptimizationStatus) (msg : string) :
  total (_ <- (match st with Some s => base.set_status s | None => ret tt end) ;;
         result <- base.OptimizationResult_new false msg None ;;
         _ <- base.set_last_result result ;;
         ret result).
Proof.
  apply bind_total; [destruct st; intros sw; eexists; reflexivity|]. intros _.
  apply bind_total; [apply result_new_total|]. intros r.
  apply bind_total; [intros sw; eexists; reflexivity|]. intros _. apply ret_total.
Qed.

(** X13. [_safe_apply], [_safe_revert] and [_safe_simulate] never raise,
    whatever the methods of the subclass do or raise: every call returns an
    [OptimizationResult]. *)
Theorem safe_methods_never_raise (o : base.Subclass) :
  total (base._safe_apply o) /\ total (base._safe_revert o) /\ total (base._safe_simulate o).
Proof.
  repeat split; apply try_except_total; intros e.
  - apply (handler_total (Some base.ERROR)).
  - apply (handler_total (Some base.ERROR)).
  - apply bind_total; [apply result_new_total|]. intros r.
    apply bind_total; [intros sw; eexists; reflexivity|]. intros _. apply ret_total.
Qed.

Lemma safe_revert_refuses (o : base.Subclass) (sw : base.Self * W) :
  base.can_revert (fst sw) = false ->
  base._safe_revert o sw = (sw, Ok (refusal sw)).
Proof.
  intros H. unfold base._safe_revert, try_except, bind, base.get_self.
  now rewrite H.
Qed.

(** X14. When [_safe_apply] returns a result that reports success, the
    object is left with status [APPLIED] and that result as [last_result],
    and the result is the one [apply] returned: [apply] was called after the
    environment was validated and after [create_operation_backup] had
    opened a ledger, with [backup_id] set to the id of that ledger. *)
Theorem successful_apply_is_applied (o : base.Subclass) (sw sw' : base.Self * W)
    (r : base.OptimizationResult) :
  base._safe_apply o sw = (sw', Ok r) ->
  base.success r = true ->
  base.status (fst sw') = base.APPLIED /\
  base.last_result (fst sw') = Some r /\
  exists sw1 w2 id sw3,
    base._validate_environment o sw = (sw1, Ok true) /\
    BackupManager.create_operation_backup (base.name o) (snd sw1) = (w2, Ok id) /\
    base.apply o ({| base.backup_id := Some id; base.status := base.status (fst sw1);
                     base.last_result := base.last_result (fst sw1) |}, w2) = (sw3, Ok r) /\
    base.backup_id (fst sw') = base.backup_id (fst sw3) /\
    snd sw' = snd sw3.
Proof.
  unfold base._safe_apply, try_except. unfold bind at 1.
  destruct (base._validate_environment o sw) as [sw1 [[|]|e]] eqn:Hval; cbn [negb].
  2, 3: intros H Hs; inversion H; subst; discriminate.
  unfold bind at 1. unfold base.create_backup, try_except. unfold bind at 1.
  unfold base.lift at 1.
  destruct (BackupManager.create_operation_backup (base.name o) (snd sw1)) as [w2 [id|e]]
    eqn:Hcreate; cbn [fst snd].
  2: intros H Hs; inversion H; subst; discriminate.
  unfold bind at 1. unfold base.set_backup_id at 1. cbn [fst snd ret negb].
  unfold bind at 1.
  destruct (base.apply o _) as [sw3 [r3|e]] eqn:Happly.
  2: intros H Hs; inversion H; subst; discriminate.
  unfold bind, base.set_status, base.set_last_result, ret. cbn [fst snd].
  intros H Hs. inversion H; subst. rewrite Hs. cbn [fst snd base.status base.last_result
    base.backup_id].
  repeat split. exists sw1, w2, id, sw3. auto.
Qed.

(** X15. An optimization whose [apply] reports failure, or raises, cannot
    be reverted through [_safe_revert], although a ledger was opened for
    it: [_safe_apply] returns a failure and leaves status [ERROR], and
    [_safe_revert] then refuses without calling [revert] and without
    changing anything. *)
Theorem failed_apply_cannot_be_reverted (o : base.Subclass) (sw sw1 sw2 : base.Self * W) :
  base._validate_environment o sw = (sw1, Ok true) ->
  base.create_backup o sw1 = (sw2, Ok true) ->
  match snd (base.apply o sw2) with Ok r => base.success r | Raise _ => false end = false ->
  exists sw3 r,
    base._safe_apply o sw = (sw3, Ok r) /\
    base.success r = false /\
    base.status (fst sw3) = base.ERROR /\
    base._safe_revert o sw3 = (sw3, Ok (refusal sw3)).
Proof.
  intros Hval Hcreate Hfail.
  unfold base._safe_apply, try_except.
  rewrite (bind_run _ _ _ _ _ Hval). cbn [negb].
  rewrite (bind_run _ _ _ _ _ Hcreate). cbn [negb].
  unfold bind at 1.
  destruct (base.apply o sw2) as [sw3 [r|e]]; cbn [snd] in Hfail.
  - unfold bind, base.set_status, base.set_last_result, ret. cbn [fst snd]. rewrite Hfail.
    eexists _, r. repeat split; [exact Hfail|].
    apply safe_revert_refuses. unfold base.can_revert, base.is_applied. cbn.
    now destruct (base.backup_id (fst sw3)).
  - unfold bind, base.set_status, base.set_last_result, base.OptimizationResult_new, ret.
    cbn [fst snd]. eexists _, _. repeat split.
    apply safe_revert_refuses. unfold base.can_revert, base.is_applied. cbn.
    now destruct (base.backup_id (fst sw3)).
Qed.

(** X16. A successful [_safe_simulate] sets the status to [SIMULATED]
    whatever it was: after it, [_safe_revert] refuses, without calling
    [revert] and without changing anything, also for an optimization that
    was applied before the simulation. *)
Theorem simulation_forfeits_the_revert (o : base.Subclass) (sw sw1 : base.Self * W)
    (r : base.OptimizationResult) :
  base._safe_simulate o sw = (sw1, Ok r) ->
  base.success r = true ->
  base._safe_revert o sw1 = (sw1, Ok (refusal sw1)).
Proof.
  intros Hsim Hs. apply safe_revert_refuses.
  revert Hsim. unfold base._safe_simulate, try_except. unfold bind at 1.
  destruct (base._validate_environment o sw) as [sw0 [[|]|e]]; cbn [negb].
  - unfold bind at 1. destruct (base.simulate o sw0) as [sw2 [r2|e]].
    + unfold bind, base.set_status, base.set_last_result, ret.
      destruct (base.success r2) eqn:E; cbn [fst snd]; intros H; inversion H; subst.
      * unfold base.can_revert, base.is_applied. cbn.
        now destruct (base.backup_id (fst sw2)).
      * congruence.
    + unfold bind, base.set_last_result, base.OptimizationResult_new, ret.
      intros H; inversion H; subst. discriminate.
  - unfold base.OptimizationResult_new. intros H; inversion H; subst. discriminate.
  - unfold bind, base.set_last_result, base.OptimizationResult_new, ret.
    intros H; inversion H; subst. discriminate.
Qed.

(** X17. After a [_safe_revert] that reported success, a second
    [_safe_revert] refuses: [revert] is not called again and nothing is
    changed. *)
Theorem revert_is_not_repeated (o : base.Subclass) (sw sw1 : base.Self * W)
    (r : base.OptimizationResult) :
  base._safe_revert o sw = (sw1, Ok r) ->
  base.success r = true ->
  base._safe_revert o sw1 = (sw1, Ok (refusal sw1)).
Proof.
  intros Hrev Hs. apply safe_revert_refuses.
  revert Hrev. unfold base._safe_revert, try_except. unfold bind at 1.
  unfold base.get_self at 1. cbn [fst snd].
  destruct (base.can_revert (fst sw)); cbn [negb].
  - unfold bind at 1. destruct (base.revert o sw) as [sw2 [r2|e]].
    + unfold bind, base.set_status, base.set_last_result, ret.
      destruct (base.success r2) eqn:E; cbn [fst snd]; intros H; inversion H; subst.
      * unfold base.can_revert, base.is_applied. cbn.
        now destruct (base.backup_id (fst sw2)).
      * congruence.
    + unfold bind, base.set_status, base.set_last_result, base.OptimizationResult_new, ret.
      intros H; inversion H; subst. discriminate.
  - unfold base.OptimizationResult_new. intros H; inversion H; subst. discriminate.
Qed.

End BaseFacts.

(** ** Xbox Game Bar *)

Section XboxFacts.
Context {W : Type} `{os : OS W} `{reg : Winreg W} `{host : Host W} `{txt : PyText}.

Lemma lift_run {A} (m : M W A) (s : base.Self) (w w1 : W) (a : A) :
  m w = (w1, Ok a) -> base.lift m (s, w) = ((s, w1), Ok a).
Proof. intros H. unfold base.lift. cbn [fst snd]. now rewrite H. Qed.

Lemma total_run {A} (m : M W A) (w : W) :
  total m -> exists w1 a, m w = (w1, Ok a).
Proof.
  intros Hm. destruct (Hm w) as [a Ha]. destruct (m w) as [w1 r]. simpl in Ha. subst.
  eauto.
Qed.

(** X18. [XboxGameBarOptimization.apply] never raises and always reports
    success, on every object and in every world: the outcomes of the two
    captures and of the two registry writes only show in the message. *)
Theorem xbox_apply_reports_success_whatever_was_written (sw : base.Self * W) :
  exists sw' r,
    XboxGameBarOptimization.apply sw = (sw', Ok r) /\ base.success r = true.
Proof.
  destruct sw as [s w].
  unfold XboxGameBarOptimization.apply, try_except.
  unfold bind at 1. unfold base.get_self at 1. cbn [fst snd].
  assert (Hcap : exists w1,
    (match BackupManager.key_given (base.backup_id s) with
     | Some id =>
         _ <- base.lift (BackupManager.backup_registry_key id HKEY_CURRENT_USER
                           XboxGameBarOptimization.gamebar_key "Game Bar settings") ;;
         _ <- base.lift (BackupManager.backup_registry_key id HKEY_CURRENT_USER
                           XboxGameBarOptimization.gamedvr_key "Game DVR settings") ;;
         ret tt
     | None => ret tt
     end) (s, w) = ((s, w1), Ok tt)).
  { destruct (BackupManager.key_given (base.backup_id s)) as [id|]; [|now exists w].
    destruct (total_run _ w (backup_registry_key_total id HKEY_CURRENT_USER
                XboxGameBarOptimization.gamebar_key "Game Bar settings")) as (w1 & b1 & H1).
    destruct (total_run _ w1 (backup_registry_key_total id HKEY_CURRENT_USER
                XboxGameBarOptimization.gamedvr_key "Game DVR settings")) as (w2 & b2 & H2).
    exists w2. rewrite (bind_run _ _ _ _ _ (lift_run _ s _ _ _ H1)).
    now rewrite (bind_run _ _ _ _ _ (lift_run _ s _ _ _ H2)). }
  destruct Hcap as [w1 Hcap]. rewrite (bind_run _ _ _ _ _ Hcap).
  destruct (total_run _ w1 (write_value_total HKEY_CURRENT_USER
              (JStr XboxGameBarOptimization.gamebar_key) (JStr "UseNexusForGameBarEnabled")
              (JNum 0) REG_DWORD)) as (w2 & ok1 & H1).
  rewrite (bind_run _ _ _ _ _ (lift_run _ s _ _ _ H1)).
  destruct (total_run _ w2 (write_value_total HKEY_CURRENT_USER
              (JStr XboxGameBarOptimization.gamedvr_key) (JStr "GameDVR_Enabled")
              (JNum 0) REG_DWORD)) as (w3 & ok2 & H2).
  rewrite (bind_run _ _ _ _ _ (lift_run _ s _ _ _ H2)).
  eexists _, _. split; reflexivity.
Qed.

Lemma read_value_run hkey subkey value_name (w : W) :
  exists v, registry.read_value hkey subkey value_name w = (w, Ok v).
Proof.
  unfold registry.read_value, try_except, bind, read, ret.
  destruct (winreg_query_value hkey subkey value_name w); eauto.
Qed.

Lemma is_admin_run (w : W) : exists b, UACElevation.is_admin w = (w, Ok b).
Proof.
  unfold UACElevation.is_admin, try_except, bind, read, ret.
  destruct (is_user_an_admin w); eauto.
Qed.

(** X19. Simulating the Xbox Game Bar optimization through
    [_safe_simulate] leaves the world as it is: it only reads the registry
    and the administrator flag. Only the object changes. *)
Theorem xbox_simulation_changes_nothing_on_the_machine (s : base.Self) (w : W) :
  exists s' r,
    base._safe_simulate XboxGameBarOptimization.subclass (s, w) = ((s', w), Ok r).
Proof.
  unfold base._safe_simulate, try_except.
  destruct (is_admin_run w) as [admin Hadmin].
  assert (Hval : base._validate_environment XboxGameBarOptimization.subclass (s, w) =
                 ((s, w), Ok admin)).
  { unfold base._validate_environment. cbn [base.check_compatibility base.requires_admin
      XboxGameBarOptimization.subclass].
    unfold bind at 1. unfold ret at 1. cbn [negb].
    rewrite (bind_run _ _ _ _ _ (lift_run _ s _ _ _ Hadmin)). now destruct admin. }
  rewrite (bind_run _ _ _ _ _ Hval). destruct admin; cbn [negb].
  - assert (Hsim : exists r, XboxGameBarOptimization.simulate (s, w) = ((s, w), Ok r)).
    { unfold XboxGameBarOptimization.simulate, try_except.
      unfold XboxGameBarOptimization._get_current_status.
      destruct (read_value_run HKEY_CURRENT_USER XboxGameBarOptimization.gamebar_key
                  "UseNexusForGameBarEnabled" w) as [v1 H1].
      destruct (read_value_run HKEY_CURRENT_USER XboxGameBarOptimization.gamedvr_key
                  "GameDVR_Enabled" w) as [v2 H2].
      assert (Hst : base.lift
                (value <- registry.read_value HKEY_CURRENT_USER
                            XboxGameBarOptimization.gamebar_key "UseNexusForGameBarEnabled" ;;
                 (let gamebar_enabled := XboxGameBarOptimization.enabled value in
                  value0 <- registry.read_value HKEY_CURRENT_USER
                              XboxGameBarOptimization.gamedvr_key "GameDVR_Enabled" ;;
                  (let gamedvr_enabled := XboxGameBarOptimization.enabled value0 in
                   ret (gamebar_enabled, gamedvr_enabled)))) (s, w) =
              ((s, w), Ok (XboxGameBarOptimization.enabled v1,
                           XboxGameBarOptimization.enabled v2))).
      { apply lift_run. rewrite (bind_run _ _ _ _ _ H1). cbv zeta.
        now rewrite (bind_run _ _ _ _ _ H2). }
      rewrite (bind_run _ _ _ _ _ Hst). eexists. reflexivity. }
    destruct Hsim as [r Hsim].
    cbn [base.simulate XboxGameBarOptimization.subclass].
    rewrite (bind_run _ _ _ _ _ Hsim).
    unfold bind, base.set_status, base.set_last_result, ret.
    destruct (base.success r); cbn [fst snd]; eexists _, _; reflexivity.
  - eexists _, _. reflexivity.
Qed.

End XboxFacts.

(** ** Running processes *)

Section ProcessFacts.
Context {W : Type} `{ps : Psutil W} `{txt : PyText}.

Lemma mark_targets_get (process_names : list string) (proc_name k : string) :
  forall running,
    assoc_get k (SystemChecks.mark_targets process_names proc_name running) =
    if existsb (String.eqb k) process_names && is_substring (py_lower k) proc_name
    then Some true else assoc_get k running.
Proof.
  unfold SystemChecks.mark_targets.
  induction process_names as [|t names IH]; intros running; simpl; [reflexivity|].
  rewrite IH. destruct (String.eqb k t) eqn:E; simpl.
  - apply String.eqb_eq in E. subst t.
    destruct (is_substring (py_lower k) proc_name) eqn:S.
    + rewrite andb_true_r. rewrite assoc_get_set_eq. now destruct (existsb _ names).
    + now rewrite andb_false_r.
  - destruct (existsb (String.eqb k) names && is_substring (py_lower k) proc_name);
      [reflexivity|].
    destruct (is_substring (py_lower t) proc_name); [|reflexivity].
    now rewrite assoc_get_set, E.
Qed.

Lemma scan_get (process_names : list string) (procs : list (option string)) :
  forall acc,
    match rfold procs acc (fun running proc =>
            match proc with
            | Some n => Ok (SystemChecks.mark_targets process_names (py_lower n) running)
            | None => Raise AttributeError
            end) with
    | Ok running =>
        forallb named procs = true /\
        forall k, assoc_get k running =
                  if existsb (String.eqb k) process_names && occurs k procs
                  then Some true else assoc_get k acc
    | Raise _ => forallb named procs = false
    end.
Proof.
  induction procs as [|[n|] procs IH]; intros acc; simpl.
  - split; [reflexivity|]. intros k. now rewrite andb_false_r.
  - specialize (IH (SystemChecks.mark_targets process_names (py_lower n) acc)).
    destruct (rfold procs _ _) as [running|e]; [|exact IH].
    destruct IH as [Hnamed Hget]. split; [exact Hnamed|]. intros k.
    rewrite Hget, mark_targets_get.
    destruct (existsb (String.eqb k) process_names); simpl; [|reflexivity].
    destruct (is_substring (py_lower k) (py_lower n)); simpl; [|reflexivity].
    now destruct (occurs k procs).
  - reflexivity.
Qed.

Lemma fill_missing_get (process_names : list string) (k : string) :
  forall running,
    assoc_get k (SystemChecks.fill_missing process_names running) =
    match assoc_get k running with
    | Some b => Some b
    | None => if existsb (String.eqb k) process_names then Some false else None
    end.
Proof.
  unfold SystemChecks.fill_missing.
  induction process_names as [|t names IH]; intros running; simpl.
  - now destruct (assoc_get k running).
  - rewrite IH. destruct (assoc_get t running) eqn:Ht.
    + destruct (assoc_get k running) eqn:Hk; [reflexivity|].
      destruct (String.eqb k t) eqn:E; [|reflexivity].
      apply String.eqb_eq in E. subst. congruence.
    + rewrite assoc_get_set. destruct (String.eqb k t) eqn:E; simpl.
      * apply String.eqb_eq in E. subst. now rewrite Ht.
      * reflexivity.
Qed.

Lemma all_false_get (process_names : list string) (k : string) :
  assoc_get k (SystemChecks.all_false process_names) =
  if existsb (String.eqb k) process_names then Some false else None.
Proof.
  unfold SystemChecks.all_false.
  assert (H : forall acc,
    assoc_get k (fold_left (fun running name => assoc_set name false running)
                   process_names acc) =
    if existsb (String.eqb k) process_names then Some false else assoc_get k acc).
  { induction process_names as [|t names IH]; intros acc; simpl; [reflexivity|].
    rewrite IH, assoc_get_set.
    destruct (String.eqb k t); simpl; [now destruct (existsb _ names) | reflexivity]. }
  apply H.
Qed.

(** X20. [check_running_processes] never raises, leaves the world as it
    is, and answers for exactly the names it was asked about: a name maps
    to [True] when the process iteration ended by itself, every process
    had a name, and the lowered name occurs in the lowered name of some
    process; to [False] otherwise. In particular one process without a
    name makes every answer [False]. *)
Theorem check_running_processes_answers_for_every_name (process_names : list string)
    (w : W) :
  exists running,
    SystemChecks.check_running_processes process_names w = (w, Ok running) /\
    forall name,
      assoc_get name running =
      if existsb (String.eqb name) process_names then Some (found name w) else None.
Proof.
  unfold SystemChecks.check_running_processes, found.
  destruct (process_iter w) as [procs stopped]. cbn [fst snd].
  pose proof (scan_get process_names procs []) as Hscan.
  unfold SystemChecks.scan.
  destruct (rfold procs [] _) as [running|e].
  - destruct Hscan as [Hnamed Hget]. destruct stopped as [e|].
    + eexists. split; [reflexivity|]. intros name. apply all_false_get.
    + eexists. split; [reflexivity|]. intros name.
      rewrite fill_missing_get, Hget, Hnamed. simpl.
      destruct (existsb (String.eqb name) process_names); simpl; [|reflexivity].
      now destruct (occurs name procs).
  - exists (SystemChecks.all_false process_names). split; [now destruct stopped|].
    intros name. rewrite all_false_get, Hscan. simpl.
    now destruct stopped.
Qed.

End ProcessFacts.

(** ** Capture and restore on the reference machine *)



Section SimRoundTrips.
Import Sim SimMore.

Lemma sim_create_operation_backup (operation_name : string) (w : world) :
  let backup_id := operation_name ++ "_" ++ pretty (clock w) in
  can_write (BackupManager.info_file backup_id) w = true ->
  BackupManager.create_operation_backup operation_name w =
  (set_files (<[BackupManager.info_file backup_id :=
                  File (clock w) (Doc (doc_of (fresh_ledger operation_name (pretty (clock w)))))]>
                (files w)) w, Ok backup_id).
Proof.
  intros backup_id Hw. unfold BackupManager.create_operation_backup.
  unfold bind at 1. unfold read at 1. cbv beta iota.
  change (now_strftime w) with (pretty (clock w)). fold backup_id.
  unfold bind, ret.
  change (json_dump ?p ?j w) with (dump p j w). unfold dump. rewrite Hw. reflexivity.
Qed.

Lemma sim_backup_file (backup_id p description : string) (L : ledger) (w : world)
    (m : Z) (d : blob) :
  let info := BackupManager.info_file backup_id in
  let blob := blob_of backup_id p in
  files w !! p = Some (File m d) ->
  files w !! info = Some (File (clock w) (Doc (doc_of L))) ->
  can_write blob w = true -> can_write info w = true -> info <> blob ->
  BackupManager.backup_file backup_id p description w =
  (set_files
     (<[info := File (clock w)
                  (Doc (doc_of {| operation := operation L; timestamp := timestamp L;
                                  registry_backups := registry_backups L;
                                  file_backups :=
                                    (file_backups L ++ [file_entry p blob description])%list;
                                  service_states := service_states L;
                                  power_settings := power_settings L;
                                  startup_items := startup_items L |}))]>
        (<[blob := File m d]> (files w))) w, Ok true).
Proof.
  intros info blob Hp Hinfo Hwb Hwi Hne.
  assert (Hcopy : shutil_copy2 (path_str p) blob w =
                  (set_files (<[blob := File m d]> (files w)) w, Ok tt)).
  { change (shutil_copy2 (path_str p) blob w) with (copy2 p blob w).
    unfold copy2. now rewrite Hp, Hwb. }
  assert (Hex : path_exists (path_str p) w = Ok true).
  { change (path_exists (path_str p) w) with (exists_ p w). unfold exists_. now rewrite Hp. }
  rewrite (backup_file_copied backup_id p description w _ Hex Hcopy).
  f_equal.
  unfold BackupManager._update_backup_info, try_except. fold info.
  unfold bind at 1. unfold read at 1.
  change (path_exists info ?v) with (exists_ info v). unfold exists_ at 1.
  cbn [files set_files]. rewrite lookup_insert_ne by (apply not_eq_sym, Hne). rewrite Hinfo.
  cbv beta iota.
  unfold bind at 1. unfold read at 1.
  change (json_load info ?v) with (load info v). unfold load at 1.
  cbn [files set_files]. rewrite lookup_insert_ne by (apply not_eq_sym, Hne). rewrite Hinfo.
  cbv beta iota.
  unfold bind at 1. unfold read at 1.
  change (BackupManager.update_section (doc_of L) "file_backups" ?e None)
    with (Ok (doc_of {| operation := operation L; timestamp := timestamp L;
                        registry_backups := registry_backups L;
                        file_backups := (file_backups L ++ [e])%list;
                        service_states := service_states L;
                        power_settings := power_settings L;
                        startup_items := startup_items L |})).
  cbv beta iota.
  change (json_dump info ?j ?v) with (dump info j v). unfold dump.
  unfold can_write in *. cbn [read_only set_files]. rewrite Hwi.
  cbn [fst clock set_files files]. reflexivity.
Qed.

Lemma sim_restore_file (p blob description : string) (w : world) (m : Z) (d : Sim.blob) :
  files w !! blob = Some (File m d) ->
  blob <> "" ->
  can_write p w = true ->
  is_file (parent p) w = Ok false ->
  exists w',
    RestoreManager._restore_file_backup (file_entry p blob description) w = (w', Ok true) /\
    files w' !! p = Some (File m d) /\
    (forall q, q <> p -> q <> parent p -> files w' !! q = files w !! q) /\
    hives w' = hives w /\ services w' = services w /\ active_plan w' = active_plan w.
Proof.
  intros Hb Hne Hw Hpar.
  unfold RestoreManager._restore_file_backup, try_except.
  unfold bind at 1. unfold read at 1.
  change (py_get (file_entry p blob description) "original_path" JNull) with (Ok (JStr p)).
  cbv beta iota.
  unfold bind at 1. unfold read at 1.
  change (py_get (file_entry p blob description) "backup_path" JNull) with (Ok (JStr blob)).
  cbv beta iota.
  unfold bind at 1. unfold read at 1.
  change (py_get (file_entry p blob description) "type" (JStr "file")) with (Ok (JStr "file")).
  cbv beta iota.
  unfold bind at 1. unfold RestoreManager.blob_missing.
  assert (Ht : truthy (JStr blob) = true).
  { simpl. apply String.eqb_neq in Hne. now rewrite Hne. }
  rewrite Ht. change (negb true) with false. cbv iota.
  unfold bind at 1. unfold read at 1. change (py_path (JStr blob)) with (Ok blob).
  cbv beta iota.
  unfold bind at 1. unfold read at 1.
  change (path_exists blob w) with (exists_ blob w). unfold exists_, ret. rewrite Hb.
  cbv beta iota. change (negb true) with false. cbv iota.
  change (RestoreManager.json_is_str (JStr "file") "directory_zip") with false. cbv iota.
  unfold RestoreManager._restore_single_file, try_except, bind, read, ret.
  change (py_path (JStr p)) with (Ok p). change (py_path (JStr blob)) with (Ok blob).
  cbv beta iota.
  change (path_mkdir (path_parent p) w) with (mkdir (parent p) w).
  change (shutil_copy2 blob p ?v) with (copy2 blob p v).
  unfold is_file in Hpar. unfold mkdir, copy2.
  destruct (files w !! parent p) as [[m' d'|]|] eqn:Hp; [discriminate| |].
  - rewrite Hb, Hw. eexists. split; [reflexivity|]. cbn [files set_files hives services active_plan].
    split; [apply lookup_insert_eq|]. split; [|auto].
    intros q Hq _. now rewrite lookup_insert_ne by congruence.
  - cbn [files set_files].
    assert (Hbp : blob <> parent p) by (intros ->; congruence).
    rewrite lookup_insert_ne by congruence. rewrite Hb.
    unfold can_write in *. cbn [read_only set_files]. rewrite Hw.
    eexists. split; [reflexivity|]. cbn [files set_files hives services active_plan].
    split; [apply lookup_insert_eq|]. split; [|auto].
    intros q Hq Hq'. rewrite lookup_insert_ne by congruence.
    now rewrite lookup_insert_ne by congruence.
Qed.

Lemma blob_of_nonempty (backup_id source : string) : blob_of backup_id source <> "".
Proof. discriminate. Qed.


End SimRoundTrips.

Section SimRegistry.
Import Sim SimMore.

Lemma sim_update_backup_info backup_id section data key (doc doc' : json) (t : Z)
    (w : world) :
  files w !! BackupManager.info_file backup_id = Some (File t (Doc doc)) ->
  can_write (BackupManager.info_file backup_id) w = true ->
  BackupManager.update_section doc section data key = Ok doc' ->
  BackupManager._update_backup_info backup_id section data key w =
  (set_files (<[BackupManager.info_file backup_id := File (clock w) (Doc doc')]> (files w)) w,
   Ok tt).
Proof.
  intros Hinfo Hw Hupd.
  unfold BackupManager._update_backup_info, try_except.
  unfold bind at 1. unfold read at 1.
  change (path_exists ?p w) with (exists_ p w). unfold exists_ at 1. rewrite Hinfo.
  cbv beta iota.
  unfold bind at 1. unfold read at 1.
  change (json_load ?p w) with (load p w). unfold load at 1. rewrite Hinfo.
  cbv beta iota.
  unfold bind at 1. unfold read at 1. rewrite Hupd. cbv beta iota.
  change (json_dump ?p ?j w) with (dump p j w). unfold dump. now rewrite Hw.
Qed.

Lemma sim_backup_key (hkey : Z) (subkey : string) (values : list (string * json))
    (w : world) :
  let key := registry._get_hkey_name hkey ++ BS ++ subkey in
  let export := export_of hkey subkey (pretty (clock w)) in
  hives w !! key = Some values ->
  can_write export w = true ->
  registry.backup_key hkey (JStr subkey) w =
  (set_files (<[export := File (clock w) (RegExport key values)]> (files w)) w,
   Ok (Some export)).
Proof.
  intros key export Hkey Hw. unfold registry.backup_key, try_except.
  unfold bind at 1. unfold read at 1. cbv beta iota.
  change (now_strftime w) with (pretty (clock w)).
  fold key. unfold export_of in export. fold export.
  unfold bind, ret.
  change (reg_export key export w) with (Sim.export key export w).
  unfold Sim.export. rewrite Hkey, Hw. reflexivity.
Qed.

Lemma export_of_nonempty hkey subkey timestamp : export_of hkey subkey timestamp <> "".
Proof. discriminate. Qed.

Lemma sim_restore_registry (hkey : Z) (subkey export description key : string)
    (values : list (string * json)) (t : Z) (w : world) :
  files w !! export = Some (File t (RegExport key values)) ->
  export <> "" ->
  needs_elevation key && negb (elevated w) = false ->
  RestoreManager._restore_registry_backup (registry_entry hkey subkey export description) w =
  (set_hives (<[key := merge_values values
                         (match hives w !! key with Some v => v | None => [] end)]>
                (hives w)) w, Ok true).
Proof.
  intros Hfile Hne Hel.
  unfold RestoreManager._restore_registry_backup, try_except.
  unfold bind at 1. unfold read at 1.
  change (py_get (registry_entry hkey subkey export description) "backup_path" JNull)
    with (Ok (JStr export)).
  cbv beta iota.
  unfold bind at 1. unfold RestoreManager.blob_missing.
  assert (Ht : truthy (JStr export) = true).
  { simpl. apply String.eqb_neq in Hne. now rewrite Hne. }
  rewrite Ht. change (negb true) with false. cbv iota.
  unfold bind at 1. unfold read at 1. change (py_path (JStr export)) with (Ok export).
  cbv beta iota.
  unfold bind at 1. unfold read at 1.
  change (path_exists export w) with (exists_ export w). unfold exists_, ret. rewrite Hfile.
  cbv beta iota. change (negb true) with false. cbv iota.
  unfold bind at 1. unfold read at 1. change (py_path (JStr export)) with (Ok export).
  cbv beta iota.
  unfold registry.restore_from_backup, try_except, bind, read, ret.
  change (path_exists export w) with (exists_ export w). unfold exists_. rewrite Hfile.
  cbv beta iota. change (negb true) with false. cbv beta iota.
  change (reg_import export w) with (import export w).
  unfold import. rewrite Hfile, Hel. reflexivity.
Qed.

Lemma merge_values_get (new old : list (string * json)) (name : string) :
  NoDup (map fst new) ->
  assoc_get name (merge_values new old) =
  match assoc_get name new with
  | Some v => Some v
  | None => assoc_get name old
  end.
Proof.
  unfold merge_values. revert old.
  induction new as [|[k v] new IH]; intros old Hnd; simpl; [reflexivity|].
  inversion Hnd as [|? ? Hk Hnd']; subst. rewrite IH by assumption.
  destruct (String.eqb name k) eqn:E.
  - apply String.eqb_eq in E. subst name.
    assert (Hnone : assoc_get k new = None).
    { clear -Hk. induction new as [|[k' v'] new IH]; simpl; [reflexivity|].
      simpl in Hk. destruct (String.eqb k k') eqn:E.
      - apply String.eqb_eq in E. subst. exfalso. apply Hk. now left.
      - apply IH. intros H. apply Hk. now right. }
    rewrite Hnone. apply assoc_get_set_eq.
  - destruct (assoc_get name new); [reflexivity|].
    apply assoc_get_set_ne. apply String.eqb_neq in E. congruence.
Qed.


End SimRegistry.

Section SimServices.
Import Sim SimMore.

Lemma sim_get_service_status (service_name : string) (w : world) :
  ServiceManager.get_service_status service_name w =
  (w, Ok (match services w !! service_name with Some st => st | None => UNKNOWN end)).
Proof.
  unfold ServiceManager.get_service_status, try_except, bind, read, ret.
  change (sc_query service_name w) with (query service_name w). unfold query.
  destruct (services w !! service_name) as [[| | |]|]; reflexivity.
Qed.

Lemma sim_restore_service (service_name : string) (st st' : ServiceState)
    (info : list (string * json)) (w : world) :
  services w !! service_name = Some st' ->
  exists w',
    RestoreManager._restore_service_state service_name
      (service_snapshot service_name st info) w = (w', Ok true) /\
    services w' !! service_name =
      Some (match st with RUNNING | STOPPED => st | _ => st' end) /\
    files w' = files w /\ hives w' = hives w.
Proof.
  intros Hsvc.
  unfold RestoreManager._restore_service_state, try_except.
  unfold bind at 1. unfold read at 1.
  change (py_get (service_snapshot service_name st info) "state" (JStr "UNKNOWN"))
    with (Ok (JStr (ServiceState_value st))).
  cbv beta iota.
  destruct st; cbn [ServiceState_value RestoreManager.json_is_str String.eqb Ascii.eqb
                      Bool.eqb].
  - unfold ServiceManager.stop_service, try_except.
    rewrite (bind_run _ _ _ _ _ (sim_get_service_status service_name w)). rewrite Hsvc.
    destruct st'; cbn [ServiceState_eqb ServiceState_value String.eqb Ascii.eqb Bool.eqb].
    + unfold ret. exists w. rewrite Hsvc. auto.
    + unfold bind, ret. change (net_stop service_name w) with (net STOPPED service_name w).
      unfold net. rewrite Hsvc. eexists. split; [reflexivity|].
      cbn [services set_services files hives]. rewrite lookup_insert_eq. auto.
    + unfold bind, ret. change (net_stop service_name w) with (net STOPPED service_name w).
      unfold net. rewrite Hsvc. eexists. split; [reflexivity|].
      cbn [services set_services files hives]. rewrite lookup_insert_eq. auto.
    + unfold bind, ret. change (net_stop service_name w) with (net STOPPED service_name w).
      unfold net. rewrite Hsvc. eexists. split; [reflexivity|].
      cbn [services set_services files hives]. rewrite lookup_insert_eq. auto.
  - unfold ServiceManager.start_service, try_except.
    rewrite (bind_run _ _ _ _ _ (sim_get_service_status service_name w)). rewrite Hsvc.
    destruct st'; cbn [ServiceState_eqb ServiceState_value String.eqb Ascii.eqb Bool.eqb].
    + unfold bind, ret. change (net_start service_name w) with (net RUNNING service_name w).
      unfold net. rewrite Hsvc. eexists. split; [reflexivity|].
      cbn [services set_services files hives]. rewrite lookup_insert_eq. auto.
    + unfold ret. exists w. rewrite Hsvc. auto.
    + unfold bind, ret. change (net_start service_name w) with (net RUNNING service_name w).
      unfold net. rewrite Hsvc. eexists. split; [reflexivity|].
      cbn [services set_services files hives]. rewrite lookup_insert_eq. auto.
    + unfold bind, ret. change (net_start service_name w) with (net RUNNING service_name w).
      unfold net. rewrite Hsvc. eexists. split; [reflexivity|].
      cbn [services set_services files hives]. rewrite lookup_insert_eq. auto.
  - unfold ret. exists w. auto.
  - unfold ret. exists w. auto.
Qed.


End SimServices.

Section SimPowerPlan.
Import Sim SimMore.

Lemma sim_setactive (guid name : string) (w : world) :
  assoc_get guid (plans w) = Some name ->
  shell (setactive ++ guid) w = (set_active_plan guid w, {| success := true; stdout := "" |}).
Proof.
  intros H. unfold shell.
  change (is_prefix setactive (setactive ++ guid)) with true. cbv iota.
  change (drop (String.length setactive) (setactive ++ guid)) with guid.
  now rewrite H.
Qed.

Lemma sim_setactive_missing (guid : string) (w : world) :
  assoc_get guid (plans w) = None ->
  shell (setactive ++ guid) w = (w, {| success := false; stdout := "" |}).
Proof.
  intros H. unfold shell.
  change (is_prefix setactive (setactive ++ guid)) with true. cbv iota.
  change (drop (String.length setactive) (setactive ++ guid)) with guid.
  now rewrite H.
Qed.

Lemma sim_restore_power_plan (output timestamp name : string) (w : world) :
  is_substring "Ultimate Performance" output = false ->
  assoc_get Examples.high_performance_guid (plans w) = Some name ->
  RestoreManager._restore_power_plan (power_snapshot output timestamp) w =
  (set_active_plan Examples.high_performance_guid w, Ok true).
Proof.
  intros Hout Hhp.
  unfold power_snapshot.
  rewrite (restore_power_plan_fallback
             [("output", JStr output); ("timestamp", JStr timestamp)] output w eq_refl Hout).
  unfold RestoreManager.high_performance_fallback, RestoreManager.powershell, bind, ret.
  change (run_powershell RestoreManager.high_performance w)
    with (shell (setactive ++ Examples.high_performance_guid) w).
  now rewrite (sim_setactive _ _ _ Hhp).
Qed.

(** X24. On the reference machine, reverting the power plan optimization
    does not bring back the plan that was active before it was applied. On
    an elevated machine where the High performance plan is installed and
    the active plan is any plan whose name does not contain
    ["Ultimate Performance"], [_safe_apply] succeeds, the [_safe_revert]
    that follows reports success and resets the status to [NOT_APPLIED],
    and the active plan is then the High performance plan. *)
Theorem power_plan_revert_activates_high_performance (supports_ultimate_performance : bool)
    (self : base.Self) (w : world) (plan_name high_performance_name : string) :
  let o := PowerPlanOptimization.subclass supports_ultimate_performance in
  elevated w = true ->
  can_write (BackupManager.info_file ("PowerPlanOptimization_" ++ pretty (clock w))) w = true ->
  assoc_get (active_plan w) (plans w) = Some plan_name ->
  is_substring "Ultimate Performance" plan_name = false ->
  assoc_get Examples.high_performance_guid (plans w) = Some high_performance_name ->
  exists applied r1 reverted r2,
    base._safe_apply o (self, w) = (applied, Ok r1) /\ base.success r1 = true /\
    base._safe_revert o applied = (reverted, Ok r2) /\ base.success r2 = true /\
    base.status (fst reverted) = base.NOT_APPLIED /\
    active_plan (snd reverted) = Examples.high_performance_guid.
Proof.
  intros o Hel Hwi Hactive Hname Hhp.
  set (backup_id := "PowerPlanOptimization_" ++ pretty (clock w)) in *.
  set (info := BackupManager.info_file backup_id) in *.
  set (L := {| operation := "PowerPlanOptimization"; timestamp := pretty (clock w);
               registry_backups := []; file_backups := []; service_states := [];
               power_settings := power_snapshot plan_name (pretty (clock w));
               startup_items := [] |}).
  (* validation *)
  assert (Hval : base._validate_environment o (self, w) = ((self, w), Ok true)).
  { unfold base._validate_environment.
    cbn [base.check_compatibility base.requires_admin o PowerPlanOptimization.subclass].
    unfold bind at 1. unfold ret at 1. cbn [negb].
    assert (Hadmin : UACElevation.is_admin w = (w, Ok true)).
    { unfold UACElevation.is_admin, try_except, bind, read, ret.
      change (is_user_an_admin w) with (@Ok Z (if elevated w then 1%Z else 0%Z)).
      now rewrite Hel. }
    now rewrite (bind_run _ _ _ _ _ (lift_run _ self _ _ _ Hadmin)). }
  (* the ledger *)
  set (w1 := set_files
               (<[info := File (clock w)
                    (Doc (doc_of (fresh_ledger "PowerPlanOptimization" (pretty (clock w)))))]>
                  (files w)) w).
  set (self1 := {| base.backup_id := Some backup_id; base.status := base.status self;
                   base.last_result := base.last_result self |}).
  assert (Hcreate : base.create_backup o (self, w) = ((self1, w1), Ok true)).
  { unfold base.create_backup, try_except.
    cbn [base.name o PowerPlanOptimization.subclass].
    rewrite (bind_run _ _ _ _ _
               (lift_run _ self _ _ _
                  (sim_create_operation_backup "PowerPlanOptimization" w Hwi))).
    reflexivity. }
  (* the capture of the active plan *)
  set (w2 := set_files (<[info := File (clock w) (Doc (doc_of L))]> (files w1)) w1).
  assert (Hcapture : BackupManager.backup_power_plan backup_id w1 = (w2, Ok true)).
  { unfold BackupManager.backup_power_plan, try_except.
    unfold bind at 1.
    change (run_powershell BackupManager.get_power_plan_script w1)
      with (shell BackupManager.get_power_plan_script w1).
    unfold shell.
    change (is_prefix setactive BackupManager.get_power_plan_script) with false.
    change (is_prefix "Get-WmiObject" BackupManager.get_power_plan_script) with true.
    cbv iota. change (active_plan w1) with (active_plan w).
    change (plans w1) with (plans w). rewrite Hactive. cbn [success stdout].
    unfold bind at 1. unfold read at 1. cbv beta iota.
    change (now_isoformat w1) with (pretty (clock w)).
    erewrite bind_run;
      [| apply (sim_update_backup_info backup_id "power_settings" _ None
                  (doc_of (fresh_ledger "PowerPlanOptimization" (pretty (clock w))))
                  (doc_of L) (clock w));
         [ fold info; unfold w1; cbn [files set_files]; apply lookup_insert_eq
         | exact Hwi
         | reflexivity ] ].
    reflexivity. }
  (* the activation *)
  assert (Hact : exists guid r1,
    base.apply o (self1, w1) = ((self1, set_active_plan guid w2), Ok r1) /\
    base.success r1 = true).
  { cbn [base.apply o PowerPlanOptimization.subclass].
    unfold PowerPlanOptimization.apply, try_except.
    unfold bind at 1. unfold base.get_self at 1. cbn [fst snd base.backup_id self1].
    change (BackupManager.key_given (Some backup_id)) with (Some backup_id). cbv iota.
    rewrite (bind_run _ _ (self1, w1) (self1, w2) tt);
      [| now rewrite (bind_run _ _ _ _ _ (lift_run _ self1 _ _ _ Hcapture)) ].
    assert (Hhigh : RestoreManager.powershell RestoreManager.high_performance w2 =
                    (set_active_plan Examples.high_performance_guid w2,
                     Ok {| success := true; stdout := "" |})).
    { unfold RestoreManager.powershell.
      change (run_powershell RestoreManager.high_performance w2)
        with (shell (setactive ++ Examples.high_performance_guid) w2).
      now rewrite (sim_setactive _ high_performance_name w2 Hhp). }
    destruct supports_ultimate_performance.
    - destruct (assoc_get MoreExamples.ultimate_performance_guid (plans w)) as [n|] eqn:Hult.
      + assert (Hu : RestoreManager.powershell RestoreManager.ultimate_performance w2 =
                     (set_active_plan MoreExamples.ultimate_performance_guid w2,
                      Ok {| success := true; stdout := "" |})).
        { unfold RestoreManager.powershell.
          change (run_powershell RestoreManager.ultimate_performance w2)
            with (shell (setactive ++ MoreExamples.ultimate_performance_guid) w2).
          now rewrite (sim_setactive _ n w2 Hult). }
        rewrite (bind_run _ _ (self1, w2) (self1, set_active_plan MoreExamples.ultimate_performance_guid w2)
                   true);
          [| now rewrite (bind_run _ _ _ _ _ (lift_run _ self1 _ _ _ Hu)) ].
        eexists _, _. split; reflexivity.
      + assert (Hu : RestoreManager.powershell RestoreManager.ultimate_performance w2 =
                     (w2, Ok {| success := false; stdout := "" |})).
        { unfold RestoreManager.powershell.
          change (run_powershell RestoreManager.ultimate_performance w2)
            with (shell (setactive ++ MoreExamples.ultimate_performance_guid) w2).
          now rewrite (sim_setactive_missing _ w2 Hult). }
        rewrite (bind_run _ _ (self1, w2) (self1, w2) false);
          [| now rewrite (bind_run _ _ _ _ _ (lift_run _ self1 _ _ _ Hu)) ].
        rewrite (bind_run _ _ _ _ _ (lift_run _ self1 _ _ _ Hhigh)).
        eexists _, _. split; reflexivity.
    - unfold bind at 1. unfold ret at 1.
      rewrite (bind_run _ _ _ _ _ (lift_run _ self1 _ _ _ Hhigh)).
      eexists _, _. split; reflexivity. }
  destruct Hact as (guid & r1 & Happly & Hr1).
  set (w3 := set_active_plan guid w2) in *.
  set (self2 := {| base.backup_id := Some backup_id; base.status := base.APPLIED;
                   base.last_result := Some r1 |}).
  assert (Hsafe : base._safe_apply o (self, w) = ((self2, w3), Ok r1)).
  { unfold base._safe_apply, try_except.
    rewrite (bind_run _ _ _ _ _ Hval). cbn [negb].
    rewrite (bind_run _ _ _ _ _ Hcreate). cbn [negb].
    rewrite (bind_run _ _ _ _ _ Happly).
    unfold bind, base.set_status, base.set_last_result, ret. rewrite Hr1. reflexivity. }
  (* the revert *)
  assert (Hget : BackupManager.get_backup_info backup_id w3 = (w3, Ok (Some (doc_of L)))).
  { apply get_backup_info_found; fold info.
    - change (path_exists info w3) with (exists_ info w3). unfold exists_.
      unfold w3, w2. cbn [files set_files set_active_plan]. now rewrite lookup_insert_eq.
    - change (json_load info w3) with (load info w3). unfold load.
      unfold w3, w2. cbn [files set_files set_active_plan]. now rewrite lookup_insert_eq. }
  assert (Hrestore : RestoreManager.restore_operation backup_id w3 =
                     (set_active_plan Examples.high_performance_guid w3, Ok true)).
  { rewrite (restore_operation_found backup_id (doc_of L) w3 Hget eq_refl).
    unfold try_except. rewrite restore_sections_traversal.
    unfold restore_all. cbn [registry_backups file_backups service_states power_settings
      startup_items L run_all truthy power_snapshot].
    rewrite (sim_restore_power_plan plan_name (pretty (clock w)) high_performance_name w3
               Hname Hhp).
    reflexivity. }
  set (w4 := set_active_plan Examples.high_performance_guid w3) in *.
  assert (Hrev : exists r2,
    base.revert o (self2, w3) = ((self2, w4), Ok r2) /\ base.success r2 = true).
  { cbn [base.revert o PowerPlanOptimization.subclass].
    unfold PowerPlanOptimization.revert, try_except.
    unfold bind at 1. unfold base.get_self at 1. cbn [fst snd base.backup_id self2].
    change (BackupManager.key_given (Some backup_id)) with (Some backup_id). cbv iota.
    rewrite (bind_run _ _ _ _ _ (lift_run _ self2 _ _ _ Hrestore)).
    eexists. split; reflexivity. }
  destruct Hrev as (r2 & Hrev & Hr2).
  eexists (self2, w3), r1, _, r2. split; [exact Hsafe|]. split; [exact Hr1|].
  unfold base._safe_revert, try_except.
  unfold bind at 1. unfold base.get_self at 1. cbn [fst snd base.can_revert base.is_applied
    base.backup_id base.status self2 negb].
  rewrite (bind_run _ _ _ _ _ Hrev).
  unfold bind, base.set_status, base.set_last_result, ret. rewrite Hr2.
  cbn [fst snd]. repeat split.
Qed.

End SimPowerPlan.

(** ** The further properties on example machines *)

Section MoreWitnesses.
Import Sim SimMore Examples MoreExamples.

(** Witness of X3: the run entry of the current user. *)
Lemma restore_startup_item_writes_the_captured_value_witness :
  RestoreManager.restore_startup_item user_item empty_world =
  registry.write_value HKEY_CURRENT_USER (JStr BackupManager.run_key) (JStr "app")
    (JStr "a.exe") REG_SZ empty_world.
Proof.
  apply (restore_startup_item_writes_the_captured_value HKEY_CURRENT_USER
           BackupManager.run_key "app" (JStr "a.exe") empty_world); reflexivity.
Defined.

(** Witness of X4: a snapshot of the Balanced plan. *)
Lemma restore_power_plan_ignores_the_captured_plan_witness :
  RestoreManager._restore_power_plan balanced empty_world =
  (fst (run_powershell RestoreManager.high_performance empty_world),
   Ok (success (snd (run_powershell RestoreManager.high_performance empty_world)))).
Proof.
  apply (restore_power_plan_ignores_the_captured_plan
           [("output", JStr "Balanced"); ("timestamp", JStr "1000")] "Balanced" empty_world);
    reflexivity.
Defined.

(** Witness of X7: an operation opened on the empty machine. *)
Lemma restore_of_a_fresh_operation_is_noop_witness :
  BackupManager.get_backup_info "op_1000" service_opened =
    (service_opened, Ok (Some (doc_of (fresh_ledger "op" (now_strftime empty_world))))) /\
  RestoreManager.restore_operation "op_1000" service_opened = (service_opened, Ok true).
Proof.
  apply (restore_of_a_fresh_operation_is_noop "op" empty_world service_opened "op_1000").
  - apply sim_ledger_cell.
  - vm_compute. reflexivity.
Defined.

(** Witness of X10: the ledger with a file and a power plan. *)
Lemma preview_lists_the_actions_in_restore_order_witness :
  exists actions,
    RestoreManager.get_restore_preview "op_1000" with_file_and_plan =
      (with_file_and_plan,
       Ok (Some (JDict [("operation", JStr (operation file_and_plan));
                        ("timestamp", JStr (timestamp file_and_plan));
                        ("actions", JList actions)]))) /\
    map (fun a => py_get a "type" JNull) actions =
    map (fun k => Ok (JStr k)) (action_kinds file_and_plan).
Proof.
  apply (preview_lists_the_actions_in_restore_order "op_1000" file_and_plan
           with_file_and_plan).
  - vm_compute. reflexivity.
  - reflexivity.
  - reflexivity.
  - reflexivity.
Defined.

(** Witness of X11: two operations opened at different times. *)
Lemma list_backups_newest_first_witness :
  exists backups,
    BackupManager.list_backups (fun l => Ok l) two_operations = (two_operations, Ok backups) /\
    Permutation
      (omap (fun info_file => BackupManager.read_backup info_file two_operations)
         (fst (path_glob BackupManager.backup_root "*_info.json" two_operations))) backups /\
    StronglySorted not_older backups.
Proof.
  apply (list_backups_newest_first (fun l => Ok l) two_operations).
  vm_compute. reflexivity.
Defined.

(** Witness of X12: a document with a number as timestamp beside one of the
    engine. *)
Lemma list_backups_raises_on_mixed_timestamps_witness :
  BackupManager.list_backups (fun l => Ok l) mixed_timestamps = (mixed_timestamps, Raise TypeError).
Proof.
  apply (list_backups_raises_on_mixed_timestamps (fun l => Ok l) mixed_timestamps);
    vm_compute; reflexivity.
Defined.

(** Witness of X14: the Xbox Game Bar optimization on an elevated machine. *)
Lemma successful_apply_is_applied_witness :
  base.status (fst (fst xbox_applied)) = base.APPLIED /\
  base.last_result (fst (fst xbox_applied)) = Some (result_of xbox_applied) /\
  exists sw1 w2 id sw3,
    base._validate_environment xbox (base.new, elevated_world) = (sw1, Ok true) /\
    BackupManager.create_operation_backup (base.name xbox) (snd sw1) = (w2, Ok id) /\
    base.apply xbox ({| base.backup_id := Some id; base.status := base.status (fst sw1);
                        base.last_result := base.last_result (fst sw1) |}, w2)
      = (sw3, Ok (result_of xbox_applied)) /\
    base.backup_id (fst (fst xbox_applied)) = base.backup_id (fst sw3) /\
    snd (fst xbox_applied) = snd sw3.
Proof.
  apply (successful_apply_is_applied xbox (base.new, elevated_world) (fst xbox_applied)
           (result_of xbox_applied)); vm_compute; reflexivity.
Defined.

(** Witness of X15: the power plan optimization where no plan is
    installed. *)
Lemma failed_apply_cannot_be_reverted_witness :
  exists sw3 r,
    base._safe_apply power (base.new, no_plans) = (sw3, Ok r) /\
    base.success r = false /\
    base.status (fst sw3) = base.ERROR /\
    base._safe_revert power sw3 = (sw3, Ok (refusal sw3)).
Proof.
  apply (failed_apply_cannot_be_reverted power (base.new, no_plans) (fst power_validated)
           (fst power_backed_up)); vm_compute; reflexivity.
Defined.

(** Witness of X16: a simulation after the optimization was applied. *)
Lemma simulation_forfeits_the_revert_witness :
  base._safe_revert xbox (fst xbox_simulated) =
  (fst xbox_simulated, Ok (refusal (fst xbox_simulated))).
Proof.
  apply (simulation_forfeits_the_revert xbox (fst xbox_applied) (fst xbox_simulated)
           (result_of xbox_simulated)); vm_compute; reflexivity.
Defined.

(** Witness of X17: the applied optimization, reverted. *)
Lemma revert_is_not_repeated_witness :
  base._safe_revert xbox (fst xbox_reverted) =
  (fst xbox_reverted, Ok (refusal (fst xbox_reverted))).
Proof.
  apply (revert_is_not_repeated xbox (fst xbox_applied) (fst xbox_reverted)
           (result_of xbox_reverted)); vm_compute; reflexivity.
Defined.




(** Witness of X24: the Balanced plan is active on the elevated machine. *)
Lemma power_plan_revert_activates_high_performance_witness :
  exists applied r1 reverted r2,
    base._safe_apply power (base.new, elevated_world) = (applied, Ok r1) /\
    base.success r1 = true /\
    base._safe_revert power applied = (reverted, Ok r2) /\ base.success r2 = true /\
    base.status (fst reverted) = base.NOT_APPLIED /\
    active_plan (snd reverted) = high_performance_guid.
Proof.
  apply (power_plan_revert_activates_high_performance false base.new elevated_world
           "Balanced" "High performance"); vm_compute; reflexivity.
Defined.

End MoreWitnesses.

(** ** Directories on the reference machine *)

Lemma string_app_assoc (a b c : string) : (a ++ b) ++ c = a ++ (b ++ c).
Proof.
  induction a as [|x a IH]; [reflexivity|].
  change (String x ((a ++ b) ++ c) = String x (a ++ (b ++ c))). now f_equal.
Qed.

Lemma is_prefix_app (p s : string) : is_prefix p (p ++ s) = true.
Proof.
  induction p as [|c p IH]; [reflexivity|].
  change (Ascii.eqb c c && is_prefix p (p ++ s) = true).
  now rewrite Ascii.eqb_refl, IH.
Qed.

Lemma is_prefix_drop (p s : string) :
  is_prefix p s = true -> p ++ Sim.drop (String.length p) s = s.
Proof.
  revert s. induction p as [|c p IH]; intros s H; [reflexivity|].
  destruct s as [|c' s]; [discriminate|].
  change (Ascii.eqb c c' && is_prefix p s = true) in H.
  apply andb_prop in H as [Hc Hp]. apply Ascii.eqb_eq in Hc. subst c'.
  change (String c (p ++ Sim.drop (String.length p) s) = String c s).
  f_equal. now apply IH.
Qed.

Lemma drop_app (p s : string) : Sim.drop (String.length p) (p ++ s) = s.
Proof. induction p as [|c p IH]; [reflexivity | exact IH]. Qed.

Section SimDirectories.
Import Sim SimMore.

Lemma under_join (dir q : string) :
  under dir q = true -> path_join dir (drop (String.length (dir ++ BS)) q) = q.
Proof.
  intros H. unfold path_join. rewrite <- string_app_assoc. now apply is_prefix_drop.
Qed.

Lemma join_under (dir r : string) : under dir (path_join dir r) = true.
Proof. unfold under, path_join. rewrite <- string_app_assoc. apply is_prefix_app. Qed.

Lemma drop_join (dir r : string) :
  drop (String.length (dir ++ BS)) (path_join dir r) = r.
Proof. unfold path_join. rewrite <- string_app_assoc. apply drop_app. Qed.

Lemma path_join_inj (dir r r' : string) : path_join dir r = path_join dir r' -> r = r'.
Proof.
  unfold path_join. intros H. apply String.app_inj in H. now apply String.app_inj in H.
Qed.

Lemma under_not_self (dir : string) : under dir dir = false.
Proof.
  unfold under. destruct (is_prefix (dir ++ BS) dir) eqn:E; [|reflexivity].
  apply is_prefix_drop in E.
  assert (Hlen : String.length ((dir ++ BS) ++ drop (String.length (dir ++ BS)) dir) =
                 String.length dir) by (now rewrite E).
  assert (Happ : forall a b, String.length (a ++ b) = (String.length a + String.length b)%nat).
  { intros a b. induction a as [|x a IHa]; [reflexivity|].
    change (S (String.length (a ++ b)) = S (String.length a + String.length b)).
    now rewrite IHa. }
  rewrite !Happ in Hlen. simpl in Hlen. lia.
Qed.

(** The content of an archive made of [src]: one entry per file under
    [src]. *)
Lemma in_tree_entries (src r : string) (d : blob) (w : world) :
  (r, d) ∈ tree_entries src w <->
  exists m, files w !! path_join src r = Some (File m d).
Proof.
  unfold tree_entries. rewrite list_elem_of_omap. split.
  - intros ([q n] & Hin & Hf). apply elem_of_map_to_list in Hin. cbn [fst snd] in Hf.
    destruct n as [m d'|]; [|discriminate].
    destruct (under src q) eqn:Hu; [|discriminate].
    inversion Hf; subst. exists m. now rewrite (under_join _ _ Hu).
  - intros [m Hm]. exists (path_join src r, File m d). split.
    + now apply elem_of_map_to_list.
    + cbn [fst snd]. now rewrite join_under, drop_join.
Qed.

Lemma extract_other (dir : string) (c : Z) (es : list (string * blob)) (q : string) :
  forall f0 : gmap string node,
    (forall e, e ∈ es -> path_join dir (fst e) <> q) ->
    fold_left (fun f e => <[path_join dir (fst e) := File c (snd e)]> f) es f0 !! q = f0 !! q.
Proof.
  induction es as [|e es IH]; intros f0 H; simpl; [reflexivity|].
  rewrite IH by (intros e' He'; apply H; now right).
  apply lookup_insert_ne. apply H. now left.
Qed.

Lemma extract_entry (dir : string) (c : Z) (es : list (string * blob)) (r : string)
    (d : blob) :
  (forall d1 d2, (r, d1) ∈ es -> (r, d2) ∈ es -> d1 = d2) ->
  (r, d) ∈ es ->
  forall f0 : gmap string node,
    fold_left (fun f e => <[path_join dir (fst e) := File c (snd e)]> f) es f0
      !! path_join dir r = Some (File c d).
Proof.
  induction es as [|e es IH]; intros Hfun Hin f0; [now apply elem_of_nil in Hin|].
  simpl. destruct (decide (r ∈ fst <$> es)) as [Hr|Hr].
  - apply list_elem_of_fmap in Hr as ([r' d'] & Hr' & He). simpl in Hr'. subst r'.
    assert (d' = d) by (apply Hfun; [now right | assumption]). subst d'.
    apply IH; [|assumption].
    intros d1 d2 H1 H2. apply Hfun; now right.
  - apply elem_of_cons in Hin as [He|Hin].
    + subst e. rewrite extract_other.
      * apply lookup_insert_eq.
      * intros e' He' Heq. apply path_join_inj in Heq. apply Hr.
        apply list_elem_of_fmap. now exists e'.
    + exfalso. apply Hr. apply list_elem_of_fmap. now exists (r, d).
Qed.

(** What [extractall] leaves under the directory it extracts into, when
    nothing was there before. *)
Lemma extract_under (dir : string) (c : Z) (w : world) (f0 : gmap string node) (q : string) :
  under dir q = true ->
  f0 !! q = None ->
  fold_left (fun f e => <[path_join dir (fst e) := File c (snd e)]> f)
    (tree_entries dir w) f0 !! q =
  match files w !! q with
  | Some (File _ d) => Some (File c d)
  | _ => None
  end.
Proof.
  intros Hu Hq.
  destruct (files w !! q) as [[m d|]|] eqn:Hf.
  - rewrite <- (under_join _ _ Hu). apply extract_entry.
    + intros d1 d2 H1 H2. apply in_tree_entries in H1 as [m1 H1], H2 as [m2 H2].
      congruence.
    + apply in_tree_entries. exists m. now rewrite (under_join _ _ Hu).
  - rewrite extract_other; [exact Hq|].
    intros [r d] He Heq. apply in_tree_entries in He as [m Hm]. cbn [fst] in Heq.
    congruence.
  - rewrite extract_other; [exact Hq|].
    intros [r d] He Heq. apply in_tree_entries in He as [m Hm]. cbn [fst] in Heq.
    congruence.
Qed.

Lemma rmtree_lookup (dir q : string) (w : world) :
  files (fst (rmtree dir w)) !! q =
  if String.eqb q dir || under dir q then None else files w !! q.
Proof.
  unfold rmtree. cbn [fst files set_files].
  destruct (String.eqb q dir || under dir q) eqn:E.
  - apply map_lookup_filter_None_2. right. intros x _. cbn [fst]. rewrite E. discriminate.
  - destruct (files w !! q) as [n|] eqn:Hq.
    + apply map_lookup_filter_Some_2; [exact Hq|]. cbn [fst]. now rewrite E.
    + apply map_lookup_filter_None_2. now left.
Qed.

Lemma zip_of_nonempty (backup_id source : string) : zip_of backup_id source <> "".
Proof. discriminate. Qed.

Lemma sim_restore_directory (dir zip description : string) (w0 w : world) (t : Z)
    (n : node) :
  files w !! zip = Some (File t (Archive (tree_entries dir w0))) ->
  zip <> "" ->
  under dir zip = false -> zip <> dir ->
  files w !! dir = Some n ->
  exists w',
    RestoreManager._restore_file_backup (directory_entry dir zip description) w = (w', Ok true) /\
    forall q, under dir q = true ->
      files w' !! q =
      match files w0 !! q with
      | Some (File _ d) => Some (File (clock w) d)
      | _ => None
      end.
Proof.
  intros Hzip Hne Hunder Hzd Hdir.
  unfold RestoreManager._restore_file_backup, try_except.
  unfold bind at 1. unfold read at 1.
  change (py_get (directory_entry dir zip description) "original_path" JNull)
    with (Ok (JStr dir)).
  cbv beta iota.
  unfold bind at 1. unfold read at 1.
  change (py_get (directory_entry dir zip description) "backup_path" JNull)
    with (Ok (JStr zip)).
  cbv beta iota.
  unfold bind at 1. unfold read at 1.
  change (py_get (directory_entry dir zip description) "type" (JStr "file"))
    with (Ok (JStr "directory_zip")).
  cbv beta iota.
  unfold bind at 1. unfold RestoreManager.blob_missing.
  assert (Ht : truthy (JStr zip) = true).
  { simpl. apply String.eqb_neq in Hne. now rewrite Hne. }
  rewrite Ht. change (negb true) with false. cbv iota.
  unfold bind at 1. unfold read at 1. change (py_path (JStr zip)) with (Ok zip).
  cbv beta iota.
  unfold bind at 1. unfold read at 1.
  change (path_exists zip w) with (exists_ zip w). unfold exists_, ret. rewrite Hzip.
  cbv beta iota. change (negb true) with false. cbv iota.
  change (RestoreManager.json_is_str (JStr "directory_zip") "directory_zip") with true.
  cbv iota.
  unfold RestoreManager._restore_directory_from_zip, try_except.
  unfold bind at 1. unfold read at 1. change (py_path (JStr dir)) with (Ok dir).
  cbv beta iota.
  unfold bind at 1. unfold read at 1. change (py_path (JStr zip)) with (Ok zip).
  cbv beta iota.
  unfold bind at 1. unfold read at 1.
  change (path_exists dir w) with (exists_ dir w). unfold exists_. rewrite Hdir.
  cbv beta iota.
  unfold bind at 1.
  change (shutil_rmtree dir w) with (rmtree dir w).
  set (w1 := fst (rmtree dir w)).
  assert (Hrm : rmtree dir w = (w1, Ok tt)) by reflexivity.
  rewrite Hrm.
  assert (Hdir1 : files w1 !! dir = None).
  { unfold w1. rewrite rmtree_lookup. now rewrite String.eqb_refl. }
  assert (Hzip1 : files w1 !! zip = Some (File t (Archive (tree_entries dir w0)))).
  { unfold w1. rewrite rmtree_lookup.
    apply String.eqb_neq in Hzd. now rewrite Hzd, Hunder. }
  unfold bind at 1.
  change (path_mkdir dir w1) with (mkdir dir w1). unfold mkdir. rewrite Hdir1.
  unfold bind at 1.
  change (zip_extractall zip dir ?v) with (extractall zip dir v). unfold extractall.
  cbn [files set_files]. rewrite lookup_insert_ne by congruence. rewrite Hzip1.
  unfold ret. eexists. split; [reflexivity|].
  intros q Hq. cbn [files set_files clock].
  change (clock w1) with (clock w).
  apply extract_under; [exact Hq|].
  assert (q <> dir) by (intros ->; rewrite under_not_self in Hq; discriminate).
  rewrite lookup_insert_ne by congruence.
  unfold w1. rewrite rmtree_lookup. now rewrite Hq, orb_true_r.
Qed.


(** X26. On the reference machine, a directory restore that cannot read its
    archive has already emptied the directory: when the blob the ledger
    entry names is not an archive, [_restore_file_backup] reports failure,
    and no file is left under the directory. *)
Theorem failed_directory_restore_leaves_the_directory_empty (dir zip description text : string)
    (w : world) (t : Z) (n : node) :
  files w !! zip = Some (File t (Text text)) ->
  String.eqb zip "" = false ->
  under dir zip = false -> String.eqb zip dir = false ->
  files w !! dir = Some n ->
  exists w',
    RestoreManager._restore_file_backup (directory_entry dir zip description) w = (w', Ok false) /\
    forall q, under dir q = true -> files w' !! q = None.
Proof.
  intros Hzip Hne Hunder Hzd Hdir.
  apply String.eqb_neq in Hzd.
  unfold RestoreManager._restore_file_backup, try_except.
  unfold bind at 1. unfold read at 1.
  change (py_get (directory_entry dir zip description) "original_path" JNull)
    with (Ok (JStr dir)).
  cbv beta iota.
  unfold bind at 1. unfold read at 1.
  change (py_get (directory_entry dir zip description) "backup_path" JNull)
    with (Ok (JStr zip)).
  cbv beta iota.
  unfold bind at 1. unfold read at 1.
  change (py_get (directory_entry dir zip description) "type" (JStr "file"))
    with (Ok (JStr "directory_zip")).
  cbv beta iota.
  unfold bind at 1. unfold RestoreManager.blob_missing.
  assert (Ht : truthy (JStr zip) = true) by (simpl; now rewrite Hne).
  rewrite Ht. change (negb true) with false. cbv iota.
  unfold bind at 1. unfold read at 1. change (py_path (JStr zip)) with (Ok zip).
  cbv beta iota.
  unfold bind at 1. unfold read at 1.
  change (path_exists zip w) with (exists_ zip w). unfold exists_, ret. rewrite Hzip.
  cbv beta iota. change (negb true) with false. cbv iota.
  change (RestoreManager.json_is_str (JStr "directory_zip") "directory_zip") with true.
  cbv iota.
  unfold RestoreManager._restore_directory_from_zip, try_except.
  unfold bind at 1. unfold read at 1. change (py_path (JStr dir)) with (Ok dir).
  cbv beta iota.
  unfold bind at 1. unfold read at 1. change (py_path (JStr zip)) with (Ok zip).
  cbv beta iota.
  unfold bind at 1. unfold read at 1.
  change (path_exists dir w) with (exists_ dir w). unfold exists_. rewrite Hdir.
  cbv beta iota.
  unfold bind at 1.
  change (shutil_rmtree dir w) with (rmtree dir w).
  set (w1 := fst (rmtree dir w)).
  assert (Hrm : rmtree dir w = (w1, Ok tt)) by reflexivity.
  rewrite Hrm.
  assert (Hdir1 : files w1 !! dir = None).
  { unfold w1. rewrite rmtree_lookup. now rewrite String.eqb_refl. }
  assert (Hzip1 : files w1 !! zip = Some (File t (Text text))).
  { unfold w1. rewrite rmtree_lookup.
    apply String.eqb_neq in Hzd. now rewrite Hzd, Hunder. }
  unfold bind at 1.
  change (path_mkdir dir w1) with (mkdir dir w1). unfold mkdir. rewrite Hdir1.
  unfold bind at 1.
  change (zip_extractall zip dir ?v) with (extractall zip dir v). unfold extractall.
  cbn [files set_files]. rewrite lookup_insert_ne by congruence. rewrite Hzip1.
  unfold ret. eexists. split; [reflexivity|].
  intros q Hq. cbn [files set_files].
  assert (q <> dir) by (intros ->; rewrite under_not_self in Hq; discriminate).
  rewrite lookup_insert_ne by congruence.
  unfold w1. rewrite rmtree_lookup. now rewrite Hq, orb_true_r.
Qed.

End SimDirectories.

Section DirectoryWitnesses.
Import Sim SimMore Examples MoreExamples.


(** Witness of X26: the blob is a text file. *)
Lemma failed_directory_restore_leaves_the_directory_empty_witness :
  exists w',
    RestoreManager._restore_file_backup (directory_entry dir_d junk_zip "") with_junk
      = (w', Ok false) /\
    forall q, under dir_d q = true -> files w' !! q = None.
Proof.
  apply (failed_directory_restore_leaves_the_directory_empty dir_d junk_zip "" "junk"
           with_junk 1 Dir); vm_compute; reflexivity.
Defined.

End DirectoryWitnesses.

